(** * Program enrollments REST API (v1): batch enrollment and grade views

    A shallow embedding of
    [lms/djangoapps/program_enrollments/rest_api/v1/views.py]:
    - [ProgramEnrollmentsView]        (batch program enrollment),
    - [ProgramCourseEnrollmentsView]  (batch course enrollment),
    - [ProgramCourseGradesView]       (grade listing),
    - [UserProgramReadOnlyAccessView] (programs a user may read),
    - [EnrollmentDataResetView]       (reset of the data of an organization),
    and of [openedx/core/djangoapps/xblock/learning_context/manager.py]
    (the cache of learning contexts), together with the properties of these
    views that the specification states and further properties that the
    code shows.

    Request bodies are parsed JSON, modelled by [pyval]. The relational store
    is a pair of tables, threaded explicitly through every view; exceptions
    are values of [exn] carried by the left injection of a sum. *)

From stdpp Require Import base option list gmap sets strings fin_maps.
From Stdlib Require Import ZArith Lia.
From Stdlib Require QArith.

Set Warnings "-clear-no-such-hyp".

(** ** Python values and exceptions *)

(** A parsed JSON document as the request handler receives it in
    [request.data]. JSON numbers are restricted to integers. *)
#[warnings="-register-all"]
Inductive pyval : Type :=
  | PNone
  | PBool (b : bool)
  | PInt (z : Z)
  | PStr (s : string)
  | PList (l : list pyval)
  | PDict (d : list (string * pyval)).

(** Hashable Python values up to [==]: what a [set] or a [dict] keeps as a
    key. [True == 1] and [False == 0] in Python, and they hash alike, so
    booleans and integers share a constructor. *)
Inductive hkey : Type :=
  | KNone
  | KNum (z : Z)
  | KStr (s : string).

#[global] Instance hkey_eq_dec : EqDecision hkey.
Proof. solve_decision. Defined.

Definition hkey_to_sum (k : hkey) : unit + (Z + string) :=
  match k with
  | KNone => inl tt
  | KNum z => inr (inl z)
  | KStr s => inr (inr s)
  end.

Definition hkey_of_sum (x : unit + (Z + string)) : hkey :=
  match x with
  | inl _ => KNone
  | inr (inl z) => KNum z
  | inr (inr s) => KStr s
  end.

#[global] Instance hkey_countable : Countable hkey.
Proof.
  apply (inj_countable' hkey_to_sum hkey_of_sum).
  intros []; reflexivity.
Defined.

(** The exceptions the views raise, catch or let through. [ServerError]
    stands for every exception of a collaborator that no handler of the
    views names. *)
Inductive exn : Type :=
  | KeyError
  | TypeError
  | AttributeError
  | ValidationError
  | ProviderDoesNotExistException
  | ServerError.

#[global] Instance exn_eq_dec : EqDecision exn.
Proof. solve_decision. Defined.

(** A computation that returns or raises. *)
Definition res (A : Type) : Type := exn + A.

Abbreviation Ok := inr (only parsing).
Abbreviation Raise := inl (only parsing).

Definition res_bind {A B} (m : res A) (f : A → res B) : res B :=
  match m with
  | inl e => inl e
  | inr a => f a
  end.

Declare Scope res_scope.
Delimit Scope res_scope with res.
Notation "x <- m ;; k" := (res_bind m (λ x, k))
  (at level 100, m at next level, right associativity) : res_scope.

(** A computation over the store [S] that returns or raises; writes made
    before an exception stay in the store it hands back. *)
Definition M (S A : Type) : Type := S → res A * S.

Definition ret {S A} (a : A) : M S A := λ s, (Ok a, s).
Definition raise {S A} (e : exn) : M S A := λ s, (Raise e, s).
Definition lift {S A} (m : res A) : M S A := λ s, (m, s).

Definition bind {S A B} (m : M S A) (f : A → M S B) : M S B :=
  λ s, match m s with
       | (inl e, s') => (inl e, s')
       | (inr a, s') => f a s'
       end.

Declare Scope m_scope.
Delimit Scope m_scope with M.
Notation "x <- m ;; k" := (bind m (λ x, k))
  (at level 100, m at next level, right associativity) : m_scope.

(** [d[k]] on a dict literal parsed from JSON. *)
Fixpoint dict_lookup (k : string) (d : list (string * pyval)) : option pyval :=
  match d with
  | [] => None
  | (k', v) :: d' => if decide (k' = k) then Some v else dict_lookup k d'
  end.

(** [v[k]] with a string subscript: a dict without the key raises
    [KeyError]; a list, a string, a number, a boolean or [None] raises
    [TypeError]. *)
Definition py_getitem (v : pyval) (k : string) : res pyval :=
  match v with
  | PDict d =>
      match dict_lookup k d with
      | Some x => Ok x
      | None => Raise KeyError
      end
  | _ => Raise TypeError
  end.

(** [v.get(k)]: [None] when the dict lacks the key; only dicts have the
    method. *)
Definition py_get (v : pyval) (k : string) : res pyval :=
  match v with
  | PDict d => Ok (default PNone (dict_lookup k d))
  | _ => Raise AttributeError
  end.

(** [hash(v)], as membership in a set and dict subscripting compute it:
    lists and dicts are unhashable. *)
Definition py_hash (v : pyval) : res hkey :=
  match v with
  | PNone => Ok KNone
  | PBool b => Ok (KNum (Z.b2z b))
  | PInt z => Ok (KNum z)
  | PStr s => Ok (KStr s)
  | PList _ | PDict _ => Raise TypeError
  end.

(** [v in t] for a tuple [t] of string constants. *)
Definition py_in (v : pyval) (t : list string) : bool :=
  match v with
  | PStr s => bool_decide (s ∈ t)
  | _ => false
  end.

(** [v == s] for a string constant [s]. *)
Definition py_eq_str (v : pyval) (s : string) : bool :=
  match v with
  | PStr s' => bool_decide (s' = s)
  | _ => false
  end.

(** ** Constants *)

(** [rest_framework.status]. *)
Module status.
Definition HTTP_200_OK : Z := 200.
Definition HTTP_201_CREATED : Z := 201.
Definition HTTP_204_NO_CONTENT : Z := 204.
Definition HTTP_207_MULTI_STATUS : Z := 207.
Definition HTTP_400_BAD_REQUEST : Z := 400.
Definition HTTP_413_REQUEST_ENTITY_TOO_LARGE : Z := 413.
Definition HTTP_422_UNPROCESSABLE_ENTITY : Z := 422.
End status.

(** Modelled from the spec: the constant [MAX_ENROLLMENT_RECORDS] of
    [rest_api/v1/constants.py], which is not among the sources. The spec
    bounds a batch by 25 records, and the course-level view spells the
    number out in its message. *)
Definition MAX_ENROLLMENT_RECORDS : nat := 25.

(** Modelled from the spec: the class [ProgramResponseStatuses] of
    [rest_api/v1/constants.py]. The values are the per-record statuses the
    spec and the docstring of [ProgramEnrollmentsView] list. *)
Module ProgramResponseStatuses.
Definition ENROLLED : string := "enrolled".
Definition PENDING : string := "pending".
Definition SUSPENDED : string := "suspended".
Definition CANCELED : string := "canceled".
Definition __OK__ : list string := [ENROLLED; PENDING; SUSPENDED; CANCELED].
Definition DUPLICATED : string := "duplicated".
Definition INVALID_STATUS : string := "invalid-status".
Definition CONFLICT : string := "conflict".
Definition NOT_IN_PROGRAM : string := "not-in-program".
End ProgramResponseStatuses.

(** Modelled from the spec: the class [ProgramCourseResponseStatuses] of
    [rest_api/v1/constants.py]. The success statuses are the course-level
    statuses the docstring of [ProgramCourseEnrollmentsView] shows; the
    failure statuses are the ones the spec lists, and ["not-found"] for the
    modification of a course enrollment that does not exist. *)
Module ProgramCourseResponseStatuses.
Definition ACTIVE : string := "active".
Definition INACTIVE : string := "inactive".
Definition __OK__ : list string := [ACTIVE; INACTIVE].
Definition DUPLICATED : string := "duplicated".
Definition INVALID_STATUS : string := "invalid-status".
Definition CONFLICT : string := "conflict".
Definition NOT_IN_PROGRAM : string := "not-in-program".
Definition NOT_FOUND : string := "not-found".
End ProgramCourseResponseStatuses.

(** ** The relational store *)

(** A row of the [ProgramEnrollment] table. [pe_user = None] is a waiting
    enrollment. *)
Record ProgramEnrollment : Type := {
  pe_user : option nat;
  pe_external_user_key : pyval;
  pe_program_uuid : string;
  pe_curriculum_uuid : pyval;
  pe_status : pyval;
}.

(** A row of the [ProgramCourseEnrollment] table: [pce_program_enrollment] is
    the primary key of the parent row; [pce_course_enrollment] is the user of
    the course registration the row is linked to, if it is realized. *)
Record ProgramCourseEnrollment : Type := {
  pce_program_enrollment : nat;
  pce_course_key : string;
  pce_status : pyval;
  pce_course_enrollment : option nat;
}.

(** The two tables, rows in insertion order. No view modelled here deletes
    a row, so the primary key of a row is its position in its table. *)
Record Store : Type := {
  program_enrollments : list ProgramEnrollment;
  program_course_enrollments : list ProgramCourseEnrollment;
}.

(** A model instance in memory: the primary key and the field values. *)
Abbreviation instance A := (nat * A)%type (only parsing).

Definition set_program_enrollments (f : list ProgramEnrollment → list ProgramEnrollment)
    (s : Store) : Store :=
  {| program_enrollments := f (program_enrollments s);
     program_course_enrollments := program_course_enrollments s |}.

Definition set_program_course_enrollments
    (f : list ProgramCourseEnrollment → list ProgramCourseEnrollment)
    (s : Store) : Store :=
  {| program_enrollments := program_enrollments s;
     program_course_enrollments := f (program_course_enrollments s) |}.

(** All rows of a table with their primary keys. *)
Definition rows {A} (t : list A) : list (instance A) := imap (λ i r, (i, r)) t.

(** [Model.objects.create(...)]: append a row, return the instance. *)
Definition objects_create_pe (r : ProgramEnrollment) : M Store (instance ProgramEnrollment) :=
  λ s, (Ok (length (program_enrollments s), r),
        set_program_enrollments (λ t, t ++ [r]) s).

Definition objects_create_pce (r : ProgramCourseEnrollment)
    : M Store (instance ProgramCourseEnrollment) :=
  λ s, (Ok (length (program_course_enrollments s), r),
        set_program_course_enrollments (λ t, t ++ [r]) s).

(** [instance.save()]: write the fields in memory to the row of that
    primary key. *)
Definition save_pe (e : instance ProgramEnrollment) : M Store unit :=
  λ s, (Ok tt, set_program_enrollments (λ t, <[e.1 := e.2]> t) s).

Definition save_pce (e : instance ProgramCourseEnrollment) : M Store unit :=
  λ s, (Ok tt, set_program_course_enrollments (λ t, <[e.1 := e.2]> t) s).

(** Whether the hashable value [v] equals one of [keys]. *)
Definition key_among (v : pyval) (keys : list pyval) : bool :=
  match py_hash v with
  | inr k => bool_decide (Ok k ∈ py_hash <$> keys)
  | inl _ => false
  end.

(** Modelled from the spec: [fetch_program_enrollments] of
    [program_enrollments/api], which is not among the sources. The spec has
    the views look up an existing enrollment by [student_key] within the
    target program: the rows of [program_uuid] whose external key is one of
    [external_user_keys]. *)
Definition fetch_program_enrollments (program_uuid : string)
    (external_user_keys : list pyval) (s : Store) : list (instance ProgramEnrollment) :=
  filter (λ e, pe_program_uuid e.2 = program_uuid
               ∧ key_among (pe_external_user_key e.2) external_user_keys = true)
         (rows (program_enrollments s)).

(** ** Responses and serializers *)

(** The body of a [Response]: a plain message or the per-record results. *)
Inductive body : Type :=
  | Message (s : string)
  | Results (m : gmap hkey pyval).

Record Response : Type := {
  data : body;
  status_code : Z;
}.

(** The interface of the request serializers of [rest_api/v1/serializers.py],
    which are not among the sources: [is_valid d] is whether
    [is_valid(raise_exception=True)] returns rather than raises
    [ValidationError] on [d]; [has_invalid_status d] is what the method of
    that name returns after a failed validation. *)
Record Serializer : Type := {
  is_valid : pyval → bool;
  has_invalid_status : pyval → bool;
}.

(** The outcome of [get_user_by_program_id] of [program_enrollments/utils],
    which is not among the sources: the user it returns ([None] when no
    account matches), or the exception it raises. *)
Definition user_lookup : Type := pyval → string → res (option nat).

(** [[f(x) for x in xs]] where [f] may raise. *)
Fixpoint res_map {A B} (f : A → res B) (xs : list A) : res (list B) :=
  match xs with
  | [] => Ok []
  | x :: xs' => (y <- f x;; ys <- res_map f xs';; Ok (y :: ys))%res
  end.

(** [{e.external_user_key: e for e in qs}], the later row winning. *)
Fixpoint dict_by_external_user_key (qs : list (instance ProgramEnrollment))
    (acc : gmap hkey (instance ProgramEnrollment))
    : res (gmap hkey (instance ProgramEnrollment)) :=
  match qs with
  | [] => Ok acc
  | e :: qs' =>
      (k <- py_hash (pe_external_user_key e.2);;
       dict_by_external_user_key qs' (<[k := e]> acc))%res
  end.

(** Evaluate a queryset against the store. *)
Definition query {A} (q : Store → A) : M Store A := λ s, (Ok (q s), s).

(** The HTTP verbs of the batch endpoints. *)
Inductive method : Type := POST | PATCH | PUT.

(** ** [ProgramEnrollmentsView]

    The handlers are the bodies that the decorator [verify_program_exists]
    wraps: [program_uuid] names a program of the catalog. *)
Module ProgramEnrollmentsView.
Import ProgramResponseStatuses.

(** The type of the [operation] argument of [create_or_modify_enrollments]:
    request record, program, existing enrollment or [None]. *)
Definition operation : Type :=
  pyval → string → option (instance ProgramEnrollment) → M Store pyval.

Section view.
Context (ProgramEnrollmentCreateRequestSerializer : Serializer).
Context (ProgramEnrollmentModifyRequestSerializer : Serializer).
Context (get_user_by_program_id : user_lookup).

(** Returns the error status or [None], and the set of seen keys as the
    call leaves it. *)
Definition validate_enrollment_request (enrollment : pyval)
    (seen_student_keys : gset hkey) (serializer_class : Serializer)
    : res (option string * gset hkey) :=
  (student_key <- py_getitem enrollment "student_key";;
   k <- py_hash student_key;;
   if decide (k ∈ seen_student_keys)
   then Ok (Some DUPLICATED, seen_student_keys)
   else
     let seen_student_keys := {[k]} ∪ seen_student_keys in
     if is_valid serializer_class enrollment
     then Ok (None, seen_student_keys)
     else if has_invalid_status serializer_class enrollment
          then Ok (Some INVALID_STATUS, seen_student_keys)
          else Raise ValidationError)%res.

(** The first loop of [create_or_modify_enrollments], inside [try]. *)
Fixpoint validate_requests (serializer_class : Serializer) (data : list pyval)
    (seen_student_keys : gset hkey) (results : gmap hkey pyval)
    (enrollments : list pyval) : res (gmap hkey pyval * list pyval) :=
  match data with
  | [] => Ok (results, enrollments)
  | enrollment_request :: data' =>
      (v <- validate_enrollment_request enrollment_request seen_student_keys
              serializer_class;;
       match v.1 with
       | Some error_status =>
           student_key <- py_getitem enrollment_request "student_key";;
           k <- py_hash student_key;;
           validate_requests serializer_class data' v.2
             (<[k := PStr error_status]> results) enrollments
       | None =>
           validate_requests serializer_class data' v.2 results
             (enrollments ++ [enrollment_request])
       end)%res
  end.

Definition create_program_enrollment : operation :=
  λ request_data program_uuid program_enrollment,
  match program_enrollment with
  | Some _ => ret (PStr CONFLICT)
  | None =>
      (student_key <- lift (py_get request_data "student_key");;
       user <- lift (match get_user_by_program_id student_key program_uuid with
                     | inl ProviderDoesNotExistException => Ok None
                     | r => r
                     end);;
       curriculum_uuid <- lift (py_get request_data "curriculum_uuid");;
       status <- lift (py_get request_data "status");;
       enrollment <- objects_create_pe
                       {| pe_user := user;
                          pe_external_user_key := student_key;
                          pe_program_uuid := program_uuid;
                          pe_curriculum_uuid := curriculum_uuid;
                          pe_status := status |};;
       ret (pe_status enrollment.2))%M
  end.

Definition modify_program_enrollment : operation :=
  λ request_data program_uuid program_enrollment,
  match program_enrollment with
  | None => ret (PStr NOT_IN_PROGRAM)
  | Some e =>
      (status <- lift (py_get request_data "status");;
       let program_enrollment :=
         (e.1, {| pe_user := pe_user e.2;
                  pe_external_user_key := pe_external_user_key e.2;
                  pe_program_uuid := pe_program_uuid e.2;
                  pe_curriculum_uuid := pe_curriculum_uuid e.2;
                  pe_status := status |}) in
       _ <- save_pe program_enrollment;;
       ret (pe_status program_enrollment.2))%M
  end.

Definition create_or_modify_program_enrollment : operation :=
  λ request_data program_uuid program_enrollment,
  match program_enrollment with
  | Some _ => modify_program_enrollment request_data program_uuid program_enrollment
  | None => create_program_enrollment request_data program_uuid program_enrollment
  end.

Definition get_existing_program_enrollments (program_uuid : string)
    (student_data : list pyval) : M Store (gmap hkey (instance ProgramEnrollment)) :=
  (student_keys <- lift (res_map (λ data, py_getitem data "student_key") student_data);;
   program_enrollments_qs <- query (fetch_program_enrollments program_uuid student_keys);;
   lift (dict_by_external_user_key program_enrollments_qs ∅))%M.

Definition _get_created_or_updated_response (response_data : gmap hkey pyval)
    (default_status : Z) : Response :=
  let good_count :=
    length (filter (λ v, py_in v __OK__ = true) (map_to_list response_data).*2) in
  let response_status :=
    if decide (good_count = 0) then status.HTTP_422_UNPROCESSABLE_ENTITY
    else if decide (good_count ≠ size response_data) then status.HTTP_207_MULTI_STATUS
    else default_status in
  {| data := Results response_data; status_code := response_status |}.

(** The second loop of [create_or_modify_enrollments]. *)
Fixpoint apply_requests (op : operation) (program_uuid : string)
    (program_enrollments : gmap hkey (instance ProgramEnrollment))
    (enrollments : list pyval) (results : gmap hkey pyval)
    : M Store (gmap hkey pyval) :=
  match enrollments with
  | [] => ret results
  | enrollment :: enrollments' =>
      (student_key <- lift (py_getitem enrollment "student_key");;
       k <- lift (py_hash student_key);;
       if match results !! k with
          | Some v => py_eq_str v DUPLICATED
          | None => false
          end
       then apply_requests op program_uuid program_enrollments enrollments' results
       else
         r <- op enrollment program_uuid (program_enrollments !! k);;
         apply_requests op program_uuid program_enrollments enrollments'
           (<[k := r]> results))%M
  end.

(** [request_data] is [request.data]. The message of the 413 response is
    the limit formatted into ['enrollment limit {}']. An exception of the
    first loop other than the three that the [except] clauses name goes
    through. *)
Definition create_or_modify_enrollments (request_data : pyval) (program_uuid : string)
    (serializer_class : Serializer) (op : operation) (success_status : Z)
    : M Store Response :=
  match request_data with
  | PList request_data =>
      if decide (MAX_ENROLLMENT_RECORDS < length request_data)
      then ret {| data := Message "enrollment limit 25";
                  status_code := status.HTTP_413_REQUEST_ENTITY_TOO_LARGE |}
      else
        match validate_requests serializer_class request_data ∅ ∅ []
              return M Store Response with
        | inl KeyError | inl TypeError | inl ValidationError =>
            ret {| data := Message "invalid enrollment record";
                   status_code := status.HTTP_422_UNPROCESSABLE_ENTITY |}
        | inl e => raise e
        | inr (results, enrollments) =>
            (program_enrollments <-
               get_existing_program_enrollments program_uuid enrollments;;
             results <- apply_requests op program_uuid program_enrollments
                          enrollments results;;
             ret (_get_created_or_updated_response results success_status))%M
        end
  | _ => ret {| data := Message "invalid enrollment record";
                status_code := status.HTTP_422_UNPROCESSABLE_ENTITY |}
  end.

Definition post (request_data : pyval) (program_uuid : string) : M Store Response :=
  create_or_modify_enrollments request_data program_uuid
    ProgramEnrollmentCreateRequestSerializer create_program_enrollment
    status.HTTP_201_CREATED.

Definition patch (request_data : pyval) (program_uuid : string) : M Store Response :=
  create_or_modify_enrollments request_data program_uuid
    ProgramEnrollmentModifyRequestSerializer modify_program_enrollment
    status.HTTP_200_OK.

Definition put (request_data : pyval) (program_uuid : string) : M Store Response :=
  create_or_modify_enrollments request_data program_uuid
    ProgramEnrollmentCreateRequestSerializer create_or_modify_program_enrollment
    status.HTTP_200_OK.

(** The handler the framework calls for each verb. *)
Definition dispatch (m : method) : pyval → string → M Store Response :=
  match m with
  | POST => post
  | PATCH => patch
  | PUT => put
  end.

End view.
End ProgramEnrollmentsView.

(** ** Model methods of the course-level enrollment *)

(** Modelled from the spec: [ProgramEnrollment.get_program_course_enrollment]
    of [program_enrollments/models.py], which is not among the sources: the
    course enrollment under this program enrollment for the course run, or
    [None]. *)
Definition get_program_course_enrollment (program_enrollment : instance ProgramEnrollment)
    (course_key : string) : M Store (option (instance ProgramCourseEnrollment)) :=
  query (λ s, head (filter (λ c, pce_program_enrollment c.2 = program_enrollment.1
                                 ∧ pce_course_key c.2 = course_key)
                           (rows (program_course_enrollments s)))).

(** Modelled from the spec:
    [ProgramCourseEnrollment.create_program_course_enrollment] of
    [program_enrollments/models.py], which is not among the sources. The spec
    has the creation persist a row under its parent and realize the course
    registration at once if the parent already has a user. *)
Definition create_program_course_enrollment
    (program_enrollment : instance ProgramEnrollment) (course_key : string)
    (status : pyval) : M Store pyval :=
  (program_course_enrollment <- objects_create_pce
     {| pce_program_enrollment := program_enrollment.1;
        pce_course_key := course_key;
        pce_status := status;
        pce_course_enrollment := None |};;
   match pe_user program_enrollment.2 with
   | Some user =>
       _ <- save_pce (program_course_enrollment.1,
                      {| pce_program_enrollment := program_enrollment.1;
                         pce_course_key := course_key;
                         pce_status := status;
                         pce_course_enrollment := Some user |});;
       ret status
   | None => ret status
   end)%M.

(** Modelled from the spec: [ProgramCourseEnrollment.change_status] of
    [program_enrollments/models.py], which is not among the sources: the
    spec has an existing enrollment take the requested status. *)
Definition change_status (program_course_enrollment : instance ProgramCourseEnrollment)
    (status : pyval) : M Store pyval :=
  (_ <- save_pce (program_course_enrollment.1,
                  {| pce_program_enrollment :=
                       pce_program_enrollment program_course_enrollment.2;
                     pce_course_key := pce_course_key program_course_enrollment.2;
                     pce_status := status;
                     pce_course_enrollment :=
                       pce_course_enrollment program_course_enrollment.2 |});;
   ret status)%M.

(** ** [ProgramCourseEnrollmentsView]

    The handlers are the bodies that the decorator
    [verify_course_exists_and_in_program] wraps; [course_key] is
    [self.course_key]. *)
Module ProgramCourseEnrollmentsView.
Import ProgramCourseResponseStatuses.

(** The type of the [operation] argument of [create_or_modify_enrollments]:
    request record, program enrollment, existing course enrollment or
    [None]. *)
Definition operation : Type :=
  pyval → instance ProgramEnrollment → option (instance ProgramCourseEnrollment)
  → M Store pyval.

Section view.
Context (ProgramCourseEnrollmentRequestSerializer : Serializer).
Context (course_key : string).

Definition check_enrollment_request (enrollment : pyval)
    (seen_student_keys : gset hkey) : res (option string * gset hkey) :=
  (student_key <- py_getitem enrollment "student_key";;
   k <- py_hash student_key;;
   if decide (k ∈ seen_student_keys)
   then Ok (Some DUPLICATED, seen_student_keys)
   else
     let seen_student_keys := {[k]} ∪ seen_student_keys in
     if is_valid ProgramCourseEnrollmentRequestSerializer enrollment
     then Ok (None, seen_student_keys)
     else if has_invalid_status ProgramCourseEnrollmentRequestSerializer enrollment
          then Ok (Some INVALID_STATUS, seen_student_keys)
          else Raise ValidationError)%res.

(** The first loop of [create_or_modify_enrollments], inside [try]. *)
Fixpoint check_requests (data : list pyval) (seen_student_keys : gset hkey)
    (results : gmap hkey pyval) (enrollments : list pyval)
    : res (gmap hkey pyval * list pyval) :=
  match data with
  | [] => Ok (results, enrollments)
  | enrollment_request :: data' =>
      (v <- check_enrollment_request enrollment_request seen_student_keys;;
       match v.1 with
       | Some error_status =>
           student_key <- py_getitem enrollment_request "student_key";;
           k <- py_hash student_key;;
           check_requests data' v.2 (<[k := PStr error_status]> results) enrollments
       | None =>
           check_requests data' v.2 results (enrollments ++ [enrollment_request])
       end)%res
  end.

Definition get_existing_program_enrollments (program_uuid : string)
    (enrollments : list pyval) : M Store (gmap hkey (instance ProgramEnrollment)) :=
  (external_user_keys <- lift (res_map (λ e, py_getitem e "student_key") enrollments);;
   existing_enrollments <-
     query (fetch_program_enrollments program_uuid external_user_keys);;
   lift (dict_by_external_user_key existing_enrollments ∅))%M.

Definition enroll_learner_in_course : operation :=
  λ enrollment_request program_enrollment program_course_enrollment,
  match program_course_enrollment with
  | Some _ => ret (PStr CONFLICT)
  | None =>
      (status <- lift (py_getitem enrollment_request "status");;
       create_program_course_enrollment program_enrollment course_key status)%M
  end.

Definition modify_learner_enrollment_status : operation :=
  λ enrollment_request program_enrollment program_course_enrollment,
  match program_course_enrollment with
  | None => ret (PStr NOT_FOUND)
  | Some c =>
      (status <- lift (py_getitem enrollment_request "status");;
       change_status c status)%M
  end.

Definition create_or_update_learner_enrollment : operation :=
  λ enrollment_request program_enrollment program_course_enrollment,
  match program_course_enrollment with
  | None =>
      (status <- lift (py_getitem enrollment_request "status");;
       create_program_course_enrollment program_enrollment course_key status)%M
  | Some c =>
      (status <- lift (py_getitem enrollment_request "status");;
       change_status c status)%M
  end.

(** The second loop of [create_or_modify_enrollments]. *)
Fixpoint apply_requests (op : operation)
    (program_enrollments : gmap hkey (instance ProgramEnrollment))
    (enrollments : list pyval) (results : gmap hkey pyval)
    : M Store (gmap hkey pyval) :=
  match enrollments with
  | [] => ret results
  | enrollment :: enrollments' =>
      (student_key <- lift (py_getitem enrollment "student_key");;
       k <- lift (py_hash student_key);;
       if match results !! k with
          | Some v => py_eq_str v DUPLICATED
          | None => false
          end
       then apply_requests op program_enrollments enrollments' results
       else
         match program_enrollments !! k with
         | None =>
             apply_requests op program_enrollments enrollments'
               (<[k := PStr NOT_IN_PROGRAM]> results)
         | Some program_enrollment =>
             program_course_enrollment <-
               get_program_course_enrollment program_enrollment course_key;;
             r <- op enrollment program_enrollment program_course_enrollment;;
             apply_requests op program_enrollments enrollments' (<[k := r]> results)
         end)%M
  end.

(** The tail of [create_or_modify_enrollments]: count the good results and
    pick the status. *)
Definition results_response (results : gmap hkey pyval) : Response :=
  let good_count :=
    length (filter (λ kv, py_in kv.2 __OK__ = true) (map_to_list results)) in
  if decide (good_count = 0)
  then {| data := Results results;
          status_code := status.HTTP_422_UNPROCESSABLE_ENTITY |}
  else if decide (good_count ≠ size results)
       then {| data := Results results;
               status_code := status.HTTP_207_MULTI_STATUS |}
       else {| data := Results results; status_code := status.HTTP_200_OK |}.

(** [request_data] is [request.data]. An exception of the first loop other
    than the three that the [except] clauses name goes through. *)
Definition create_or_modify_enrollments (request_data : pyval) (program_uuid : string)
    (op : operation) : M Store Response :=
  match request_data with
  | PList request_data =>
      if decide (MAX_ENROLLMENT_RECORDS < length request_data)
      then ret {| data := Message "enrollment limit 25";
                  status_code := status.HTTP_413_REQUEST_ENTITY_TOO_LARGE |}
      else
        match check_requests request_data ∅ ∅ [] with
        | inl KeyError | inl TypeError | inl ValidationError =>
            ret {| data := Message "invalid enrollment record";
                   status_code := status.HTTP_400_BAD_REQUEST |}
        | inl e => raise e
        | inr (results, enrollments) =>
            (program_enrollments <-
               get_existing_program_enrollments program_uuid enrollments;;
             results <- apply_requests op program_enrollments enrollments results;;
             ret (results_response results))%M
        end
  | _ => ret {| data := Message "invalid enrollment record";
                status_code := status.HTTP_400_BAD_REQUEST |}
  end.

Definition post (request_data : pyval) (program_uuid : string) : M Store Response :=
  create_or_modify_enrollments request_data program_uuid enroll_learner_in_course.

Definition patch (request_data : pyval) (program_uuid : string) : M Store Response :=
  create_or_modify_enrollments request_data program_uuid
    modify_learner_enrollment_status.

Definition put (request_data : pyval) (program_uuid : string) : M Store Response :=
  create_or_modify_enrollments request_data program_uuid
    create_or_update_learner_enrollment.

(** The handler the framework calls for each verb. *)
Definition dispatch (m : method) : pyval → string → M Store Response :=
  match m with
  | POST => post
  | PATCH => patch
  | PUT => put
  end.

End view.
End ProgramCourseEnrollmentsView.

(** ** [ProgramCourseGradesView] *)
Module ProgramCourseGradesView.

(** What the serializer reads of a course grade. The percentage is a
    rational here. *)
Record CourseGrade : Type := {
  letter_grade : option string;
  percent : QArith_base.Q;
  passed : bool;
}.

(** An enrollment of the page, with [program_enrollment.user] as
    [select_related] loads it ([realized_only] leaves no waiting
    enrollment in the queryset). *)
Record enrolled : Type := {
  enrollment : instance ProgramCourseEnrollment;
  user : nat;
}.

(** The classes [ProgramCourseGradeOk] and [ProgramCourseGradeError] of
    [rest_api/v1/serializers.py], which is not among the sources: a grade
    result holds the enrollment and either the grade or the exception, whose
    text is the error message. *)
Inductive BaseProgramCourseGrade : Type :=
  | ProgramCourseGradeOk (e : instance ProgramCourseEnrollment) (grade : CourseGrade)
  | ProgramCourseGradeError (e : instance ProgramCourseEnrollment)
      (exception : option string).

Definition is_error (r : BaseProgramCourseGrade) : bool :=
  match r with
  | ProgramCourseGradeOk _ _ => false
  | ProgramCourseGradeError _ _ => true
  end.

Definition program_course_enrollment (r : BaseProgramCourseGrade)
    : instance ProgramCourseEnrollment :=
  match r with
  | ProgramCourseGradeOk e _ | ProgramCourseGradeError e _ => e
  end.

Section view.
(** The grade computation for one learner in a course run, of the grading
    subsystem: the grade, or the text of the exception it raises. *)
Context (read : nat → string → string + CourseGrade).

(** Modelled from the spec: [CourseGradeFactory.iter] of
    [lms/djangoapps/grades], which is not among the sources. The spec has
    the grades loaded in bulk, one learner's failure caught and surfaced as
    that learner's entry: a triple of user, grade and exception per user, in
    the order of [users]. *)
Definition CourseGradeFactory_iter (users : list nat) (course_key : string)
    : list (nat * option CourseGrade * option string) :=
  (λ u, match read u course_key with
        | inr course_grade => (u, Some course_grade, None)
        | inl exception => (u, None, Some exception)
        end) <$> users.

(** The pairs the generator yields. Prefetching, clearing the prefetched
    grades and the logging of failures leave them as they are. *)
Definition _iter_grades (course_key : string) (users : list nat)
    : list (option CourseGrade * option string) :=
  let grades_iter := CourseGradeFactory_iter users course_key in
  (λ g, (g.1.2, g.2)) <$> grades_iter.

(** [paginated_enrollments] is the page that [paginate_queryset] cuts out
    of the realized course enrollments of the program. *)
Definition _load_grade_results (course_key : string)
    (paginated_enrollments : list enrolled) : list BaseProgramCourseGrade :=
  match paginated_enrollments with
  | [] => []
  | _ =>
      let enrollments := enrollment <$> paginated_enrollments in
      let users := user <$> paginated_enrollments in
      let enrollment_grade_pairs :=
        zip enrollments (_iter_grades course_key users) in
      (λ p, match p.2.1 with
            | Some grade => ProgramCourseGradeOk p.1 grade
            | None => ProgramCourseGradeError p.1 p.2.2
            end) <$> enrollment_grade_pairs
  end.

Definition _calc_response_code (grade_results : list BaseProgramCourseGrade) : Z :=
  match grade_results with
  | [] => status.HTTP_204_NO_CONTENT
  | _ =>
      if forallb is_error grade_results
      then status.HTTP_422_UNPROCESSABLE_ENTITY
      else if existsb is_error grade_results
           then status.HTTP_207_MULTI_STATUS
           else status.HTTP_200_OK
  end.

(** The results of the page and the status of the paginated response. *)
Definition get (course_key : string) (paginated_enrollments : list enrolled)
    : list BaseProgramCourseGrade * Z :=
  let grade_results := _load_grade_results course_key paginated_enrollments in
  let response_code := _calc_response_code grade_results in
  (grade_results, response_code).

End view.
End ProgramCourseGradesView.

(** ** Concrete collaborators *)

(** Modelled from the spec: a request serializer of
    [rest_api/v1/serializers.py] over a set of allowed statuses. The spec has
    a record carry [student_key] and [status], and a status outside the
    allowed set rejected as [invalid-status]: a record is valid when its
    [student_key] is a string and its [status] is an allowed one; a record
    has an invalid status when it carries a [status] that is not allowed. *)
Definition status_serializer (choices : list string) : Serializer :=
  {| is_valid d :=
       match py_getitem d "student_key", py_getitem d "status" with
       | inr (PStr _), inr v => py_in v choices
       | _, _ => false
       end;
     has_invalid_status d :=
       match py_getitem d "status" with
       | inr v => negb (py_in v choices)
       | inl _ => false
       end |}.

Definition program_serializer : Serializer :=
  status_serializer ProgramResponseStatuses.__OK__.

Definition course_serializer : Serializer :=
  status_serializer ProgramCourseResponseStatuses.__OK__.

(** An organization without identity provider, and one whose provider
    knows every learner as user 7. *)
Definition no_provider : user_lookup := λ _ _, Raise ProviderDoesNotExistException.
Definition known_user : user_lookup := λ _ _, Ok (Some 7).

Definition empty_store : Store :=
  {| program_enrollments := []; program_course_enrollments := [] |}.

(** A request record. *)
Definition record (student_key status : string) : pyval :=
  PDict [("student_key", PStr student_key); ("status", PStr status)].

(** The result for one learner of the page, from the outcome of the grade
    computation for that learner. *)
Definition grade_result (read : nat → string → string + ProgramCourseGradesView.CourseGrade)
    (course_key : string) (e : ProgramCourseGradesView.enrolled)
    : ProgramCourseGradesView.BaseProgramCourseGrade :=
  match read (ProgramCourseGradesView.user e) course_key with
  | inr grade => ProgramCourseGradesView.ProgramCourseGradeOk
      (ProgramCourseGradesView.enrollment e) grade
  | inl exception => ProgramCourseGradesView.ProgramCourseGradeError
      (ProgramCourseGradesView.enrollment e) (Some exception)
  end.

(** ** Vocabulary of the properties *)

(** The key under which a request record is counted: its [student_key],
    hashed. *)
Definition student_key (e : pyval) : res hkey :=
  (v <- py_getitem e "student_key";; py_hash v)%res.

(** How many records of a batch carry the key [k]. *)
Definition occurrences (k : hkey) (data : list pyval) : nat :=
  length (filter (λ e, student_key e = Ok k) data).

(** The distinct keys of a batch. *)
Definition student_keys (data : list pyval) : gset hkey :=
  list_to_set (omap (λ e, match student_key e with
                          | inr k => Some k
                          | inl _ => None
                          end) data).

(** The program enrollments of a learner, in any program. *)
Definition rows_with_key (k : hkey) (s : Store) : list ProgramEnrollment :=
  filter (λ r, py_hash (pe_external_user_key r) = Ok k) (program_enrollments s).

(** Whether the learner [k] has an enrollment in [program_uuid]. *)
Definition enrolled_in (program_uuid : string) (k : hkey) (s : Store) : Prop :=
  ∃ r, r ∈ program_enrollments s
       ∧ pe_program_uuid r = program_uuid
       ∧ py_hash (pe_external_user_key r) = Ok k.

(** A record that is not a dict, or a dict without [student_key]. *)
Definition malformed (e : pyval) : Prop :=
  match e with
  | PDict d => dict_lookup "student_key" d = None
  | _ => True
  end.

(** Every course enrollment is under a program enrollment of the store. *)
Definition parents_exist (s : Store) : Prop :=
  ∀ c, c ∈ program_course_enrollments s →
       pce_program_enrollment c < length (program_enrollments s).

(** [k in results and results[k] == DUPLICATED], the test of the second
    loop. *)
Definition marked_duplicated (results : gmap hkey pyval) (k : hkey) : bool :=
  match results !! k with
  | Some v => py_eq_str v ProgramResponseStatuses.DUPLICATED
  | None => false
  end.

(** What identifies a program enrollment: the learner and the program. *)
Definition identity (r : ProgramEnrollment) : pyval * string :=
  (pe_external_user_key r, pe_program_uuid r).

(** The dict of existing enrollments agrees with the table: an instance
    filed under [k] is an enrollment of [k] in [program_uuid], and the row
    of its primary key is an enrollment of that learner in that program. *)
Definition snapshot_of (program_uuid : string)
    (pes : gmap hkey (instance ProgramEnrollment)) (s : Store) : Prop :=
  ∀ k e, pes !! k = Some e →
    py_hash (pe_external_user_key e.2) = Ok k
    ∧ pe_program_uuid e.2 = program_uuid
    ∧ identity <$> program_enrollments s !! e.1 = Some (identity e.2).

(** An operation is local when, called for a record of the learner [k] with
    an instance of the table, it keeps the identity of every row and leaves
    the enrollments of the other learners alone. *)
Definition op_local (op : ProgramEnrollmentsView.operation) : Prop :=
  ∀ e k program_uuid pe s r s',
    student_key e = Ok k →
    (∀ i, pe = Some i →
       py_hash (pe_external_user_key i.2) = Ok k
       ∧ identity <$> program_enrollments s !! i.1 = Some (identity i.2)) →
    op e program_uuid pe s = (r, s') →
    (identity <$> program_enrollments s) `prefix_of` (identity <$> program_enrollments s')
    ∧ ∀ k', k' ≠ k → rows_with_key k' s' = rows_with_key k' s.

(** What the second loop of the course-level view does with a record and
    the entry of its key in the dict of existing enrollments, seen as an
    operation of the program-level loop. *)
Definition course_operation (course_key : string)
    (op : ProgramCourseEnrollmentsView.operation) : ProgramEnrollmentsView.operation :=
  λ enrollment _ program_enrollment,
  match program_enrollment with
  | None => ret (PStr ProgramCourseResponseStatuses.NOT_IN_PROGRAM)
  | Some program_enrollment =>
      (program_course_enrollment <-
         get_program_course_enrollment program_enrollment course_key;;
       op enrollment program_enrollment program_course_enrollment)%M
  end.

(** The serializer, the operation and the success status that each handler
    of [ProgramEnrollmentsView] passes to [create_or_modify_enrollments]. *)
Definition serializer_of (create_serializer modify_serializer : Serializer)
    (m : method) : Serializer :=
  match m with
  | PATCH => modify_serializer
  | POST | PUT => create_serializer
  end.

Definition operation_of (get_user_by_program_id : user_lookup) (m : method)
    : ProgramEnrollmentsView.operation :=
  match m with
  | POST => ProgramEnrollmentsView.create_program_enrollment get_user_by_program_id
  | PATCH => ProgramEnrollmentsView.modify_program_enrollment
  | PUT =>
      ProgramEnrollmentsView.create_or_modify_program_enrollment get_user_by_program_id
  end.

Definition success_status_of (m : method) : Z :=
  match m with
  | POST => status.HTTP_201_CREATED
  | PATCH | PUT => status.HTTP_200_OK
  end.

(** A store with one learner enrolled in one program. *)
Definition one_enrollment : Store :=
  {| program_enrollments :=
       [{| pe_user := Some 7;
           pe_external_user_key := PStr "learner-1";
           pe_program_uuid := "program-1";
           pe_curriculum_uuid := PNone;
           pe_status := PStr "enrolled" |}];
     program_course_enrollments := [] |}.

(** The operation that each handler of [ProgramCourseEnrollmentsView]
    passes to [create_or_modify_enrollments]. *)
Definition course_operation_of (course_key : string) (m : method)
    : ProgramCourseEnrollmentsView.operation :=
  match m with
  | POST => ProgramCourseEnrollmentsView.enroll_learner_in_course course_key
  | PATCH => ProgramCourseEnrollmentsView.modify_learner_enrollment_status
  | PUT => ProgramCourseEnrollmentsView.create_or_update_learner_enrollment course_key
  end.

(** The column of the parents of the course enrollments. *)
Definition parents (s : Store) : list nat :=
  pce_program_enrollment <$> program_course_enrollments s.

(** A course-level operation is local when, called with a program
    enrollment and a course enrollment of the table, it leaves the program
    enrollments alone, keeps the parent of every course enrollment, and
    puts new course enrollments under that program enrollment only. *)
Definition course_op_local (op : ProgramCourseEnrollmentsView.operation) : Prop :=
  ∀ e (i : instance ProgramEnrollment) pce s r s',
    (∀ c : instance ProgramCourseEnrollment, pce = Some c →
       parents s !! c.1 = Some (pce_program_enrollment c.2)) →
    op e i pce s = (r, s') →
    program_enrollments s' = program_enrollments s
    ∧ ∃ extra, parents s' = parents s ++ extra ∧ Forall (λ p, p = i.1) extra.

(** A [student_key] that cannot be a key of a set: a JSON array or object. *)
Definition unhashable (v : pyval) : Prop :=
  match v with
  | PList _ | PDict _ => True
  | _ => False
  end.

(** What a program enrollment keeps through a change of status. *)
Definition without_status (r : ProgramEnrollment)
    : option nat * pyval * string * pyval :=
  (pe_user r, pe_external_user_key r, pe_program_uuid r, pe_curriculum_uuid r).

(** The enrollment with another status. *)
Definition with_status (r : ProgramEnrollment) (status : pyval) : ProgramEnrollment :=
  {| pe_user := pe_user r;
     pe_external_user_key := pe_external_user_key r;
     pe_program_uuid := pe_program_uuid r;
     pe_curriculum_uuid := pe_curriculum_uuid r;
     pe_status := status |}.

(** The field of a request record, as [request_data.get] reads it. *)
Definition field (name : string) (d : list (string * pyval)) : pyval :=
  default PNone (dict_lookup name d).

(** The user a new enrollment is linked to: what the provider lookup
    returns, or no user when it raises. *)
Definition linked_user (get_user_by_program_id : user_lookup)
    (student_key : pyval) (program_uuid : string) : option nat :=
  match get_user_by_program_id student_key program_uuid with
  | inr user => user
  | inl _ => None
  end.

(** The status of two lists of grade results taken together, from the
    status of each. *)
Definition join_codes (a b : Z) : Z :=
  if decide (a = status.HTTP_204_NO_CONTENT) then b
  else if decide (b = status.HTTP_204_NO_CONTENT) then a
  else if decide (a = b) then a
  else status.HTTP_207_MULTI_STATUS.

(** ** [EnrollmentDataResetView] *)
Module EnrollmentDataResetView.

Definition HTTP_404_NOT_FOUND : Z := 404.
Definition HTTP_501_NOT_IMPLEMENTED : Z := 501.

(** What the view reads of an [Organization]. *)
Record Organization : Type := {
  short_name : string;
}.

(** A call of a management command: its name, its positional argument and
    its [force] option. *)
Record command : Type := {
  name : string;
  argument : string;
  force : bool;
}.

Section view.
(** Whether [settings.FEATURES] has the reset flag set. *)
Context (reset_enabled : bool).
(** [Organization.objects.get(short_name=...)]: [None] is [DoesNotExist]. *)
Context (organizations : pyval → option Organization).
(** [get_provider_slug] of [program_enrollments/utils] and
    [get_programs_for_organization] of the catalog utilities, which are not
    among the sources. *)
Context (get_provider_slug : Organization → res string).
Context (get_programs_for_organization : string → list string).
(** What running a management command returns or raises. *)
Context (run : command → res unit).
(** The text that [format] puts in place of [{}] for a value. *)
Context (format : pyval → string).

(** [call_command(name, argument, force=True)]: the store is the list of
    the commands run. *)
Definition call_command (name argument : string) : M (list command) unit :=
  λ log,
    let c := {| name := name; argument := argument; force := true |} in
    (run c, log ++ [c]).

(** The first [try] of the second half of [post]: remove the users of the
    provider of the organization, if it has one. *)
Definition remove_users (organization : Organization) : M (list command) unit :=
  λ log,
    match (idp_slug <- lift (get_provider_slug organization);;
           call_command "remove_social_auth_users" idp_slug)%M log with
    | (inl ProviderDoesNotExistException, log') => (Ok tt, log')
    | r => r
    end.

(** The body of [post]. *)
Definition post_body (request_data : pyval) : M (list command) Response :=
  if negb reset_enabled
  then ret {| data := Message "reset not enabled on this environment";
              status_code := HTTP_501_NOT_IMPLEMENTED |}
  else
    match py_getitem request_data "organization" with
    | inl KeyError =>
        ret {| data := Message "missing required body content 'organization'";
               status_code := status.HTTP_400_BAD_REQUEST |}
    | inl e => raise e
    | inr org_key =>
        match organizations org_key with
        | None =>
            ret {| data := Message ("organization " +:+ format org_key
                                    +:+ " not found");
                   status_code := HTTP_404_NOT_FOUND |}
        | Some organization =>
            (_ <- remove_users organization;;
             let programs := get_programs_for_organization (short_name organization) in
             match programs with
             | [] => ret {| data := Message "success";
                            status_code := status.HTTP_200_OK |}
             | _ =>
                 _ <- call_command "reset_enrollment_data"
                        (String.concat "," programs);;
                 ret {| data := Message "success";
                        status_code := status.HTTP_200_OK |}
             end)%M
        end
    end.

(** [post], under [transaction.atomic]: an exception undoes what the
    commands did. *)
Definition post (request_data : pyval) : M (list command) Response :=
  λ log,
    match post_body request_data log with
    | (inl e, _) => (inl e, log)
    | r => r
    end.

End view.
End EnrollmentDataResetView.

(** The commands of a successful reset, in the order they are run: the
    removal of the users of the provider, if the organization has one, then
    the reset of the enrollments of its programs, if it has any. *)
Definition reset_commands (provider_slug : res string) (programs : list string)
    : list EnrollmentDataResetView.command :=
  match provider_slug with
  | inr idp_slug =>
      [{| EnrollmentDataResetView.name := "remove_social_auth_users";
          EnrollmentDataResetView.argument := idp_slug;
          EnrollmentDataResetView.force := true |}]
  | inl _ => []
  end
  ++ match programs with
     | [] => []
     | _ => [{| EnrollmentDataResetView.name := "reset_enrollment_data";
                EnrollmentDataResetView.argument := String.concat "," programs;
                EnrollmentDataResetView.force := true |}]
     end.

(** One organization with a provider and two programs; commands that
    return; the text of a string value. *)
Definition known_organization (org_key : pyval)
    : option EnrollmentDataResetView.Organization :=
  match org_key with
  | PStr "MITx" => Some {| EnrollmentDataResetView.short_name := "MITx" |}
  | _ => None
  end.

Definition provider_of (organization : EnrollmentDataResetView.Organization)
    : res string :=
  Ok "mitx-saml".

Definition programs_of (short_name : string) : list string := ["uuid-1"; "uuid-2"].

Definition command_returns (c : EnrollmentDataResetView.command) : res unit := Ok tt.

Definition text_of (v : pyval) : string :=
  match v with
  | PStr s => s
  | _ => ""
  end.

(** ** [learning_context/manager.py] *)
Module learning_context_manager.

(** An opaque key, by what [get_learning_context_impl] tests of it: a
    [LearningContextKey] with the [CANONICAL_NAMESPACE] of its class, a
    [BlockUsageKeyV2] with the [CANONICAL_NAMESPACE] of the class of its
    [context_key], or a key of another kind. *)
Inductive opaque_key : Type :=
  | LearningContextKey (CANONICAL_NAMESPACE : string)
  | BlockUsageKeyV2 (context_key_CANONICAL_NAMESPACE : string)
  | OtherKey.

Section manager.
(** The learning contexts, the plugin classes and the parameters of the
    application configuration. *)
Context {LearningContext plugin params : Type}.
(** [LearningContextPluginManager.get_plugin]: the class registered under
    a name, or the exception raised when none is installed. *)
Context (get_plugin : string → res plugin).
(** The call of a plugin class on the parameters: the learning context, or
    the exception the class raises. *)
Context (instantiate : plugin → params → res LearningContext).
(** [get_xblock_app_config().get_learning_context_params()]. *)
Context (get_learning_context_params : params).

(** The state is the module variable [_learning_context_cache]. *)
Definition get_learning_context_impl (key : opaque_key)
    : M (gmap string LearningContext) LearningContext :=
  λ _learning_context_cache,
    match match key with
          | LearningContextKey context_type => Ok context_type
          | BlockUsageKeyV2 context_type => Ok context_type
          | OtherKey => Raise TypeError
          end with
    | inl e => (inl e, _learning_context_cache)
    | inr context_type =>
        match _learning_context_cache !! context_type with
        | Some impl => (Ok impl, _learning_context_cache)
        | None =>
            let params := get_learning_context_params in
            match get_plugin context_type with
            | inl e => (inl e, _learning_context_cache)
            | inr cls =>
                match instantiate cls params with
                | inl e => (inl e, _learning_context_cache)
                | inr impl =>
                    (Ok impl, <[context_type := impl]> _learning_context_cache)
                end
            end
        end
    end.

(** A sequence of calls, the outcomes dropped. *)
Fixpoint calls (keys : list opaque_key) (cache : gmap string LearningContext)
    : gmap string LearningContext :=
  match keys with
  | [] => cache
  | key :: keys' => calls keys' (get_learning_context_impl key cache).2
  end.

End manager.
End learning_context_manager.

(** The namespace of the learning context of a key, if it has one. *)
Definition context_type_of (key : learning_context_manager.opaque_key)
    : option string :=
  match key with
  | learning_context_manager.LearningContextKey ns => Some ns
  | learning_context_manager.BlockUsageKeyV2 ns => Some ns
  | learning_context_manager.OtherKey => None
  end.

(** One plugin, registered as [lib]; its learning context is the number it
    is given. *)
Definition lib_plugin (context_type : string) : res unit :=
  if decide (context_type = "lib") then Ok tt else Raise ServerError.

(** The loading of the learning context of a namespace: the plugin class
    registered under the name, called on the parameters. *)
Definition load_context {LearningContext plugin params : Type}
    (get_plugin : string → res plugin)
    (instantiate : plugin → params → res LearningContext)
    (get_learning_context_params : params) (ns : string) : res LearningContext :=
  match get_plugin ns with
  | inl e => inl e
  | inr cls => instantiate cls get_learning_context_params
  end.

(** ** [UserProgramReadOnlyAccessView] *)

(** [bool(v)]: the truth value of a parsed JSON value. *)
Definition py_bool (v : pyval) : bool :=
  match v with
  | PNone => false
  | PBool b => b
  | PInt z => negb (z =? 0)%Z
  | PStr s => negb (bool_decide (s = ""))
  | PList l => negb (bool_decide (l = []))
  | PDict d => negb (bool_decide (d = []))
  end.

(** [d[k] = v] on a dict that keeps its keys in the order of their first
    assignment. *)
Fixpoint dict_setitem {K V : Type} `{EqDecision K} (k : K) (v : V)
    (d : list (K * V)) : list (K * V) :=
  match d with
  | [] => [(k, v)]
  | (k', v') :: d' =>
      if decide (k' = k) then (k', v) :: d' else (k', v') :: dict_setitem k v d'
  end.

(** [[f(x) for x in l]] where [f] may raise. *)
Fixpoint res_list_map {A B : Type} (f : A → res B) (l : list A) : res (list B) :=
  match l with
  | [] => Ok []
  | x :: l' =>
      (y <- f x ;;
       ys <- res_list_map f l' ;;
       Ok (y :: ys))%res
  end.

Module UserProgramReadOnlyAccessView.

(** A course key, by what the view tests of it: whether it is a
    [CCXLocator]. *)
Inductive course_key : Type :=
  | CourseLocator (course : string)
  | CCXLocator (course : string) (ccx : nat).

#[global] Instance course_key_eq_dec : EqDecision course_key.
Proof. solve_decision. Defined.

(** A row of the [CourseAccessRole] table, with its primary key. *)
Record CourseAccessRole : Type := {
  pk : nat;
  course_id : option course_key;
}.

#[global] Instance CourseAccessRole_eq_dec : EqDecision CourseAccessRole.
Proof. solve_decision. Defined.

Inductive role : Type :=
  | CourseInstructorRole
  | CourseStaffRole.

(** The response of the view: its body is a JSON list. *)
Record Response : Type := {
  data : pyval;
  status_code : Z;
}.

Definition DEFAULT_PROGRAM_TYPE : string := "masters".

(** [qs1 | qs2] on two query sets of one table: the rows of either, each
    once. *)
Definition queryset_or (qs1 qs2 : list CourseAccessRole) : list CourseAccessRole :=
  list_union qs1 qs2.

Definition filter_ccx (course_access : CourseAccessRole) : bool :=
  match course_id course_access with
  | Some (CCXLocator _ _) => false
  | _ => true
  end.

Section view.
Context {User Site : Type}.
(** [user.is_staff]. *)
Context (is_staff : User → bool).
(** [UserBasedRole(user, role).courses_with_role()], evaluated. *)
Context (courses_with_role : User → role → list CourseAccessRole).
(** [str.lower]. *)
Context (lower : string → string).
(** The collaborators of the program catalog and of the enrollment API,
    which are not among the sources: [normalize_program_type],
    [get_programs_by_type], [get_programs(course=...)],
    [get_programs(uuids=...)], which may return [None], and
    [fetch_program_enrollments_by_student] with the active statuses. *)
Context (normalize_program_type : string → string).
Context (get_programs_by_type : Site → string → list pyval).
Context (get_programs_of_course : course_key → list pyval).
Context (get_programs_of_uuids : list string → option (list pyval)).
Context (fetch_program_enrollments_by_student : User → list ProgramEnrollment).

Definition get_course_keys_user_is_staff_for (user : User) : list course_key :=
  let instructor_courses := courses_with_role user CourseInstructorRole in
  let staff_courses := courses_with_role user CourseStaffRole in
  let all_courses :=
    filter (λ course_access, filter_ccx course_access = true)
      (queryset_or instructor_courses staff_courses) in
  let course_keys :=
    foldl (λ course_keys course_access,
             match course_id course_access with
             | Some k => dict_setitem k k course_keys
             | None => course_keys
             end) [] all_courses in
  course_keys.*2.

(** The length of the list, which the caller tests for truth. *)
Definition is_course_staff (user : User) : nat :=
  length (get_course_keys_user_is_staff_for user).

(** [v.lower()]: only strings have the method. *)
Definition py_lower (v : pyval) : res pyval :=
  match v with
  | PStr s => Ok (PStr (lower s))
  | _ => Raise AttributeError
  end.

(** The condition of the inner loop:
    [course_run_program and course_run_program.get('type').lower() == program_type_filter]. *)
Definition program_matches (program_type_filter : string)
    (course_run_program : pyval) : res bool :=
  if py_bool course_run_program then
    (type <- py_get course_run_program "type" ;;
     lowered <- py_lower type ;;
     Ok (py_eq_str lowered program_type_filter))%res
  else Ok false.

(** The inner loop over the programs of one course run. *)
Fixpoint append_matching (program_type_filter : string)
    (course_run_programs program_list : list pyval) : res (list pyval) :=
  match course_run_programs with
  | [] => Ok program_list
  | course_run_program :: rest =>
      (keep <- program_matches program_type_filter course_run_program ;;
       append_matching program_type_filter rest
         (if keep : bool then program_list ++ [course_run_program] else program_list))%res
  end.

(** The outer loop over the course keys. *)
Fixpoint append_programs (program_type_filter : string)
    (course_keys : list course_key) (program_list : list pyval) : res (list pyval) :=
  match course_keys with
  | [] => Ok program_list
  | course_key :: rest =>
      (program_list' <- append_matching program_type_filter
                          (get_programs_of_course course_key) program_list ;;
       append_programs program_type_filter rest program_list')%res
  end.

Definition get_programs_user_is_course_staff_for (user : User)
    (program_type_filter : string) : res (list pyval) :=
  append_programs program_type_filter (get_course_keys_user_is_staff_for user) [].

(** [{'uuid': program['uuid'], 'slug': program['marketing_slug']}]. *)
Definition uuid_and_slug (program : pyval) : res pyval :=
  (uuid <- py_getitem program "uuid" ;;
   slug <- py_getitem program "marketing_slug" ;;
   Ok (PDict [("uuid", uuid); ("slug", slug)]))%res.

(** [get]: [type] is the [type] parameter of the query string, if it is
    given. *)
Definition get (request_user : User) (site : Site) (type : option string)
    : res Response :=
  let requested_program_type :=
    normalize_program_type (default DEFAULT_PROGRAM_TYPE type) in
  (programs <-
     (if is_staff request_user then
        Ok (get_programs_by_type site requested_program_type)
      else if decide (is_course_staff request_user ≠ 0) then
        get_programs_user_is_course_staff_for request_user requested_program_type
      else
        let program_enrollments := fetch_program_enrollments_by_student request_user in
        let uuids := pe_program_uuid <$> program_enrollments in
        Ok (default [] (get_programs_of_uuids uuids))) ;;
   programs_in_which_user_has_access <- res_list_map uuid_and_slug programs ;;
   Ok {| data := PList programs_in_which_user_has_access;
         status_code := status.HTTP_200_OK |})%res.

End view.
End UserProgramReadOnlyAccessView.

(** [str.lower] on ASCII strings. *)
Definition ascii_lower (c : Ascii.ascii) : Ascii.ascii :=
  let n := Ascii.nat_of_ascii c in
  if decide (65 ≤ n ≤ 90) then Ascii.ascii_of_nat (n + 32) else c.

Fixpoint str_lower (s : string) : string :=
  match s with
  | EmptyString => EmptyString
  | String c s' => String (ascii_lower c) (str_lower s')
  end.

(** A catalog of two courses: [c1] is in a masters program and in a
    micromasters program, and its list has a [None] entry; the program of
    [c2] has no type. *)
Definition masters_program : pyval :=
  PDict [("uuid", PStr "u1"); ("marketing_slug", PStr "s1"); ("type", PStr "Masters")].

Definition micromasters_program : pyval :=
  PDict [("uuid", PStr "u2"); ("marketing_slug", PStr "s2"); ("type", PStr "MicroMasters")].

Definition untyped_program : pyval :=
  PDict [("uuid", PStr "u3"); ("marketing_slug", PStr "s3")].

Definition catalog_of_course (k : UserProgramReadOnlyAccessView.course_key) : list pyval :=
  match k with
  | UserProgramReadOnlyAccessView.CourseLocator "c1" =>
      [masters_program; PNone; micromasters_program]
  | UserProgramReadOnlyAccessView.CourseLocator "c2" => [untyped_program]
  | _ => []
  end.

Definition catalog_of_type (site : unit) (type : string) : list pyval :=
  if decide (type = "masters") then [masters_program] else [].

Definition catalog_of_uuids (uuids : list string) : option (list pyval) :=
  if decide ("u2" ∈ uuids) then Some [micromasters_program] else None.

(** User 1 is instructor and staff of [c1], and staff of a CCX of it; user 2
    is staff of a CCX only; user 3 is staff of [c2]; user 2 is enrolled in
    the micromasters program. No user is edX staff. *)
Definition roles_of (user : nat) (r : UserProgramReadOnlyAccessView.role)
    : list UserProgramReadOnlyAccessView.CourseAccessRole :=
  let row pk course_id :=
    {| UserProgramReadOnlyAccessView.pk := pk;
       UserProgramReadOnlyAccessView.course_id := course_id |} in
  match user, r with
  | 1, UserProgramReadOnlyAccessView.CourseInstructorRole =>
      [row 1 (Some (UserProgramReadOnlyAccessView.CourseLocator "c1"))]
  | 1, UserProgramReadOnlyAccessView.CourseStaffRole =>
      [row 2 (Some (UserProgramReadOnlyAccessView.CourseLocator "c1"));
       row 3 (Some (UserProgramReadOnlyAccessView.CCXLocator "c1" 7));
       row 4 None]
  | 2, UserProgramReadOnlyAccessView.CourseStaffRole =>
      [row 5 (Some (UserProgramReadOnlyAccessView.CCXLocator "c1" 7))]
  | 3, UserProgramReadOnlyAccessView.CourseStaffRole =>
      [row 6 (Some (UserProgramReadOnlyAccessView.CourseLocator "c2"))]
  | _, _ => []
  end.

Definition enrollments_of (user : nat) : list ProgramEnrollment :=
  match user with
  | 2 => [{| pe_user := Some 2; pe_external_user_key := PStr "k2";
             pe_program_uuid := "u2"; pe_curriculum_uuid := PStr "c";
             pe_status := PStr "enrolled" |}]
  | _ => []
  end.

(** ** The course enrollments of a learner *)

(** Whether the course enrollment [c] is under a program enrollment of the
    learner [k] in [program_uuid]. *)
Definition of_learner (program_uuid : string) (k : hkey) (s : Store)
    (c : ProgramCourseEnrollment) : bool :=
  match program_enrollments s !! pce_program_enrollment c with
  | Some row =>
      bool_decide (py_hash (pe_external_user_key row) = Ok k
                   ∧ pe_program_uuid row = program_uuid)
  | None => false
  end.

(** The course enrollments of the learner [k] in [program_uuid], with their
    primary keys. *)
Definition course_enrollments_of (program_uuid : string) (k : hkey) (s : Store)
    : list (instance ProgramCourseEnrollment) :=
  filter (λ c, of_learner program_uuid k s c.2 = true)
    (rows (program_course_enrollments s)).

(** What a call of a course-level operation for the program enrollment of
    primary key [p] may do to the tables: nothing, or add a course
    enrollment under [p], or write a course enrollment under [p] back with
    its parent and its course. *)
Definition course_effect (p : nat) (s s' : Store) : Prop :=
  program_enrollments s' = program_enrollments s
  ∧ (program_course_enrollments s' = program_course_enrollments s
     ∨ (∃ c, program_course_enrollments s' = program_course_enrollments s ++ [c]
             ∧ pce_program_enrollment c = p)
     ∨ (∃ j c0 c, program_course_enrollments s !! j = Some c0
                  ∧ program_course_enrollments s' = <[j := c]> (program_course_enrollments s)
                  ∧ pce_program_enrollment c0 = p
                  ∧ pce_program_enrollment c = p
                  ∧ pce_course_key c = pce_course_key c0)).

(** The store [one_enrollment] after learner 1 has been enrolled in
    [course-1]. *)
Definition one_course_enrollment : Store :=
  {| program_enrollments := program_enrollments one_enrollment;
     program_course_enrollments :=
       [{| pce_program_enrollment := 0;
           pce_course_key := "course-1";
           pce_status := PStr "active";
           pce_course_enrollment := Some 7 |}] |}.

(** * Properties *)

(** ** Grade listing *)
Module GradesProperties.
Import ProgramCourseGradesView.

Lemma forallb_is_error (l : list BaseProgramCourseGrade) :
  forallb is_error l = true ↔ ∀ r, r ∈ l → is_error r = true.
Proof.
  rewrite forallb_forall. split; intros H r Hr; apply H; by apply list_elem_of_In.
Qed.

Lemma existsb_is_error (l : list BaseProgramCourseGrade) :
  existsb is_error l = true ↔ ∃ r, r ∈ l ∧ is_error r = true.
Proof.
  rewrite existsb_exists. split; intros (r & Hr & He); exists r;
    (split; [by apply list_elem_of_In|done]).
Qed.

(** C3. The status of a grade listing is the one [_calc_response_code]
    gives for the list of results of the page, and it is a function of that
    list alone: 204 for the empty list; 422 when there are results and every
    one is an error; 207 when some result is an error and some is a success;
    200 when there are results and every one is a success. *)
Theorem calc_response_code_cases (grade_results : list BaseProgramCourseGrade) :
  (∀ read course_key page,
     (get read course_key page).2
     = _calc_response_code (get read course_key page).1)
  ∧ (grade_results = [] →
     _calc_response_code grade_results = status.HTTP_204_NO_CONTENT)
  ∧ (grade_results ≠ [] ∧ (∀ r, r ∈ grade_results → is_error r = true) →
     _calc_response_code grade_results = status.HTTP_422_UNPROCESSABLE_ENTITY)
  ∧ ((∃ r, r ∈ grade_results ∧ is_error r = true)
     ∧ (∃ r, r ∈ grade_results ∧ is_error r = false) →
     _calc_response_code grade_results = status.HTTP_207_MULTI_STATUS)
  ∧ (grade_results ≠ [] ∧ (∀ r, r ∈ grade_results → is_error r = false) →
     _calc_response_code grade_results = status.HTTP_200_OK).
Proof.
  split; [reflexivity|].
  unfold _calc_response_code. repeat split.
  - intros ->. reflexivity.
  - intros [Hne Hall]. apply forallb_is_error in Hall.
    destruct grade_results; [done|]. by rewrite Hall.
  - intros [Herr (r & Hr & Hok)]. apply existsb_is_error in Herr.
    destruct (forallb is_error grade_results) eqn:Hall.
    + rewrite forallb_is_error in Hall. rewrite (Hall r Hr) in Hok. done.
    + destruct grade_results; [by apply not_elem_of_nil in Hr|]. by rewrite Herr.
  - intros [Hne Hok]. destruct grade_results as [|r0 rs]; [done|].
    destruct (forallb is_error (r0 :: rs)) eqn:Hall.
    + rewrite forallb_is_error in Hall.
      assert (r0 ∈ r0 :: rs) as Hin by left.
      specialize (Hall r0 Hin). specialize (Hok r0 Hin). congruence.
    + destruct (existsb is_error (r0 :: rs)) eqn:Hex; [|done].
      apply existsb_is_error in Hex as (r & Hr & He).
      rewrite (Hok r Hr) in He. done.
Qed.

Lemma load_grade_results_fmap read course_key (page : list enrolled) :
  _load_grade_results read course_key page = grade_result read course_key <$> page.
Proof.
  assert (∀ l : list enrolled,
    (λ p : instance ProgramCourseEnrollment * (option CourseGrade * option string),
       match p.2.1 with
       | Some grade => ProgramCourseGradeOk p.1 grade
       | None => ProgramCourseGradeError p.1 p.2.2
       end) <$> zip (enrollment <$> l) (_iter_grades read course_key (user <$> l))
    = grade_result read course_key <$> l) as Hgen.
  { induction l as [|e l IH]; [done|].
    cbn [fmap list_fmap zip zip_with _iter_grades CourseGradeFactory_iter] in *.
    f_equal; [|exact IH].
    unfold grade_result. by destruct (read (user e) course_key). }
  destruct page as [|e page]; [done|]. apply Hgen.
Qed.

(** C6. The grade reader returns one result per enrollment of the page, in
    the order of the page: the result at a position holds the enrollment at
    that position, and is a success record with the learner's grade when the
    grade computation for that learner returns, a failure record with the
    exception when it raises, whatever the computations for the other
    learners of the page do. *)
Theorem load_grade_results_per_learner
    (read : nat → string → string + CourseGrade) (course_key : string)
    (page : list enrolled) :
  length (_load_grade_results read course_key page) = length page
  ∧ program_course_enrollment <$> _load_grade_results read course_key page
    = enrollment <$> page
  ∧ (∀ i e, page !! i = Some e →
       _load_grade_results read course_key page !! i
       = Some (match read (user e) course_key with
               | inr grade => ProgramCourseGradeOk (enrollment e) grade
               | inl exception =>
                   ProgramCourseGradeError (enrollment e) (Some exception)
               end)).
Proof.
  rewrite load_grade_results_fmap. repeat split.
  - by rewrite length_fmap.
  - rewrite <- list_fmap_compose. apply list_fmap_ext. intros _ e _.
    unfold grade_result. simpl. by destruct (read (user e) course_key).
  - intros i e Hi. rewrite list_lookup_fmap, Hi. reflexivity.
Qed.

End GradesProperties.

(** ** Batch enrollment: the operations on one record *)
Module OperationProperties.
Import ProgramEnrollmentsView.

(** C10. When the provider lookup raises [ProviderDoesNotExistException],
    [create_program_enrollment] does not raise: it appends a waiting
    enrollment ([pe_user = None]) with the requested key, curriculum and
    status to the table and returns the requested status; a lookup that
    finds a user makes it return the same status. *)
Theorem create_program_enrollment_without_provider
    (get_user_by_program_id : user_lookup) (d : list (string * pyval))
    (program_uuid : string) (s : Store) :
  get_user_by_program_id (default PNone (dict_lookup "student_key" d)) program_uuid
  = Raise ProviderDoesNotExistException →
  create_program_enrollment get_user_by_program_id (PDict d) program_uuid None s
  = (Ok (default PNone (dict_lookup "status" d)),
     {| program_enrollments :=
          program_enrollments s
          ++ [{| pe_user := None;
                 pe_external_user_key := default PNone (dict_lookup "student_key" d);
                 pe_program_uuid := program_uuid;
                 pe_curriculum_uuid := default PNone (dict_lookup "curriculum_uuid" d);
                 pe_status := default PNone (dict_lookup "status" d) |}];
        program_course_enrollments := program_course_enrollments s |})
  ∧ (∀ (linked : user_lookup) (u : nat),
       linked (default PNone (dict_lookup "student_key" d)) program_uuid
       = Ok (Some u) →
       (create_program_enrollment linked (PDict d) program_uuid None s).1
       = (create_program_enrollment get_user_by_program_id (PDict d)
            program_uuid None s).1).
Proof.
  intros Hraise.
  unfold create_program_enrollment, bind, lift, objects_create_pe, ret. simpl.
  rewrite Hraise. simpl. split; [reflexivity|].
  intros linked u Hlinked. rewrite Hlinked. reflexivity.
Qed.

Lemma create_program_enrollment_without_provider_witness :
  create_program_enrollment no_provider (record "learner-1" "enrolled")
    "program-1" None empty_store
  = (Ok (PStr "enrolled"),
     {| program_enrollments :=
          [{| pe_user := None;
              pe_external_user_key := PStr "learner-1";
              pe_program_uuid := "program-1";
              pe_curriculum_uuid := PNone;
              pe_status := PStr "enrolled" |}];
        program_course_enrollments := [] |}).
Proof.
  exact (proj1 (create_program_enrollment_without_provider no_provider
                  [("student_key", PStr "learner-1"); ("status", PStr "enrolled")]
                  "program-1" empty_store eq_refl)).
Defined.

Lemma filter_insert_neither {A} (P : A → Prop) `{!∀ x, Decision (P x)}
    (l : list A) (i : nat) (x y : A) :
  l !! i = Some y → ¬ P y → ¬ P x → filter P (<[i := x]> l) = filter P l.
Proof.
  revert i. induction l as [|z l IH]; intros i Hi Hy Hx; [done|].
  destruct i as [|i].
  - change (Some z = Some y) in Hi. simplify_eq.
    change (<[0 := x]> (y :: l)) with (x :: l).
    by rewrite !filter_cons, !decide_False.
  - change (l !! i = Some y) in Hi.
    change (<[S i := x]> (z :: l)) with (z :: <[i := x]> l).
    rewrite !filter_cons. by rewrite (IH i).
Qed.

Lemma student_key_inv e k :
  student_key e = Ok k →
  ∃ d v, e = PDict d ∧ dict_lookup "student_key" d = Some v ∧ py_hash v = Ok k.
Proof.
  unfold student_key, py_getitem. destruct e as [| | | | |d]; try done.
  destruct (dict_lookup "student_key" d) as [v|] eqn:Hv; [|done].
  cbn. eauto.
Qed.

Lemma rows_with_key_app k s r :
  py_hash (pe_external_user_key r) ≠ Ok k →
  rows_with_key k (set_program_enrollments (λ t, t ++ [r]) s) = rows_with_key k s.
Proof.
  intros Hne. unfold rows_with_key. cbn.
  rewrite filter_app, filter_cons, decide_False by done.
  by rewrite filter_nil, app_nil_r.
Qed.

Lemma create_program_enrollment_local get_user_by_program_id :
  op_local (create_program_enrollment get_user_by_program_id).
Proof.
  intros e k program_uuid pe s r s' Hk Hpe Hcall.
  unfold create_program_enrollment in Hcall.
  destruct pe as [i|].
  { unfold ret in Hcall. by simplify_eq. }
  apply student_key_inv in Hk as (d & v & -> & Hv & Hh).
  unfold bind, lift, objects_create_pe, ret in Hcall. cbn in Hcall.
  rewrite Hv in Hcall. cbn in Hcall.
  destruct (get_user_by_program_id v program_uuid) as [[]|u]; simplify_eq;
    try done.
  all: split; [cbn; rewrite fmap_app; by apply prefix_app_r|].
  all: intros k' Hne; apply rows_with_key_app; cbn; congruence.
Qed.

Lemma modify_program_enrollment_local : op_local modify_program_enrollment.
Proof.
  intros e k program_uuid pe s r s' Hk Hpe Hcall.
  unfold modify_program_enrollment in Hcall.
  destruct pe as [i|]; [|unfold ret in Hcall; by simplify_eq].
  destruct (Hpe i eq_refl) as [Hh Hrow].
  apply student_key_inv in Hk as (d & v & -> & Hv & _).
  unfold bind, lift, save_pe, ret in Hcall. cbn in Hcall. simplify_eq.
  destruct (program_enrollments s !! i.1) as [y|] eqn:Hy; [|done].
  cbn in Hrow. injection Hrow as Hkey Hprog.
  split.
  - cbn. rewrite list_fmap_insert. rewrite list_insert_id; [done|].
    rewrite list_lookup_fmap, Hy. cbn. unfold identity. cbn. congruence.
  - intros k' Hne. unfold rows_with_key. cbn.
    apply (filter_insert_neither _ _ _ _ y Hy); cbn; congruence.
Qed.

Lemma create_or_modify_program_enrollment_local get_user_by_program_id :
  op_local (create_or_modify_program_enrollment get_user_by_program_id).
Proof.
  intros e k program_uuid pe s r s' Hk Hpe Hcall.
  unfold create_or_modify_program_enrollment in Hcall. destruct pe as [i|].
  - by eapply modify_program_enrollment_local.
  - by eapply create_program_enrollment_local.
Qed.

(** The program-level operations return: the only exception that can come
    out of one is an exception of the provider lookup other than
    [ProviderDoesNotExistException]. *)
Lemma operation_of_returns get_user_by_program_id m e k program_uuid pe s :
  (∀ v ex, get_user_by_program_id v program_uuid = inl ex →
           ex = ProviderDoesNotExistException) →
  student_key e = Ok k →
  ∃ r s', operation_of get_user_by_program_id m e program_uuid pe s = (Ok r, s').
Proof.
  intros Hlookup Hk. apply student_key_inv in Hk as (d & v & -> & Hv & _).
  assert (∃ r s', create_program_enrollment get_user_by_program_id (PDict d)
                    program_uuid None s = (Ok r, s')) as Hcreate.
  { unfold create_program_enrollment, bind, lift, objects_create_pe, ret. cbn.
    rewrite Hv. cbn.
    destruct (get_user_by_program_id v program_uuid) as [ex|u] eqn:Hu; [|eauto].
    rewrite (Hlookup v ex Hu). eauto. }
  assert (∀ i, ∃ r s', modify_program_enrollment (PDict d) program_uuid (Some i) s
                       = (Ok r, s')) as Hmodify.
  { intros i. unfold modify_program_enrollment, bind, lift, save_pe, ret. cbn.
    eauto. }
  destruct m, pe as [i|]; cbn; unfold ret; eauto.
Qed.

End OperationProperties.

(** ** Batch enrollment: the validation loop *)
Module ValidationProperties.
Import ProgramEnrollmentsView ProgramResponseStatuses.

Lemma occurrences_cons k e data :
  occurrences k (e :: data)
  = (if decide (student_key e = Ok k) then 1 else 0) + occurrences k data.
Proof.
  unfold occurrences. rewrite filter_cons. by case_decide.
Qed.

Lemma occurrences_pos k data :
  0 < occurrences k data ↔ ∃ e, e ∈ data ∧ student_key e = Ok k.
Proof.
  induction data as [|e data IH].
  - split; [cbn; lia|]. intros (e & He & _). by apply not_elem_of_nil in He.
  - rewrite occurrences_cons. split.
    + case_decide as Hk.
      * intros _. exists e. split; [by left|done].
      * intros Hpos. apply IH in Hpos as (e' & He' & Hk').
        exists e'. split; [by right|done].
    + intros (e' & He' & Hk'). apply elem_of_cons in He' as [->|He'].
      * rewrite decide_True by done. lia.
      * assert (0 < occurrences k data) by (apply IH; eauto). lia.
Qed.

Lemma elem_of_student_keys k data :
  k ∈ student_keys data ↔ ∃ e, e ∈ data ∧ student_key e = Ok k.
Proof.
  unfold student_keys. rewrite elem_of_list_to_set, list_elem_of_omap.
  split; intros (e & He & Hk); exists e; (split; [done|]).
  - destruct (student_key e); by simplify_eq.
  - by rewrite Hk.
Qed.

Lemma student_keys_cons e k data :
  student_key e = Ok k → student_keys (e :: data) = {[k]} ∪ student_keys data.
Proof.
  intros Hk. apply set_eq. intros k'.
  rewrite elem_of_union, elem_of_singleton, !elem_of_student_keys. split.
  - intros (e' & He' & Hk'). apply elem_of_cons in He' as [->|He'].
    + left. congruence.
    + right. eauto.
  - intros [->|(e' & He' & Hk')].
    + exists e. split; [by left|done].
    + exists e'. split; [by right|done].
Qed.

Lemma student_keys_snoc e k data :
  student_key e = Ok k → student_keys (data ++ [e]) = student_keys data ∪ {[k]}.
Proof.
  intros Hk. apply set_eq. intros k'.
  rewrite elem_of_union, elem_of_singleton, !elem_of_student_keys. split.
  - intros (e' & He' & Hk'). apply elem_of_app in He' as [He'|He'].
    + left. eauto.
    + apply list_elem_of_singleton in He' as ->. right. congruence.
  - intros [(e' & He' & Hk')| ->].
    + exists e'. split; [apply elem_of_app; by left|done].
    + exists e. split; [apply elem_of_app; right; by left|done].
Qed.

Lemma student_keys_nil : student_keys [] = ∅.
Proof. reflexivity. Qed.

Section validation.
Context (ser : Serializer).

(** One turn of the loop, by the key of the record. *)
Lemma validate_requests_cons e data seen results enrs :
  validate_requests ser (e :: data) seen results enrs
  = match student_key e with
    | inl ex => inl ex
    | inr k =>
        if decide (k ∈ seen)
        then validate_requests ser data seen (<[k := PStr DUPLICATED]> results) enrs
        else if is_valid ser e
             then validate_requests ser data ({[k]} ∪ seen) results (enrs ++ [e])
             else if has_invalid_status ser e
                  then validate_requests ser data ({[k]} ∪ seen)
                         (<[k := PStr INVALID_STATUS]> results) enrs
                  else inl ValidationError
    end.
Proof.
  unfold student_key. cbn [validate_requests].
  unfold validate_enrollment_request.
  destruct (py_getitem e "student_key") as [ex|v]; [done|]. cbn [res_bind].
  destruct (py_hash v) as [ex|k]; [done|]. cbn [res_bind].
  destruct (decide (k ∈ seen)); [done|].
  destruct (is_valid ser e); [done|].
  destruct (has_invalid_status ser e); done.
Qed.

Lemma student_key_raises e ex :
  student_key e = inl ex → ex = KeyError ∨ ex = TypeError.
Proof.
  unfold student_key, py_getitem.
  destruct e as [| | | | |d]; try (intros [= <-]; auto).
  destruct (dict_lookup "student_key" d) as [v|]; [|intros [= <-]; auto].
  destruct v; intros [= <-]; auto.
Qed.

(** The loop raises nothing but the three exceptions the view catches. *)
Lemma validate_requests_raises data seen results enrs ex :
  validate_requests ser data seen results enrs = inl ex →
  ex = KeyError ∨ ex = TypeError ∨ ex = ValidationError.
Proof.
  revert seen results enrs.
  induction data as [|e data IH]; intros seen results enrs; [done|].
  rewrite validate_requests_cons.
  destruct (student_key e) as [ex'|k] eqn:Hk.
  - intros [= <-]. apply student_key_raises in Hk. tauto.
  - repeat case_match; eauto. intros [= <-]. auto.
Qed.

(** A malformed record makes the loop raise. *)
Lemma validate_requests_malformed data seen results enrs :
  (∃ e, e ∈ data ∧ malformed e) →
  ∃ ex, validate_requests ser data seen results enrs = inl ex.
Proof.
  revert seen results enrs.
  induction data as [|e data IH]; intros seen results enrs (e' & Hin & Hbad).
  { by apply not_elem_of_nil in Hin. }
  rewrite validate_requests_cons.
  apply elem_of_cons in Hin as [->|Hin].
  - assert (∃ ex, student_key e = inl ex) as [ex ->]; [|eauto].
    unfold student_key, py_getitem. destruct e; simpl in *; eauto.
    rewrite Hbad. eauto.
  - destruct (student_key e) as [ex|k]; [eauto|].
    repeat case_match; eauto.
Qed.

(** Case analysis on one successful turn of the loop. *)
Lemma validate_requests_cons_inv e data seen results enrs out :
  validate_requests ser (e :: data) seen results enrs = Ok out →
  ∃ k, student_key e = Ok k
       ∧ ((k ∈ seen
           ∧ validate_requests ser data seen (<[k := PStr DUPLICATED]> results) enrs
             = Ok out)
          ∨ ((k ∉ seen) ∧ is_valid ser e = true
             ∧ validate_requests ser data ({[k]} ∪ seen) results (enrs ++ [e])
               = Ok out)
          ∨ ((k ∉ seen) ∧ is_valid ser e = false
             ∧ validate_requests ser data ({[k]} ∪ seen)
                 (<[k := PStr INVALID_STATUS]> results) enrs = Ok out)).
Proof.
  rewrite validate_requests_cons.
  destruct (student_key e) as [ex|k]; [done|].
  intros H. exists k. split; [done|].
  destruct (decide (k ∈ seen)); [by left|]. right.
  destruct (is_valid ser e); [by left|]. right.
  destruct (has_invalid_status ser e); done.
Qed.

(** The keys with a result or an accepted record are the keys of the
    batch. *)
Lemma validate_requests_keys data seen results enrs results' enrs' :
  validate_requests ser data seen results enrs = Ok (results', enrs') →
  dom results' ∪ student_keys enrs'
  = dom results ∪ student_keys enrs ∪ student_keys data.
Proof.
  revert seen results enrs.
  induction data as [|e data IH]; intros seen results enrs H.
  { cbn in H. simplify_eq. rewrite student_keys_nil. set_solver. }
  apply validate_requests_cons_inv in H
    as (k & Hk & [[_ H]|[(_ & _ & H)|(_ & _ & H)]]).
  - apply IH in H. rewrite H, (student_keys_cons _ _ _ Hk), dom_insert_L.
    set_solver.
  - apply IH in H. rewrite H, (student_keys_cons _ _ _ Hk),
      (student_keys_snoc _ _ _ Hk). set_solver.
  - apply IH in H. rewrite H, (student_keys_cons _ _ _ Hk), dom_insert_L.
    set_solver.
Qed.

(** A key that the batch does not carry keeps its result. *)
Lemma validate_requests_frame data seen results enrs results' enrs' k :
  validate_requests ser data seen results enrs = Ok (results', enrs') →
  occurrences k data = 0 →
  results' !! k = results !! k.
Proof.
  revert seen results enrs.
  induction data as [|e data IH]; intros seen results enrs H Hocc.
  { cbn in H. by simplify_eq. }
  rewrite occurrences_cons in Hocc.
  destruct (decide (student_key e = Ok k)) as [|Hne]; [lia|].
  apply validate_requests_cons_inv in H
    as (k0 & Hk & [[_ H]|[(_ & _ & H)|(_ & _ & H)]]).
  - rewrite (IH _ _ _ H) by lia. apply lookup_insert_ne. congruence.
  - apply (IH _ _ _ H). lia.
  - rewrite (IH _ _ _ H) by lia. apply lookup_insert_ne. congruence.
Qed.

(** A key that occurs after it has been seen ends as [duplicated]. *)
Lemma validate_requests_duplicated data seen results enrs results' enrs' k :
  validate_requests ser data seen results enrs = Ok (results', enrs') →
  (k ∈ seen ∧ 1 ≤ occurrences k data) ∨ 2 ≤ occurrences k data →
  results' !! k = Some (PStr DUPLICATED).
Proof.
  revert seen results enrs.
  induction data as [|e data IH]; intros seen results enrs H Hocc.
  { cbn in Hocc. lia. }
  rewrite occurrences_cons in Hocc.
  apply validate_requests_cons_inv in H
    as (k0 & Hk & [[Hseen H]|[(Hseen & _ & H)|(Hseen & _ & H)]]).
  - destruct (decide (occurrences k data = 0)) as [Hz|Hnz].
    + rewrite (validate_requests_frame _ _ _ _ _ _ _ H Hz).
      destruct (decide (student_key e = Ok k)) as [Hek|]; [|lia].
      assert (k0 = k) as -> by congruence. apply lookup_insert_eq.
    + apply (IH _ _ _ H). destruct (decide (student_key e = Ok k)) as [Hek|].
      * assert (k0 = k) as -> by congruence. left. split; [done|lia].
      * destruct Hocc as [[? ?]|?]; [left; split; [done|lia]|right; lia].
  - apply (IH _ _ _ H). destruct (decide (student_key e = Ok k)) as [Hek|].
    + assert (k0 = k) as -> by congruence. left. split; [set_solver|].
      destruct Hocc as [[? ?]|?]; [done|lia].
    + destruct Hocc as [[? ?]|?]; [left; split; [set_solver|lia]|right; lia].
  - apply (IH _ _ _ H). destruct (decide (student_key e = Ok k)) as [Hek|].
    + assert (k0 = k) as -> by congruence. left. split; [set_solver|].
      destruct Hocc as [[? ?]|?]; [done|lia].
    + destruct Hocc as [[? ?]|?]; [left; split; [set_solver|lia]|right; lia].
Qed.

(** The accepted records: valid records of the batch with keys that are
    new and pairwise distinct, appended in the order of the batch. *)
Lemma validate_requests_accepted data seen results enrs results' enrs' :
  validate_requests ser data seen results enrs = Ok (results', enrs') →
  ∃ new, enrs' = enrs ++ new
         ∧ NoDup (student_key <$> new)
         ∧ ∀ e, e ∈ new →
             e ∈ data ∧ is_valid ser e = true
             ∧ ∃ k, student_key e = Ok k ∧ k ∉ seen.
Proof.
  revert seen results enrs.
  induction data as [|e data IH]; intros seen results enrs H.
  { cbn in H. simplify_eq. exists []. rewrite app_nil_r.
    split; [done|]. split; [constructor|]. intros e He.
    by apply not_elem_of_nil in He. }
  apply validate_requests_cons_inv in H
    as (k0 & Hk & [[Hseen H]|[(Hseen & Hv & H)|(Hseen & _ & H)]]).
  - apply IH in H as (new & -> & Hnd & Hnew). exists new.
    split; [done|]. split; [done|]. intros e' He'.
    destruct (Hnew e' He') as (? & ? & ?). split; [by right|done].
  - apply IH in H as (new & -> & Hnd & Hnew). exists (e :: new).
    split; [by rewrite <- app_assoc|]. split.
    + rewrite fmap_cons. constructor; [|done].
      intros Hin. apply list_elem_of_fmap in Hin as (e' & Heq & He').
      destruct (Hnew e' He') as (_ & _ & k' & Hk' & Hns).
      assert (k' = k0) as -> by congruence. set_solver.
    + intros e' He'. apply elem_of_cons in He' as [->|He'].
      * split; [by left|]. split; [done|]. eauto.
      * destruct (Hnew e' He') as (? & ? & k' & ? & ?).
        split; [by right|]. split; [done|]. exists k'. split; [done|set_solver].
  - apply IH in H as (new & -> & Hnd & Hnew). exists new.
    split; [done|]. split; [done|]. intros e' He'.
    destruct (Hnew e' He') as (? & ? & k' & ? & ?).
    split; [by right|]. split; [done|]. exists k'. split; [done|set_solver].
Qed.

(** A valid record whose key is new and occurs once is accepted, and its
    key gets no result from the loop. *)
Lemma validate_requests_valid_once data seen results enrs results' enrs' e k :
  validate_requests ser data seen results enrs = Ok (results', enrs') →
  e ∈ data → student_key e = Ok k → k ∉ seen → occurrences k data = 1 →
  is_valid ser e = true →
  e ∈ enrs' ∧ results' !! k = results !! k.
Proof.
  revert seen results enrs.
  induction data as [|e0 data IH]; intros seen results enrs H He Hk Hseen Hocc Hv.
  { by apply not_elem_of_nil in He. }
  rewrite occurrences_cons in Hocc.
  destruct (decide (student_key e0 = Ok k)) as [Hk0|Hk0].
  - assert (occurrences k data = 0) as Hz by lia.
    assert (e = e0) as ->.
    { apply elem_of_cons in He as [->|He]; [done|].
      assert (0 < occurrences k data) by (apply occurrences_pos; eauto). lia. }
    apply validate_requests_cons_inv in H
      as (k0 & Hk' & [[Hs H]|[(_ & _ & H)|(_ & Hnv & H)]]).
    + assert (k0 = k) as -> by congruence. done.
    + rewrite (validate_requests_frame _ _ _ _ _ _ _ H Hz). split; [|done].
      apply validate_requests_accepted in H as (new & -> & _).
      apply elem_of_app. left. apply elem_of_app. right. by left.
    + congruence.
  - apply elem_of_cons in He as [->|He]; [congruence|].
    apply validate_requests_cons_inv in H
      as (k0 & Hk' & [[Hs H]|[(_ & _ & H)|(_ & _ & H)]]);
      assert (k0 ≠ k) by congruence.
    + destruct (IH _ _ _ H He Hk Hseen ltac:(lia) Hv) as [? ->].
      split; [done|]. by apply lookup_insert_ne.
    + apply (IH _ _ _ H He Hk); [set_solver|lia|done].
    + destruct (IH _ _ _ H He Hk ltac:(set_solver) ltac:(lia) Hv) as [? ->].
      split; [done|]. by apply lookup_insert_ne.
Qed.

End validation.

(** The course-level view runs the same loop. *)
Lemma check_requests_validate_requests ser data seen results enrs :
  ProgramCourseEnrollmentsView.check_requests ser data seen results enrs
  = validate_requests ser data seen results enrs.
Proof.
  revert seen results enrs.
  induction data as [|e data IH]; intros seen results enrs; [done|].
  cbn [ProgramCourseEnrollmentsView.check_requests validate_requests].
  change (ProgramCourseEnrollmentsView.check_enrollment_request ser e seen)
    with (validate_enrollment_request e seen ser).
  destruct (validate_enrollment_request e seen ser) as [ex|[err seen']]; [done|].
  cbn [res_bind fst snd].
  destruct err as [err|]; [|apply IH].
  destruct (py_getitem e "student_key") as [ex|v]; [done|]. cbn [res_bind].
  destruct (py_hash v) as [ex|k]; [done|]. cbn [res_bind]. apply IH.
Qed.

End ValidationProperties.

(** ** Batch enrollment: requests rejected as a whole *)
Module RejectionProperties.
Import ProgramEnrollmentsView ValidationProperties.

Section rejection.
Context (create_serializer modify_serializer course_serializer : Serializer).
Context (get_user_by_program_id : user_lookup).
Context (course_key : string).

Abbreviation program_view :=
  (ProgramEnrollmentsView.dispatch create_serializer modify_serializer
     get_user_by_program_id).
Abbreviation course_view :=
  (ProgramCourseEnrollmentsView.dispatch course_serializer course_key).

(** C5. A body that is a list of more than 25 records gets the response 413
    from every batch handler of both views, whatever the records, the
    serializers and the provider lookup are, and the store is left as it
    was. *)
Theorem oversized_batch_rejected (m : method) (request_data : list pyval)
    (program_uuid : string) (s : Store) :
  length request_data > 25 →
  program_view m (PList request_data) program_uuid s
  = (Ok {| data := Message "enrollment limit 25";
           status_code := status.HTTP_413_REQUEST_ENTITY_TOO_LARGE |}, s)
  ∧ course_view m (PList request_data) program_uuid s
    = (Ok {| data := Message "enrollment limit 25";
             status_code := status.HTTP_413_REQUEST_ENTITY_TOO_LARGE |}, s).
Proof.
  intros Hlen.
  split; destruct m; cbn;
    unfold ProgramEnrollmentsView.create_or_modify_enrollments,
           ProgramCourseEnrollmentsView.create_or_modify_enrollments;
    (destruct (decide (MAX_ENROLLMENT_RECORDS < length request_data)) as [_|Hn];
     [reflexivity|unfold MAX_ENROLLMENT_RECORDS in Hn; lia]).
Qed.

Lemma fetch_program_enrollments_nil program_uuid s :
  fetch_program_enrollments program_uuid [] s = [].
Proof.
  unfold fetch_program_enrollments.
  induction (rows (program_enrollments s)) as [|e l IH]; [done|].
  rewrite filter_cons_False; [done|].
  intros [_ Hk]. unfold key_among in Hk.
  destruct (py_hash (pe_external_user_key e.2)); [done|].
  apply bool_decide_eq_true in Hk. by apply not_elem_of_nil in Hk.
Qed.

(** C9. The empty list gets the response 422 with an empty result map from
    every batch handler of both views, and the store is left as it was. *)
Theorem empty_batch_unprocessable (m : method) (program_uuid : string) (s : Store) :
  program_view m (PList []) program_uuid s
  = (Ok {| data := Results ∅;
           status_code := status.HTTP_422_UNPROCESSABLE_ENTITY |}, s)
  ∧ course_view m (PList []) program_uuid s
    = (Ok {| data := Results ∅;
             status_code := status.HTTP_422_UNPROCESSABLE_ENTITY |}, s).
Proof.
  split; destruct m; cbn;
    unfold ProgramEnrollmentsView.create_or_modify_enrollments,
           ProgramCourseEnrollmentsView.create_or_modify_enrollments;
    cbn;
    unfold bind, lift, query, ret,
           ProgramEnrollmentsView.get_existing_program_enrollments,
           ProgramCourseEnrollmentsView.get_existing_program_enrollments;
    cbn; unfold bind, lift, query; cbn;
    (destruct (decide (MAX_ENROLLMENT_RECORDS < 0)) as [Hn|_];
     [unfold MAX_ENROLLMENT_RECORDS in Hn; lia|]);
    rewrite fetch_program_enrollments_nil; reflexivity.
Qed.

(** Amended C7. A body that is not a list, or that is a list of at most 25
    records one of which is not a dict or lacks [student_key], gets a plain
    message and the status 422 from the program-level handlers, 400 from the
    course-level handlers: there is no result map, and the store is left as
    it was. *)
Theorem malformed_batch_rejected (m : method) (request_data : pyval)
    (program_uuid : string) (s : Store) :
  (∀ l, request_data ≠ PList l)
  ∨ (∃ l, request_data = PList l ∧ length l ≤ 25 ∧ ∃ e, e ∈ l ∧ malformed e) →
  program_view m request_data program_uuid s
  = (Ok {| data := Message "invalid enrollment record";
           status_code := status.HTTP_422_UNPROCESSABLE_ENTITY |}, s)
  ∧ course_view m request_data program_uuid s
    = (Ok {| data := Message "invalid enrollment record";
             status_code := status.HTTP_400_BAD_REQUEST |}, s).
Proof.
  intros [Hnl|(l & -> & Hlen & Hbad)].
  - split; destruct m; cbn;
      unfold ProgramEnrollmentsView.create_or_modify_enrollments,
             ProgramCourseEnrollmentsView.create_or_modify_enrollments;
      destruct request_data; try reflexivity; by destruct (Hnl l).
  - assert (∀ ser, ∃ ex, validate_requests ser l ∅ ∅ [] = inl ex
                         ∧ (ex = KeyError ∨ ex = TypeError ∨ ex = ValidationError))
      as Hraise.
    { intros ser. destruct (validate_requests_malformed ser l ∅ ∅ [] Hbad) as [ex Hex].
      exists ex. split; [done|]. by eapply validate_requests_raises. }
    split; destruct m; cbn;
      unfold ProgramEnrollmentsView.create_or_modify_enrollments,
             ProgramCourseEnrollmentsView.create_or_modify_enrollments;
      (destruct (decide (MAX_ENROLLMENT_RECORDS < length l)) as [Hn|_];
       [unfold MAX_ENROLLMENT_RECORDS in Hn; lia|]);
      rewrite ?check_requests_validate_requests;
      match goal with
      | |- context [validate_requests ?ser l ∅ ∅ []] =>
          destruct (Hraise ser) as (ex & -> & [->|[->| ->]]); reflexivity
      end.
Qed.

End rejection.

Lemma oversized_batch_rejected_witness :
  ProgramEnrollmentsView.dispatch program_serializer program_serializer no_provider
    PATCH (PList (replicate 26 (record "learner-1" "enrolled"))) "program-1"
    empty_store
  = (Ok {| data := Message "enrollment limit 25";
           status_code := status.HTTP_413_REQUEST_ENTITY_TOO_LARGE |}, empty_store).
Proof.
  apply (oversized_batch_rejected program_serializer program_serializer
           course_serializer no_provider "course-1" PATCH
           (replicate 26 (record "learner-1" "enrolled")) "program-1" empty_store).
  simpl. lia.
Defined.

Lemma malformed_batch_rejected_witness :
  ProgramCourseEnrollmentsView.dispatch course_serializer "course-1" POST
    (PList [record "learner-1" "active"; PStr "learner-2"]) "program-1" empty_store
  = (Ok {| data := Message "invalid enrollment record";
           status_code := status.HTTP_400_BAD_REQUEST |}, empty_store).
Proof.
  apply (malformed_batch_rejected program_serializer program_serializer
           course_serializer no_provider "course-1" POST
           (PList [record "learner-1" "active"; PStr "learner-2"]) "program-1"
           empty_store).
  right. eexists. split; [reflexivity|]. split; [simpl; lia|].
  exists (PStr "learner-2"). split; [|exact I].
  apply elem_of_cons. right. apply elem_of_cons. left. reflexivity.
Defined.

(** C7 as stated fails: a list of 26 records that are not dicts is answered
    with 413, not with 400 or 422. *)
Lemma malformed_oversized_batch_413 :
  (∃ e, e ∈ replicate 26 (PStr "learner") ∧ malformed e)
  ∧ ∃ r, ProgramEnrollmentsView.dispatch program_serializer program_serializer
           no_provider POST (PList (replicate 26 (PStr "learner"))) "program-1"
           empty_store = (Ok r, empty_store)
         ∧ status_code r = 413%Z
         ∧ status_code r ≠ status.HTTP_400_BAD_REQUEST
         ∧ status_code r ≠ status.HTTP_422_UNPROCESSABLE_ENTITY.
Proof.
  split.
  - exists (PStr "learner"). split; [by left|exact I].
  - eexists. split; [reflexivity|]. by cbn.
Qed.

End RejectionProperties.

(** ** Batch enrollment: the loop that applies the operation *)
Module ApplicationProperties.
Import ProgramEnrollmentsView ProgramResponseStatuses ValidationProperties.

Section application.
Context (op : operation) (program_uuid : string).
Context (pes : gmap hkey (instance ProgramEnrollment)).

(** One turn of the loop, by the key of the record. *)
Lemma apply_requests_cons e enrs results s :
  apply_requests op program_uuid pes (e :: enrs) results s
  = match student_key e with
    | inl ex => (inl ex, s)
    | inr k =>
        if marked_duplicated results k
        then apply_requests op program_uuid pes enrs results s
        else match op e program_uuid (pes !! k) s with
             | (inl ex, s1) => (inl ex, s1)
             | (inr r, s1) =>
                 apply_requests op program_uuid pes enrs (<[k := r]> results) s1
             end
    end.
Proof.
  unfold student_key, marked_duplicated. cbn [apply_requests].
  unfold bind at 1, lift at 1.
  destruct (py_getitem e "student_key") as [ex|v]; [done|]. cbn [res_bind].
  unfold bind at 1, lift at 1.
  destruct (py_hash v) as [ex|k]; [done|].
  destruct (match results !! k with
            | Some v0 => py_eq_str v0 DUPLICATED
            | None => false
            end); [done|].
  unfold bind at 1. reflexivity.
Qed.

(** The loop adds the keys of the records to the keys of the results. *)
Lemma apply_requests_dom enrs results s results' s' :
  apply_requests op program_uuid pes enrs results s = (Ok results', s') →
  dom results' = dom results ∪ student_keys enrs.
Proof.
  revert results s.
  induction enrs as [|e enrs IH]; intros results s H.
  { cbn in H. unfold ret in H. simplify_eq. rewrite student_keys_nil. set_solver. }
  rewrite apply_requests_cons in H.
  destruct (student_key e) as [ex|k] eqn:Hk; [done|].
  rewrite (student_keys_cons _ _ _ Hk).
  destruct (marked_duplicated results k) eqn:Hdup.
  - apply IH in H. rewrite H.
    assert (k ∈ dom results); [|set_solver].
    apply elem_of_dom. unfold marked_duplicated in Hdup.
    destruct (results !! k); [eauto|done].
  - destruct (op e program_uuid (pes !! k) s) as [[ex|r] s1]; [done|].
    apply IH in H. rewrite H, dom_insert_L. set_solver.
Qed.

(** A property of the store that every call of the operation keeps holds
    after the loop if it held before. *)
Lemma apply_requests_invariant (I : Store → Prop) enrs results s out s' :
  (∀ e k s1 r s2, student_key e = Ok k → I s1 →
     op e program_uuid (pes !! k) s1 = (r, s2) → I s2) →
  I s →
  apply_requests op program_uuid pes enrs results s = (out, s') →
  I s'.
Proof.
  intros Hop. revert results s.
  induction enrs as [|e enrs IH]; intros results s HI H.
  { cbn in H. unfold ret in H. by simplify_eq. }
  rewrite apply_requests_cons in H.
  destruct (student_key e) as [ex|k] eqn:Hk; [by simplify_eq|].
  destruct (marked_duplicated results k); [by eapply IH|].
  destruct (op e program_uuid (pes !! k) s) as [[ex|r] s1] eqn:Hcall.
  - simplify_eq. by eapply Hop.
  - eapply IH; [|done]. by eapply Hop.
Qed.

Lemma snapshot_of_prefix s s' :
  snapshot_of program_uuid pes s →
  (identity <$> program_enrollments s) `prefix_of` (identity <$> program_enrollments s') →
  snapshot_of program_uuid pes s'.
Proof.
  intros Hsnap Hpre k e Hke. destruct (Hsnap k e Hke) as (Hh & Hp & Hrow).
  split; [done|]. split; [done|].
  rewrite <- list_lookup_fmap in Hrow |- *.
  by eapply prefix_lookup_Some.
Qed.

Lemma marked_duplicated_insert_ne results k k0 r :
  k0 ≠ k → marked_duplicated (<[k0 := r]> results) k = marked_duplicated results k.
Proof.
  intros Hne. unfold marked_duplicated. by rewrite lookup_insert_ne.
Qed.

Section local.
Hypothesis Hlocal : op_local op.

Lemma op_local_step e k s r s' :
  student_key e = Ok k → snapshot_of program_uuid pes s →
  op e program_uuid (pes !! k) s = (r, s') →
  snapshot_of program_uuid pes s'
  ∧ ∀ k', k' ≠ k → rows_with_key k' s' = rows_with_key k' s.
Proof.
  intros Hk Hsnap Hcall.
  destruct (Hlocal e k program_uuid (pes !! k) s r s' Hk) as [Hpre Hrows]; [|done|].
  - intros i Hi. destruct (Hsnap k i Hi) as (? & ? & ?). done.
  - split; [by eapply snapshot_of_prefix|done].
Qed.

(** A learner whose records are all skipped, or who has no record, keeps
    the result and the enrollments. *)
Lemma apply_requests_frame enrs results s out s' k :
  snapshot_of program_uuid pes s →
  occurrences k enrs = 0 ∨ marked_duplicated results k = true →
  apply_requests op program_uuid pes enrs results s = (out, s') →
  rows_with_key k s' = rows_with_key k s
  ∧ ∀ results', out = Ok results' → results' !! k = results !! k.
Proof.
  revert results s.
  induction enrs as [|e enrs IH]; intros results s Hsnap Hk H.
  { cbn in H. unfold ret in H. simplify_eq. split; [done|]. by intros ? [= <-]. }
  rewrite apply_requests_cons in H.
  destruct (student_key e) as [ex|k0] eqn:Hk0.
  { simplify_eq. split; [done|]. by intros ? [=]. }
  assert (occurrences k enrs = 0 ∨ marked_duplicated results k = true) as Hk'.
  { destruct Hk as [Hk|Hk]; [left|by right].
    rewrite occurrences_cons in Hk. lia. }
  destruct (marked_duplicated results k0) eqn:Hdup; [by eapply IH|].
  assert (k ≠ k0) as Hne.
  { intros ->. destruct Hk as [Hk|Hk]; [|congruence].
    rewrite occurrences_cons, decide_True in Hk by done. lia. }
  destruct (op e program_uuid (pes !! k0) s) as [[ex|r] s1] eqn:Hcall;
    destruct (op_local_step _ _ _ _ _ Hk0 Hsnap Hcall) as [Hsnap1 Hrows].
  - simplify_eq. split; [by apply Hrows|]. by intros ? [=].
  - destruct (IH (<[k0 := r]> results) s1 Hsnap1) with (2 := H) as [Hr Hres].
    { rewrite marked_duplicated_insert_ne by done. done. }
    split; [rewrite Hr; by apply Hrows|].
    intros results' ->. rewrite (Hres _ eq_refl). by apply lookup_insert_ne.
Qed.

(** A record that is not skipped, among records with distinct keys: its
    result is what the operation returns for it, and the enrollments of its
    learner change by that call alone. *)
Lemma apply_requests_processed enrs results s results' s' e k :
  snapshot_of program_uuid pes s →
  NoDup (student_key <$> enrs) →
  e ∈ enrs → student_key e = Ok k → marked_duplicated results k = false →
  apply_requests op program_uuid pes enrs results s = (Ok results', s') →
  ∃ s1 r s2, op e program_uuid (pes !! k) s1 = (Ok r, s2)
             ∧ snapshot_of program_uuid pes s1
             ∧ rows_with_key k s1 = rows_with_key k s
             ∧ rows_with_key k s' = rows_with_key k s2
             ∧ results' !! k = Some r.
Proof.
  revert results s.
  induction enrs as [|e0 enrs IH]; intros results s Hsnap Hnd He Hk Hdup H.
  { by apply not_elem_of_nil in He. }
  rewrite apply_requests_cons in H.
  rewrite fmap_cons in Hnd. apply NoDup_cons in Hnd as [Hhead Hnd].
  destruct (student_key e0) as [ex|k0] eqn:Hk0; [done|].
  destruct (decide (k0 = k)) as [->|Hne].
  - assert (e = e0) as ->.
    { apply elem_of_cons in He as [->|He]; [done|]. destruct Hhead.
      rewrite <- Hk. by apply list_elem_of_fmap_2. }
    rewrite Hdup in H.
    destruct (op e0 program_uuid (pes !! k) s) as [[ex|r] s1] eqn:Hcall; [done|].
    destruct (op_local_step _ _ _ _ _ Hk0 Hsnap Hcall) as [Hsnap1 _].
    destruct (apply_requests_frame enrs (<[k := r]> results) s1 (Ok results') s' k
                Hsnap1) as [Hr Hres]; [|done|].
    { left. destruct (decide (occurrences k enrs = 0)) as [|Hpos]; [done|].
      assert (0 < occurrences k enrs) as Hocc by lia.
      apply occurrences_pos in Hocc as (e' & He' & Hk').
      destruct Hhead. rewrite <- Hk'. by apply list_elem_of_fmap_2. }
    exists s, r, s1. split; [done|]. split; [done|]. split; [done|].
    split; [done|]. rewrite (Hres _ eq_refl). apply lookup_insert_eq.
  - apply elem_of_cons in He as [->|He]; [congruence|].
    destruct (marked_duplicated results k0) eqn:Hdup0; [by eapply IH|].
    destruct (op e0 program_uuid (pes !! k0) s) as [[ex|r0] s1] eqn:Hcall; [done|].
    destruct (op_local_step _ _ _ _ _ Hk0 Hsnap Hcall) as [Hsnap1 Hrows].
    destruct (IH (<[k0 := r0]> results) s1 Hsnap1 Hnd He Hk) with (2 := H)
      as (s1' & r & s2 & Hcall' & Hsnap' & Hr1 & Hr2 & Hres).
    { rewrite marked_duplicated_insert_ne by done. done. }
    exists s1', r, s2. split; [done|]. split; [done|].
    split; [rewrite Hr1; by apply Hrows|]. done.
Qed.

End local.

(** The loop returns when the records have keys and the operation returns
    for such records. *)
Lemma apply_requests_returns enrs results s :
  (∀ e k pe s1, student_key e = Ok k →
     ∃ r s2, op e program_uuid pe s1 = (Ok r, s2)) →
  Forall (λ e, ∃ k, student_key e = Ok k) enrs →
  ∃ results' s', apply_requests op program_uuid pes enrs results s
                 = (Ok results', s').
Proof.
  intros Hop Hkeys. revert results s.
  induction Hkeys as [|e enrs [k Hk] _ IH]; intros results s.
  { cbn. unfold ret. eauto. }
  rewrite apply_requests_cons, Hk.
  destruct (marked_duplicated results k); [apply IH|].
  destruct (Hop e k (pes !! k) s Hk) as (r & s1 & ->). apply IH.
Qed.

End application.
End ApplicationProperties.

(** ** Batch enrollment: the existing enrollments *)
Module ExistingProperties.
Import ProgramEnrollmentsView ValidationProperties.

Lemma elem_of_rows {A} (t : list A) (i : nat) (r : A) :
  (i, r) ∈ rows t ↔ t !! i = Some r.
Proof.
  unfold rows. rewrite elem_of_lookup_imap. split.
  - intros (j & x & Heq & Hj). by simplify_eq.
  - intros Hi. eauto.
Qed.

Lemma res_map_student_keys enrs keys k :
  res_map (λ d, py_getitem d "student_key") enrs = Ok keys →
  Ok k ∈ py_hash <$> keys ↔ ∃ e, e ∈ enrs ∧ student_key e = Ok k.
Proof.
  revert keys. induction enrs as [|e enrs IH]; intros keys H.
  { cbn in H. simplify_eq. split.
    - intros Hin. by apply not_elem_of_nil in Hin.
    - intros (e & He & _). by apply not_elem_of_nil in He. }
  cbn in H. destruct (py_getitem e "student_key") as [ex|v] eqn:Hv; [done|].
  cbn in H.
  destruct (res_map (λ d, py_getitem d "student_key") enrs) as [ex|keys'];
    [done|].
  cbn in H. simplify_eq. rewrite fmap_cons, elem_of_cons, (IH keys' eq_refl).
  assert (student_key e = py_hash v) as Hke.
  { unfold student_key. by rewrite Hv. }
  split.
  - intros [Hk|(e' & He' & Hk)].
    + exists e. split; [by left|congruence].
    + exists e'. split; [by right|done].
  - intros (e' & He' & Hk). apply elem_of_cons in He' as [->|He'].
    + left. congruence.
    + right. eauto.
Qed.

Lemma dict_by_external_user_key_lookup qs acc pes :
  dict_by_external_user_key qs acc = Ok pes →
  (∀ k i, pes !! k = Some i →
     (i ∈ qs ∧ py_hash (pe_external_user_key i.2) = Ok k) ∨ acc !! k = Some i)
  ∧ (∀ k, (∃ i, i ∈ qs ∧ py_hash (pe_external_user_key i.2) = Ok k)
          ∨ is_Some (acc !! k) → is_Some (pes !! k)).
Proof.
  revert acc. induction qs as [|q qs IH]; intros acc H.
  { cbn in H. simplify_eq. split.
    - intros k i Hi. by right.
    - intros k [(i & Hi & _)|Hk]; [by apply not_elem_of_nil in Hi|done]. }
  cbn in H. destruct (py_hash (pe_external_user_key q.2)) as [ex|kq] eqn:Hq;
    [done|].
  cbn in H. destruct (IH _ H) as [IH1 IH2]. split.
  - intros k i Hi. destruct (IH1 k i Hi) as [[Hin Hh]|Hacc].
    + left. split; [by right|done].
    + destruct (decide (kq = k)) as [->|Hne].
      * rewrite lookup_insert_eq in Hacc. simplify_eq. left. split; [by left|done].
      * rewrite lookup_insert_ne in Hacc by done. by right.
  - intros k Hk. apply IH2. destruct Hk as [(i & Hi & Hh)|Hk].
    + apply elem_of_cons in Hi as [->|Hi].
      * right. assert (kq = k) as -> by congruence.
        rewrite lookup_insert_eq. eauto.
      * left. eauto.
    + right. destruct (decide (kq = k)) as [->|Hne].
      * rewrite lookup_insert_eq. eauto.
      * by rewrite lookup_insert_ne.
Qed.

(** The dict of existing enrollments: read without writing, it agrees with
    the table and has an entry for each learner of the batch who is enrolled
    in the program, and for no other key. *)
Lemma get_existing_program_enrollments_spec program_uuid enrs s pes s1 :
  get_existing_program_enrollments program_uuid enrs s = (Ok pes, s1) →
  s1 = s
  ∧ snapshot_of program_uuid pes s
  ∧ ∀ k, is_Some (pes !! k)
         ↔ enrolled_in program_uuid k s ∧ ∃ e, e ∈ enrs ∧ student_key e = Ok k.
Proof.
  unfold get_existing_program_enrollments, bind, lift, query.
  destruct (res_map (λ d, py_getitem d "student_key") enrs) as [ex|keys] eqn:Hkeys;
    [done|].
  destruct (dict_by_external_user_key
              (fetch_program_enrollments program_uuid keys s) ∅) as [ex|pes']
    eqn:Hdict; [done|].
  intros [= -> <-]. split; [done|].
  destruct (dict_by_external_user_key_lookup _ _ _ Hdict) as [H1 H2].
  assert (∀ i, i ∈ fetch_program_enrollments program_uuid keys s ↔
            program_enrollments s !! i.1 = Some i.2
            ∧ pe_program_uuid i.2 = program_uuid
            ∧ ∃ k, py_hash (pe_external_user_key i.2) = Ok k
                   ∧ ∃ e, e ∈ enrs ∧ student_key e = Ok k) as Hfetch.
  { intros [i r]. unfold fetch_program_enrollments.
    rewrite list_elem_of_filter, elem_of_rows. cbn. unfold key_among.
    destruct (py_hash (pe_external_user_key r)) as [ex|k] eqn:Hh.
    - split; [intros [[_ ?] _]; done|]. intros (_ & _ & k & ? & _). done.
    - rewrite bool_decide_eq_true, (res_map_student_keys _ _ _ Hkeys).
      split.
      + intros [[? ?] ?]. split; [done|]. split; [done|]. eauto.
      + intros (? & ? & k' & ? & ?). simplify_eq. done. }
  split.
  - intros k i Hi. destruct (H1 k i Hi) as [[Hin Hh]|Hacc];
      [|by rewrite lookup_empty in Hacc].
    apply Hfetch in Hin as (Hrow & Hp & _).
    split; [done|]. split; [done|]. by rewrite Hrow.
  - intros k. split.
    + intros [i Hi]. destruct (H1 k i Hi) as [[Hin Hh]|Hacc];
        [|by rewrite lookup_empty in Hacc].
      apply Hfetch in Hin as (Hrow & Hp & k' & Hh' & He).
      assert (k' = k) as -> by congruence. split; [|done].
      exists i.2. split; [|done]. apply list_elem_of_lookup. eauto.
    + intros [(r & Hr & Hp & Hh) He]. apply H2. left.
      apply list_elem_of_lookup in Hr as [i Hi].
      exists (i, r). split; [|done]. apply Hfetch. cbn. eauto 10.
Qed.

(** The dict of existing enrollments is built without exception for
    records that have keys. *)
Lemma get_existing_program_enrollments_returns program_uuid enrs s :
  Forall (λ e, ∃ k, student_key e = Ok k) enrs →
  ∃ pes, get_existing_program_enrollments program_uuid enrs s = (Ok pes, s).
Proof.
  intros Hkeys.
  assert (∃ keys, res_map (λ d, py_getitem d "student_key") enrs = Ok keys)
    as [keys Hres].
  { induction Hkeys as [|e enrs [k Hk] _ [keys IH]]; [by exists []|].
    cbn. unfold student_key in Hk.
    destruct (py_getitem e "student_key") as [ex|v]; [done|]. cbn.
    rewrite IH. cbn. eauto. }
  assert (∀ qs acc, Forall (λ i : nat * ProgramEnrollment,
                              ∃ k, py_hash (pe_external_user_key i.2) = Ok k) qs →
                    ∃ pes, dict_by_external_user_key qs acc = Ok pes) as Hdict.
  { intros qs acc Hqs. revert acc.
    induction Hqs as [|q qs [k Hq] _ IH]; intros acc; [by exists acc|].
    cbn. rewrite Hq. cbn. apply IH. }
  destruct (Hdict (fetch_program_enrollments program_uuid keys s) ∅) as [pes Hpes].
  { apply Forall_forall. intros i Hi. unfold fetch_program_enrollments in Hi.
    apply list_elem_of_filter in Hi as [[_ Hi] _]. unfold key_among in Hi.
    destruct (py_hash (pe_external_user_key i.2)); [done|eauto]. }
  exists pes. unfold get_existing_program_enrollments, bind, lift, query.
  by rewrite Hres, Hpes.
Qed.

End ExistingProperties.

(** ** Batch enrollment: the status of the response *)
Module StatusProperties.

Lemma length_filter_zero {A} (P : A → Prop) `{!∀ x, Decision (P x)} (l : list A) :
  length (filter P l) = 0 ↔ ∀ x, x ∈ l → ¬ P x.
Proof.
  induction l as [|y l IH].
  - split; [|done]. intros _ x Hx. by apply not_elem_of_nil in Hx.
  - rewrite filter_cons. case_decide as Hy.
    + split; [done|]. intros Hf. destruct (Hf y); [by left|done].
    + rewrite IH. split.
      * intros Hf x Hx. apply elem_of_cons in Hx as [->|Hx]; [done|by apply Hf].
      * intros Hf x Hx. apply Hf. by right.
Qed.

Lemma length_filter_all {A} (P : A → Prop) `{!∀ x, Decision (P x)} (l : list A) :
  length (filter P l) = length l ↔ ∀ x, x ∈ l → P x.
Proof.
  induction l as [|y l IH].
  - split; [|done]. intros _ x Hx. by apply not_elem_of_nil in Hx.
  - rewrite filter_cons. case_decide as Hy.
    + cbn. split.
      * intros Hf x Hx. apply elem_of_cons in Hx as [->|Hx]; [done|].
        apply IH; [lia|done].
      * intros Hf. f_equal. apply IH. intros x Hx. apply Hf. by right.
    + pose proof (length_filter P l). cbn. split; [lia|].
      intros Hf. destruct Hy. apply Hf. by left.
Qed.

Lemma length_filter_snd {A B} (P : B → Prop) `{!∀ x, Decision (P x)}
    (l : list (A * B)) :
  length (filter (λ kv, P kv.2) l) = length (filter P l.*2).
Proof.
  induction l as [|y l IH]; [done|].
  rewrite fmap_cons, !filter_cons. by repeat case_decide; cbn; rewrite ?IH.
Qed.

Lemma elem_of_values (results : gmap hkey pyval) (v : pyval) :
  v ∈ (map_to_list results).*2 ↔ ∃ k, results !! k = Some v.
Proof.
  rewrite list_elem_of_fmap. split.
  - intros ([k v'] & -> & Hin). apply elem_of_map_to_list in Hin. eauto.
  - intros [k Hk]. exists (k, v). split; [done|]. by apply elem_of_map_to_list.
Qed.

(** The status chosen from the number of good results, for a tuple [oks] of
    success statuses and a success code. *)
Lemma good_count_status (oks : list string) (results : gmap hkey pyval)
    (success : Z) :
  let good_count :=
    length (filter (λ v, py_in v oks = true) (map_to_list results).*2) in
  let code :=
    if decide (good_count = 0) then status.HTTP_422_UNPROCESSABLE_ENTITY
    else if decide (good_count ≠ size results) then status.HTTP_207_MULTI_STATUS
    else success in
  (results ≠ ∅ ∧ (∀ k v, results !! k = Some v → py_in v oks = true) →
     code = success)
  ∧ ((∀ k v, results !! k = Some v → py_in v oks = false) →
     code = status.HTTP_422_UNPROCESSABLE_ENTITY)
  ∧ ((∃ k v, results !! k = Some v ∧ py_in v oks = true)
     ∧ (∃ k v, results !! k = Some v ∧ py_in v oks = false) →
     code = status.HTTP_207_MULTI_STATUS).
Proof.
  intros good_count code. subst code.
  assert (good_count = 0 ↔ ∀ k v, results !! k = Some v → py_in v oks = false)
    as Hzero.
  { subst good_count. rewrite length_filter_zero. split.
    - intros H k v Hk. apply not_true_is_false. apply H, elem_of_values. eauto.
    - intros H v Hv. apply elem_of_values in Hv as [k Hk].
      rewrite (H k v Hk). done. }
  assert (good_count = size results
          ↔ ∀ k v, results !! k = Some v → py_in v oks = true) as Hall.
  { subst good_count.
    rewrite <- length_map_to_list, <- (length_fmap snd), length_filter_all. split.
    - intros H k v Hk. apply H, elem_of_values. eauto.
    - intros H v Hv. apply elem_of_values in Hv as [k Hk]. eauto. }
  repeat split.
  - intros [Hne Hok]. destruct (decide (good_count = 0)) as [Hz|_].
    + destruct Hne. apply map_empty. intros k.
      destruct (results !! k) as [v|] eqn:Hk; [|done].
      pose proof (proj1 Hzero Hz k v Hk) as Hbad.
      rewrite (Hok k v Hk) in Hbad. done.
    + pose proof (proj2 Hall Hok) as Hsize.
      by rewrite decide_False by (intros ?; done).
  - intros Hnone. pose proof (proj2 Hzero Hnone) as Hz. by rewrite decide_True.
  - intros [(k1 & v1 & Hk1 & Hok) (k2 & v2 & Hk2 & Hbad)].
    rewrite decide_False, decide_True; [done| |].
    + intros Ha. rewrite (proj1 Hall Ha k2 v2 Hk2) in Hbad. done.
    + intros Hz. rewrite (proj1 Hzero Hz k1 v1 Hk1) in Hok. done.
Qed.

End StatusProperties.

(** ** Batch program enrollment *)
Module ProgramBatchProperties.
Import ProgramEnrollmentsView ValidationProperties ApplicationProperties.
Import ExistingProperties OperationProperties StatusProperties.

Section batch.
Context (create_serializer modify_serializer : Serializer).
Context (get_user_by_program_id : user_lookup).

Abbreviation program_view :=
  (dispatch create_serializer modify_serializer get_user_by_program_id).

Lemma dispatch_unfold m request_data program_uuid :
  program_view m request_data program_uuid
  = create_or_modify_enrollments request_data program_uuid
      (serializer_of create_serializer modify_serializer m)
      (operation_of get_user_by_program_id m) (success_status_of m).
Proof. by destruct m. Qed.

Lemma operation_of_local m : op_local (operation_of get_user_by_program_id m).
Proof.
  destruct m; cbn.
  - apply create_program_enrollment_local.
  - apply modify_program_enrollment_local.
  - apply create_or_modify_program_enrollment_local.
Qed.

(** A response with a result map comes from a batch of at most 25 records
    that the validation loop accepts, by the two loops and the count of the
    good results. *)
Lemma create_or_modify_enrollments_results ser op success data program_uuid s
    results code s' :
  create_or_modify_enrollments (PList data) program_uuid ser op success s
  = (Ok {| data := Results results; status_code := code |}, s') →
  ∃ results1 enrs pes,
    length data ≤ MAX_ENROLLMENT_RECORDS
    ∧ validate_requests ser data ∅ ∅ [] = Ok (results1, enrs)
    ∧ get_existing_program_enrollments program_uuid enrs s = (Ok pes, s)
    ∧ apply_requests op program_uuid pes enrs results1 s = (Ok results, s')
    ∧ _get_created_or_updated_response results success
      = {| data := Results results; status_code := code |}.
Proof.
  unfold create_or_modify_enrollments.
  destruct (decide (MAX_ENROLLMENT_RECORDS < length data)) as [|Hlen]; [done|].
  destruct (validate_requests ser data ∅ ∅ []) as [ex|[results1 enrs]] eqn:Hval.
  { destruct ex; done. }
  unfold bind at 1.
  destruct (get_existing_program_enrollments program_uuid enrs s)
    as [[ex|pes] s1] eqn:Hex; [done|].
  destruct (get_existing_program_enrollments_spec _ _ _ _ _ Hex) as [-> _].
  unfold bind at 1.
  destruct (apply_requests op program_uuid pes enrs results1 s)
    as [[ex|results2] s2] eqn:Happ; [done|].
  unfold ret, _get_created_or_updated_response.
  intros H. injection H as Hres Hcode Hs. subst.
  exists results1, enrs, pes. split; [lia|]. done.
Qed.

(** A batch of at most 25 records that the validation loop accepts is
    answered with a result map, unless the provider lookup raises an
    exception other than [ProviderDoesNotExistException]. *)
Lemma accepted_batch_answered m data program_uuid s results1 enrs :
  length data ≤ MAX_ENROLLMENT_RECORDS →
  validate_requests (serializer_of create_serializer modify_serializer m)
    data ∅ ∅ [] = Ok (results1, enrs) →
  (∀ v ex, get_user_by_program_id v program_uuid = inl ex →
           ex = ProviderDoesNotExistException) →
  ∃ results code s',
    program_view m (PList data) program_uuid s
    = (Ok {| data := Results results; status_code := code |}, s').
Proof.
  intros Hlen Hval Hlookup. rewrite dispatch_unfold.
  unfold create_or_modify_enrollments.
  rewrite decide_False by lia. rewrite Hval.
  assert (Forall (λ e, ∃ k, student_key e = Ok k) enrs) as Hkeys.
  { apply validate_requests_accepted in Hval as (new & -> & _ & Hnew).
    apply Forall_forall. intros e He. destruct (Hnew e He) as (_ & _ & k & ? & _).
    eauto. }
  destruct (get_existing_program_enrollments_returns program_uuid enrs s Hkeys)
    as [pes Hpes].
  unfold bind at 1. rewrite Hpes.
  destruct (apply_requests_returns (operation_of get_user_by_program_id m)
              program_uuid pes enrs results1 s) as (results & s' & Happ);
    [|done|].
  { intros e k pe s1 Hk. by eapply operation_of_returns. }
  unfold bind at 1. rewrite Happ. unfold ret, _get_created_or_updated_response.
  eauto.
Qed.

(** Amended C1. In a batch that the program-level view answers with a
    result map, a [student_key] that occurs more than once has the single
    result [duplicated], and no occurrence of it is processed, the first
    included: the enrollments of that learner are as they were. *)
Theorem repeated_key_duplicated (m : method) (request_data : list pyval)
    (program_uuid : string) (s s' : Store) (results : gmap hkey pyval)
    (code : Z) (k : hkey) :
  program_view m (PList request_data) program_uuid s
  = (Ok {| data := Results results; status_code := code |}, s') →
  2 ≤ occurrences k request_data →
  results !! k = Some (PStr "duplicated")
  ∧ rows_with_key k s' = rows_with_key k s.
Proof.
  rewrite dispatch_unfold. intros Hview Hocc.
  apply create_or_modify_enrollments_results in Hview
    as (results1 & enrs & pes & _ & Hval & Hex & Happ & _).
  apply get_existing_program_enrollments_spec in Hex as (_ & Hsnap & _).
  pose proof (validate_requests_duplicated _ _ _ _ _ _ _ k Hval (or_intror Hocc))
    as Hdup.
  destruct (apply_requests_frame _ _ _ (operation_of_local m) enrs results1 s
              (Ok results) s' k Hsnap) as [Hrows Hres]; [|done|].
  { right. unfold marked_duplicated. by rewrite Hdup. }
  split; [|done]. by rewrite (Hres _ eq_refl).
Qed.

(** Amended C4. In a batch that the program-level view answers with a
    result map, take a record that passes validation and whose
    [student_key] occurs once in the batch. If the batch is a POST and the
    learner is enrolled in the program, the result is [conflict]; if the
    batch is a PATCH and the learner is not enrolled in the program, the
    result is [not-in-program]. In both cases the enrollments of the learner
    are as they were. *)
Theorem conflict_and_not_in_program (m : method) (request_data : list pyval)
    (program_uuid : string) (s s' : Store) (results : gmap hkey pyval)
    (code : Z) (e : pyval) (k : hkey) :
  program_view m (PList request_data) program_uuid s
  = (Ok {| data := Results results; status_code := code |}, s') →
  e ∈ request_data → student_key e = Ok k → occurrences k request_data = 1 →
  is_valid (serializer_of create_serializer modify_serializer m) e = true →
  (m = POST → enrolled_in program_uuid k s →
     results !! k = Some (PStr "conflict")
     ∧ rows_with_key k s' = rows_with_key k s)
  ∧ (m = PATCH → ¬ enrolled_in program_uuid k s →
     results !! k = Some (PStr "not-in-program")
     ∧ rows_with_key k s' = rows_with_key k s).
Proof.
  rewrite dispatch_unfold. intros Hview He Hk Hocc Hvalid.
  apply create_or_modify_enrollments_results in Hview
    as (results1 & enrs & pes & _ & Hval & Hex & Happ & _).
  apply get_existing_program_enrollments_spec in Hex as (_ & Hsnap & Hpes).
  destruct (validate_requests_valid_once _ _ _ _ _ _ _ e k Hval He Hk)
    as [Hin Hnone]; [set_solver|done|done|].
  rewrite lookup_empty in Hnone.
  destruct (validate_requests_accepted _ _ _ _ _ _ _ Hval) as (new & -> & Hnd & _).
  destruct (apply_requests_processed _ _ _ (operation_of_local m) new results1
              s results s' e k Hsnap Hnd Hin Hk)
    as (s1 & r & s2 & Hcall & _ & Hr1 & Hr2 & Hres); [|done|].
  { unfold marked_duplicated. by rewrite Hnone. }
  split.
  - intros -> Henr. assert (is_Some (pes !! k)) as [i Hi].
    { apply Hpes. split; [done|]. eauto. }
    cbn in Hcall. rewrite Hi in Hcall. cbn in Hcall. unfold ret in Hcall.
    simplify_eq. split; [done|]. by rewrite Hr2.
  - intros -> Henr. assert (pes !! k = None) as Hi.
    { apply eq_None_not_Some. intros Hsome. apply Hpes in Hsome as [? _]. done. }
    cbn in Hcall. rewrite Hi in Hcall. cbn in Hcall. unfold ret in Hcall.
    simplify_eq. split; [done|]. by rewrite Hr2.
Qed.

End batch.

Lemma conflict_and_not_in_program_witness :
  (({[KStr "learner-1" := PStr "conflict"]} : gmap hkey pyval) !! KStr "learner-1"
   = Some (PStr "conflict")
   ∧ rows_with_key (KStr "learner-1") one_enrollment
     = rows_with_key (KStr "learner-1") one_enrollment)
  ∧ (({[KStr "learner-2" := PStr "not-in-program"]} : gmap hkey pyval)
       !! KStr "learner-2"
     = Some (PStr "not-in-program")
     ∧ rows_with_key (KStr "learner-2") one_enrollment
       = rows_with_key (KStr "learner-2") one_enrollment).
Proof.
  split.
  - pose proof (conflict_and_not_in_program program_serializer program_serializer
                  no_provider POST [record "learner-1" "pending"] "program-1"
                  one_enrollment one_enrollment
                  {[KStr "learner-1" := PStr "conflict"]}
                  status.HTTP_422_UNPROCESSABLE_ENTITY
                  (record "learner-1" "pending") (KStr "learner-1")) as H.
    destruct H as [H _].
    + vm_compute. reflexivity.
    + by left.
    + reflexivity.
    + reflexivity.
    + reflexivity.
    + apply H; [reflexivity|]. eexists. split; [by left|]. split; reflexivity.
  - pose proof (conflict_and_not_in_program program_serializer program_serializer
                  no_provider PATCH [record "learner-2" "pending"] "program-1"
                  one_enrollment one_enrollment
                  {[KStr "learner-2" := PStr "not-in-program"]}
                  status.HTTP_422_UNPROCESSABLE_ENTITY
                  (record "learner-2" "pending") (KStr "learner-2")) as H.
    destruct H as [_ H].
    + vm_compute. reflexivity.
    + by left.
    + reflexivity.
    + reflexivity.
    + reflexivity.
    + apply H; [reflexivity|]. intros (r & Hr & _ & Hk).
      apply list_elem_of_singleton in Hr as ->. discriminate Hk.
Defined.

(** C4 as stated fails: a POST record whose learner is enrolled in the
    program and whose status the serializer rejects gets the result
    [invalid-status], not [conflict]. *)
Lemma invalid_status_before_conflict :
  enrolled_in "program-1" (KStr "learner-1") one_enrollment
  ∧ ProgramEnrollmentsView.dispatch program_serializer program_serializer
      no_provider POST (PList [record "learner-1" "graduated"]) "program-1"
      one_enrollment
    = (Ok {| data := Results {[KStr "learner-1" := PStr "invalid-status"]};
             status_code := status.HTTP_422_UNPROCESSABLE_ENTITY |},
       one_enrollment).
Proof.
  split.
  - eexists. split; [by left|]. split; reflexivity.
  - vm_compute. reflexivity.
Qed.

Lemma repeated_key_duplicated_witness :
  ({[KStr "learner-1" := PStr "duplicated"]} : gmap hkey pyval) !! KStr "learner-1"
  = Some (PStr "duplicated")
  ∧ rows_with_key (KStr "learner-1") empty_store
    = rows_with_key (KStr "learner-1") empty_store.
Proof.
  apply (repeated_key_duplicated program_serializer program_serializer no_provider
           POST [record "learner-1" "enrolled"; record "learner-1" "enrolled"]
           "program-1" empty_store empty_store _
           status.HTTP_422_UNPROCESSABLE_ENTITY (KStr "learner-1")).
  - vm_compute. reflexivity.
  - vm_compute. lia.
Defined.

(** C1 as stated fails: of two records with one [student_key], the first is
    not processed either. The learner gets the result [duplicated] and no
    enrollment. *)
Lemma first_occurrence_not_processed :
  ∃ s', ProgramEnrollmentsView.dispatch program_serializer program_serializer
          no_provider POST
          (PList [record "learner-1" "enrolled"; record "learner-1" "enrolled"])
          "program-1" empty_store
        = (Ok {| data := Results {[KStr "learner-1" := PStr "duplicated"]};
                 status_code := status.HTTP_422_UNPROCESSABLE_ENTITY |}, s')
        ∧ program_enrollments s' = [].
Proof.
  exists empty_store. split; [|reflexivity]. vm_compute. reflexivity.
Qed.

End ProgramBatchProperties.

(** ** Batch course enrollment *)
Module CourseBatchProperties.
Import ProgramCourseEnrollmentsView ProgramCourseResponseStatuses.
Import ValidationProperties ApplicationProperties ExistingProperties.
Import StatusProperties.

Lemma get_program_course_enrollment_spec i course_key s r s' :
  get_program_course_enrollment i course_key s = (r, s') →
  s' = s
  ∧ ∃ pce, r = Ok pce
           ∧ ∀ c, pce = Some c → parents s !! c.1 = Some (pce_program_enrollment c.2).
Proof.
  unfold get_program_course_enrollment, query. intros [= <- <-].
  split; [done|]. eexists. split; [done|]. intros [j c] Hc.
  apply head_Some_elem_of, list_elem_of_filter in Hc as [_ Hc].
  apply elem_of_rows in Hc. unfold parents. rewrite list_lookup_fmap. cbn.
  by rewrite Hc.
Qed.

Lemma create_program_course_enrollment_parents i course_key st s r s' :
  create_program_course_enrollment i course_key st s = (r, s') →
  program_enrollments s' = program_enrollments s
  ∧ parents s' = parents s ++ [i.1].
Proof.
  unfold create_program_course_enrollment, bind, objects_create_pce, save_pce, ret.
  cbn. destruct (pe_user i.2); intros [= <- <-]; (split; [done|]);
    unfold parents; cbn.
  - rewrite list_fmap_insert, fmap_app. cbn.
    rewrite <- (length_fmap pce_program_enrollment).
    rewrite insert_app_r_alt, Nat.sub_diag by done. done.
  - by rewrite fmap_app.
Qed.

Lemma change_status_parents (c : instance ProgramCourseEnrollment) st s r s' :
  parents s !! c.1 = Some (pce_program_enrollment c.2) →
  change_status c st s = (r, s') →
  program_enrollments s' = program_enrollments s ∧ parents s' = parents s.
Proof.
  unfold change_status, bind, save_pce, ret. cbn.
  intros Hc [= <- <-]. split; [done|]. unfold parents in *. cbn.
  rewrite list_fmap_insert. cbn. by apply list_insert_id.
Qed.

Section batch.
Context (course_serializer : Serializer) (course_key : string).

Lemma course_operation_of_local m : course_op_local (course_operation_of course_key m).
Proof.
  intros e i pce s r s' Hpce Hcall.
  destruct m; cbn in Hcall.
  - unfold enroll_learner_in_course in Hcall. destruct pce as [c|].
    + unfold ret in Hcall. simplify_eq. split; [done|]. exists [].
      by rewrite app_nil_r.
    + unfold bind, lift in Hcall.
      destruct (py_getitem e "status") as [ex|st].
      * simplify_eq. split; [done|]. exists []. by rewrite app_nil_r.
      * apply create_program_course_enrollment_parents in Hcall as [? ?].
        split; [done|]. exists [i.1]. split; [done|]. by constructor.
  - unfold modify_learner_enrollment_status in Hcall. destruct pce as [c|].
    + unfold bind, lift in Hcall.
      destruct (py_getitem e "status") as [ex|st].
      * simplify_eq. split; [done|]. exists []. by rewrite app_nil_r.
      * apply change_status_parents in Hcall as [? ?]; [|by apply Hpce].
        split; [done|]. exists []. by rewrite app_nil_r.
    + unfold ret in Hcall. simplify_eq. split; [done|]. exists [].
      by rewrite app_nil_r.
  - unfold create_or_update_learner_enrollment in Hcall. destruct pce as [c|].
    + unfold bind, lift in Hcall.
      destruct (py_getitem e "status") as [ex|st].
      * simplify_eq. split; [done|]. exists []. by rewrite app_nil_r.
      * apply change_status_parents in Hcall as [? ?]; [|by apply Hpce].
        split; [done|]. exists []. by rewrite app_nil_r.
    + unfold bind, lift in Hcall.
      destruct (py_getitem e "status") as [ex|st].
      * simplify_eq. split; [done|]. exists []. by rewrite app_nil_r.
      * apply create_program_course_enrollment_parents in Hcall as [? ?].
        split; [done|]. exists [i.1]. split; [done|]. by constructor.
Qed.

(** The second loop of the course-level view is the loop of the
    program-level view, run with [course_operation]. *)
Lemma apply_requests_course_operation op program_uuid pes enrs results s :
  apply_requests course_key op pes enrs results s
  = ProgramEnrollmentsView.apply_requests (course_operation course_key op)
      program_uuid pes enrs results s.
Proof.
  revert results s. induction enrs as [|e enrs IH]; intros results s; [done|].
  rewrite apply_requests_cons. cbn [apply_requests].
  unfold student_key, marked_duplicated.
  unfold bind at 1, lift at 1.
  destruct (py_getitem e "student_key") as [ex|v]; [done|]. cbn [res_bind].
  unfold bind at 1, lift at 1.
  destruct (py_hash v) as [ex|k]; [done|].
  change ProgramResponseStatuses.DUPLICATED with DUPLICATED.
  destruct (match results !! k with
            | Some v0 => py_eq_str v0 DUPLICATED
            | None => false
            end); [apply IH|].
  unfold course_operation.
  destruct (pes !! k) as [i|]; [|unfold bind, ret; apply IH].
  unfold bind. destruct (get_program_course_enrollment i course_key s) as [[ex|pce] s1];
    [done|].
  destruct (op e i pce s1) as [[ex|r] s2]; [done|]. apply IH.
Qed.

Lemma course_operation_call op e program_uuid
    (pes : gmap hkey (instance ProgramEnrollment)) k s r s' :
  course_op_local op →
  course_operation course_key op e program_uuid (pes !! k) s = (r, s') →
  program_enrollments s' = program_enrollments s
  ∧ ∃ extra, parents s' = parents s ++ extra
             ∧ Forall (λ p, ∃ i, pes !! k = Some i ∧ p = i.1) extra.
Proof.
  intros Hlocal Hcall. unfold course_operation in Hcall.
  destruct (pes !! k) as [i|].
  - unfold bind in Hcall.
    destruct (get_program_course_enrollment i course_key s) as [r1 s1] eqn:Hget.
    apply get_program_course_enrollment_spec in Hget as (-> & pce & -> & Hpce).
    destruct (Hlocal e i pce s r s' Hpce Hcall) as (? & extra & ? & Hextra).
    split; [done|]. exists extra. split; [done|].
    eapply Forall_impl; [exact Hextra|]. cbn. eauto.
  - unfold ret in Hcall. simplify_eq. split; [done|]. exists [].
    by rewrite app_nil_r.
Qed.

Lemma course_operation_local op :
  course_op_local op → op_local (course_operation course_key op).
Proof.
  intros Hlocal e k program_uuid pe s r s' _ _ Hcall.
  assert (program_enrollments s' = program_enrollments s) as Heq.
  { destruct pe as [i|].
    - pose ({[k := i]} : gmap hkey (instance ProgramEnrollment)) as pes.
      apply (course_operation_call op e program_uuid pes k s r s' Hlocal).
      subst pes. by rewrite lookup_singleton_eq.
    - apply (course_operation_call op e program_uuid ∅ k s r s' Hlocal).
      by rewrite lookup_empty. }
  split; [by rewrite Heq|]. intros k' _. unfold rows_with_key. by rewrite Heq.
Qed.

(** What the second loop does to the tables. *)
Lemma apply_requests_tables op pes enrs results s out s' :
  course_op_local op →
  apply_requests course_key op pes enrs results s = (out, s') →
  program_enrollments s' = program_enrollments s
  ∧ ∃ extra, parents s' = parents s ++ extra
             ∧ Forall (λ p, ∃ k i, pes !! k = Some i ∧ p = i.1) extra.
Proof.
  intros Hlocal. rewrite (apply_requests_course_operation _ "").
  apply (apply_requests_invariant _ _ _
           (λ s1, program_enrollments s1 = program_enrollments s
                  ∧ ∃ extra, parents s1 = parents s ++ extra
                             ∧ Forall (λ p, ∃ k i, pes !! k = Some i ∧ p = i.1)
                                 extra)).
  - intros e k s1 r s2 _ (Hpe & extra & Hpar & Hextra) Hcall.
    apply course_operation_call in Hcall as (Hpe' & extra' & Hpar' & Hextra');
      [|done].
    split; [congruence|]. exists (extra ++ extra'). split.
    + by rewrite Hpar', Hpar, app_assoc.
    + apply Forall_app. split; [done|].
      eapply Forall_impl; [exact Hextra'|]. cbn. eauto.
  - split; [done|]. exists []. by rewrite app_nil_r.
Qed.

(** A response with a result map comes from a batch of at most 25 records
    that the validation loop accepts, by the two loops and the count of the
    good results. *)
Lemma course_create_or_modify_enrollments_results op data program_uuid s results code s' :
  create_or_modify_enrollments course_serializer course_key (PList data)
    program_uuid op s
  = (Ok {| data := Results results; status_code := code |}, s') →
  ∃ results1 enrs pes,
    length data ≤ MAX_ENROLLMENT_RECORDS
    ∧ ProgramEnrollmentsView.validate_requests course_serializer data ∅ ∅ [] = Ok (results1, enrs)
    ∧ ProgramEnrollmentsView.get_existing_program_enrollments program_uuid enrs s
      = (Ok pes, s)
    ∧ apply_requests course_key op pes enrs results1 s = (Ok results, s')
    ∧ results_response results = {| data := Results results; status_code := code |}.
Proof.
  unfold create_or_modify_enrollments.
  destruct (decide (MAX_ENROLLMENT_RECORDS < length data)) as [|Hlen]; [done|].
  rewrite check_requests_validate_requests.
  destruct (ProgramEnrollmentsView.validate_requests course_serializer data ∅ ∅ [])
    as [ex|[results1 enrs]] eqn:Hval.
  { destruct ex; done. }
  unfold bind at 1.
  change (get_existing_program_enrollments program_uuid enrs s)
    with (ProgramEnrollmentsView.get_existing_program_enrollments
            program_uuid enrs s).
  destruct (ProgramEnrollmentsView.get_existing_program_enrollments
              program_uuid enrs s) as [[ex|pes] s1] eqn:Hex; [done|].
  destruct (get_existing_program_enrollments_spec _ _ _ _ _ Hex) as [-> _].
  unfold bind at 1.
  destruct (apply_requests course_key op pes enrs results1 s)
    as [[ex|results2] s2] eqn:Happ; [done|].
  unfold ret. intros H. injection H as Hresp Hs. subst s2.
  assert (results2 = results) as ->.
  { unfold results_response in Hresp. repeat case_decide; by injection Hresp. }
  exists results1, enrs, pes. split; [lia|]. done.
Qed.

Abbreviation course_view := (dispatch course_serializer course_key).

Lemma course_dispatch_unfold m request_data program_uuid :
  course_view m request_data program_uuid
  = create_or_modify_enrollments course_serializer course_key request_data
      program_uuid (course_operation_of course_key m).
Proof. by destruct m. Qed.

(** What a request does to the tables, whatever it is answered with: the
    program enrollments stay, and the course enrollments it adds are under
    program enrollments of the target program. *)
Lemma course_view_tables m request_data program_uuid s out s' :
  course_view m request_data program_uuid s = (out, s') →
  program_enrollments s' = program_enrollments s
  ∧ ∃ extra, parents s' = parents s ++ extra
             ∧ Forall (λ p, ∃ row, program_enrollments s !! p = Some row
                                   ∧ pe_program_uuid row = program_uuid) extra.
Proof.
  assert (program_enrollments s = program_enrollments s
          ∧ ∃ extra, parents s = parents s ++ extra
                     ∧ Forall (λ p, ∃ row, program_enrollments s !! p = Some row
                                           ∧ pe_program_uuid row = program_uuid)
                         extra) as Hsame.
  { split; [done|]. exists []. by rewrite app_nil_r. }
  rewrite course_dispatch_unfold. unfold create_or_modify_enrollments.
  destruct request_data as [| | | |l|];
    try (unfold ret; by intros [= _ <-]).
  destruct (decide (MAX_ENROLLMENT_RECORDS < length l));
    [unfold ret; by intros [= _ <-]|].
  rewrite check_requests_validate_requests.
  destruct (ProgramEnrollmentsView.validate_requests course_serializer l ∅ ∅ [])
    as [ex|[results1 enrs]].
  { destruct ex; unfold ret, raise; by intros [= _ <-]. }
  unfold bind at 1.
  change (get_existing_program_enrollments program_uuid enrs s)
    with (ProgramEnrollmentsView.get_existing_program_enrollments
            program_uuid enrs s).
  destruct (ProgramEnrollmentsView.get_existing_program_enrollments
              program_uuid enrs s) as [[ex|pes] s1] eqn:Hex.
  { assert (s1 = s) as ->.
    { revert Hex.
      unfold ProgramEnrollmentsView.get_existing_program_enrollments, bind, lift, query.
      destruct (res_map _ enrs); [by intros [= _ <-]|]. by intros [= _ <-]. }
    by intros [= _ <-]. }
  apply get_existing_program_enrollments_spec in Hex as (-> & Hsnap & _).
  unfold bind at 1.
  destruct (apply_requests course_key (course_operation_of course_key m) pes enrs
              results1 s) as [out2 s2] eqn:Happ.
  destruct (apply_requests_tables _ _ _ _ _ _ _ (course_operation_of_local m) Happ)
    as (Hpe & extra & Hpar & Hextra).
  intros Hout. assert (s' = s2) as ->.
  { destruct out2; unfold ret in Hout; by injection Hout as _ <-. }
  split; [done|]. exists extra. split; [done|].
  eapply Forall_impl; [exact Hextra|]. cbn. intros p (k' & i & Hi & ->).
  destruct (Hsnap k' i Hi) as (_ & Hprog & Hrow).
  destruct (program_enrollments s !! i.1) as [row|]; [|done].
  cbn in Hrow. injection Hrow as _ Hp'. exists row. split; [done|congruence].
Qed.

(** Amended C8. Every request to the course-level view, whatever the verb
    and whatever it is answered with, leaves the program enrollments as they
    were; if every course enrollment had its parent before, every course
    enrollment has its parent after; and every course enrollment it creates
    is under a program enrollment of the target program. When the request is
    answered with a result map, every record that passes validation, whose
    [student_key] occurs once in the batch and has no program enrollment in
    the target program, has the result [not-in-program], and every course
    enrollment the batch creates is under a program enrollment that belongs
    to another learner. *)
Theorem not_in_program_without_parent (m : method) (request_data : pyval)
    (program_uuid : string) (s s' : Store) (out : res Response) :
  course_view m request_data program_uuid s = (out, s') →
  program_enrollments s' = program_enrollments s
  ∧ (parents_exist s → parents_exist s')
  ∧ (∀ i c, program_course_enrollments s' !! i = Some c →
            length (program_course_enrollments s) ≤ i →
            ∃ p, program_enrollments s !! pce_program_enrollment c = Some p
                 ∧ pe_program_uuid p = program_uuid)
  ∧ ∀ l results code e k,
      request_data = PList l →
      out = Ok {| data := Results results; status_code := code |} →
      e ∈ l → student_key e = Ok k → occurrences k l = 1 →
      is_valid course_serializer e = true →
      ¬ enrolled_in program_uuid k s →
      results !! k = Some (PStr "not-in-program")
      ∧ ∀ i c, program_course_enrollments s' !! i = Some c →
               length (program_course_enrollments s) ≤ i →
               ∃ p, program_enrollments s !! pce_program_enrollment c = Some p
                    ∧ pe_program_uuid p = program_uuid
                    ∧ py_hash (pe_external_user_key p) ≠ Ok k.
Proof.
  intros Hview.
  destruct (course_view_tables _ _ _ _ _ _ Hview) as (Hpe & extra & Hpar & Hextra).
  rewrite Forall_forall in Hextra.
  assert (∀ i c, program_course_enrollments s' !! i = Some c →
                 length (program_course_enrollments s) ≤ i →
                 pce_program_enrollment c ∈ extra) as Hcreated.
  { intros i c Hc Hi.
    assert (parents s' !! i = Some (pce_program_enrollment c)) as Hp.
    { unfold parents. by rewrite list_lookup_fmap, Hc. }
    rewrite Hpar, lookup_app_r in Hp by (unfold parents; by rewrite length_fmap).
    by eapply list_elem_of_lookup_2. }
  split; [done|]. split; [|split].
  - intros Hinv c Hc. rewrite Hpe.
    assert (pce_program_enrollment c ∈ parents s') as Hp.
    { unfold parents. by apply list_elem_of_fmap_2. }
    rewrite Hpar in Hp. apply elem_of_app in Hp as [Hp|Hp].
    + unfold parents in Hp. apply list_elem_of_fmap in Hp as (c0 & -> & Hc0).
      by apply Hinv.
    + destruct (Hextra _ Hp) as (row & Hrow & _). by eapply lookup_lt_Some.
  - intros i c Hc Hi. apply Hextra. by eapply Hcreated.
  - intros l results code e k -> -> He Hk Hocc Hvalid Hnot.
    rewrite course_dispatch_unfold in Hview.
    apply course_create_or_modify_enrollments_results in Hview
      as (results1 & enrs & pes & _ & Hval & Hex & Happ & _).
    apply get_existing_program_enrollments_spec in Hex as (_ & Hsnap & Hpes).
    assert (pes !! k = None) as Hnone.
    { apply eq_None_not_Some. intros Hsome. apply Hpes in Hsome as [? _]. done. }
    split.
    + destruct (validate_requests_valid_once _ _ _ _ _ _ _ e k Hval He Hk)
        as [Hin Hres1]; [set_solver|done|done|].
      rewrite lookup_empty in Hres1.
      destruct (validate_requests_accepted _ _ _ _ _ _ _ Hval)
        as (new & -> & Hnd & _).
      rewrite (apply_requests_course_operation _ program_uuid) in Happ.
      destruct (apply_requests_processed _ _ _
                  (course_operation_local _ (course_operation_of_local m))
                  new results1 s results s' e k Hsnap Hnd Hin Hk)
        as (s1 & r & s2 & Hcall & _ & _ & _ & Hres); [|done|].
      { unfold marked_duplicated. by rewrite Hres1. }
      rewrite Hnone in Hcall. cbn in Hcall. unfold ret in Hcall. by simplify_eq.
    + destruct (apply_requests_tables _ _ _ _ _ _ _ (course_operation_of_local m) Happ)
        as (_ & extra' & Hpar' & Hextra').
      assert (extra' = extra) as ->.
      { rewrite Hpar in Hpar'. by apply app_inv_head in Hpar'. }
      intros i c Hc Hi. rewrite Forall_forall in Hextra'.
      destruct (Hextra' _ (Hcreated i c Hc Hi)) as (k' & j & Hj & Hparent).
      destruct (Hsnap k' j Hj) as (Hh & Hprog & Hrow).
      rewrite Hparent.
      destruct (program_enrollments s !! j.1) as [row|]; [|done].
      cbn in Hrow. injection Hrow as Hkey Hp'. exists row.
      split; [done|]. split; [congruence|]. rewrite Hkey, Hh.
      intros [= Heq]. subst. rewrite Hj in Hnone. done.
Qed.

End batch.

Lemma not_in_program_without_parent_witness :
  program_enrollments one_course_enrollment = program_enrollments one_enrollment
  ∧ (parents_exist one_enrollment → parents_exist one_course_enrollment)
  ∧ ({[KStr "learner-1" := PStr "active"; KStr "learner-2" := PStr "not-in-program"]}
       : gmap hkey pyval) !! KStr "learner-2"
    = Some (PStr "not-in-program").
Proof.
  pose proof (not_in_program_without_parent course_serializer "course-1" PUT
                (PList [record "learner-1" "active"; record "learner-2" "active"])
                "program-1" one_enrollment one_course_enrollment
                (Ok {| data := Results {[KStr "learner-1" := PStr "active";
                                         KStr "learner-2" := PStr "not-in-program"]};
                       status_code := status.HTTP_207_MULTI_STATUS |})) as H.
  destruct H as (H1 & H2 & _ & H4).
  - vm_compute. reflexivity.
  - split; [exact H1|]. split; [exact H2|].
    apply (H4 _ _ _ (record "learner-2" "active") (KStr "learner-2") eq_refl eq_refl).
    + right. by left.
    + reflexivity.
    + reflexivity.
    + reflexivity.
    + intros (r & Hr & _ & Hk). apply list_elem_of_singleton in Hr as ->.
      discriminate Hk.
Defined.

(** C8 as stated fails: a record with a status that the serializer rejects
    gets the result [invalid-status], not [not-in-program], though its
    learner has no program enrollment. *)
Lemma invalid_status_before_not_in_program :
  ¬ enrolled_in "program-1" (KStr "learner-1") empty_store
  ∧ ProgramCourseEnrollmentsView.dispatch course_serializer "course-1" POST
      (PList [record "learner-1" "graduated"]) "program-1" empty_store
    = (Ok {| data := Results {[KStr "learner-1" := PStr "invalid-status"]};
             status_code := status.HTTP_422_UNPROCESSABLE_ENTITY |}, empty_store).
Proof.
  split.
  - intros (r & Hr & _). by apply not_elem_of_nil in Hr.
  - vm_compute. reflexivity.
Qed.

End CourseBatchProperties.

(** ** Batch enrollment: the aggregate status *)
Module AggregateProperties.
Import ValidationProperties ApplicationProperties StatusProperties.

Section aggregate.
Context (create_serializer modify_serializer course_serializer : Serializer).
Context (get_user_by_program_id : user_lookup).
Context (course_key : string).

Abbreviation program_view :=
  (ProgramEnrollmentsView.dispatch create_serializer modify_serializer
     get_user_by_program_id).
Abbreviation course_view :=
  (ProgramCourseEnrollmentsView.dispatch course_serializer course_key).

Lemma results_response_status_code results :
  status_code (ProgramCourseEnrollmentsView.results_response results)
  = let good_count :=
      length (filter (λ v, py_in v ProgramCourseResponseStatuses.__OK__ = true)
                (map_to_list results).*2) in
    if decide (good_count = 0) then status.HTTP_422_UNPROCESSABLE_ENTITY
    else if decide (good_count ≠ size results) then status.HTTP_207_MULTI_STATUS
    else status.HTTP_200_OK.
Proof.
  unfold ProgramCourseEnrollmentsView.results_response. cbn zeta.
  assert (length (filter (λ kv : hkey * pyval,
                            py_in kv.2 ProgramCourseResponseStatuses.__OK__ = true)
                    (map_to_list results))
          = length (filter (λ v, py_in v ProgramCourseResponseStatuses.__OK__ = true)
                      (map_to_list results).*2)) as ->
    by exact (length_filter_snd
                (λ v, py_in v ProgramCourseResponseStatuses.__OK__ = true)
                (map_to_list results)).
  by repeat case_decide.
Qed.

(** Amended C2. A batch that a view answers with a result map has one
    result per distinct [student_key] of the request, and the status is a
    function of the result map: the success code of the handler (201 for the
    program-level POST, 200 for the other program-level handlers and for
    every course-level handler) when there is a result and every result is
    a success status; 422 when no result is a success status; 207 when some
    result is a success status and some is not. *)
Theorem aggregate_status (m : method) (request_data : list pyval)
    (program_uuid : string) (s s' : Store) (results : gmap hkey pyval)
    (code success : Z) (oks : list string) :
  (program_view m (PList request_data) program_uuid s
   = (Ok {| data := Results results; status_code := code |}, s')
   ∧ oks = ProgramResponseStatuses.__OK__
   ∧ success = match m with POST => 201%Z | PATCH | PUT => 200%Z end)
  ∨ (course_view m (PList request_data) program_uuid s
     = (Ok {| data := Results results; status_code := code |}, s')
     ∧ oks = ProgramCourseResponseStatuses.__OK__
     ∧ success = 200%Z) →
  (results ≠ ∅ ∧ (∀ k v, results !! k = Some v → py_in v oks = true) →
     code = success)
  ∧ ((∀ k v, results !! k = Some v → py_in v oks = false) → code = 422%Z)
  ∧ ((∃ k v, results !! k = Some v ∧ py_in v oks = true)
     ∧ (∃ k v, results !! k = Some v ∧ py_in v oks = false) → code = 207%Z)
  ∧ dom results = student_keys request_data
  ∧ size results = size (student_keys request_data).
Proof.
  intros Hview.
  assert (dom results = student_keys request_data
          ∧ code = (let good_count :=
                      length (filter (λ v, py_in v oks = true)
                                (map_to_list results).*2) in
                    if decide (good_count = 0)
                    then status.HTTP_422_UNPROCESSABLE_ENTITY
                    else if decide (good_count ≠ size results)
                         then status.HTTP_207_MULTI_STATUS
                         else success)) as [Hdom ->].
  { destruct Hview as [(Hview & -> & ->)|(Hview & -> & ->)].
    - rewrite ProgramBatchProperties.dispatch_unfold in Hview.
      apply ProgramBatchProperties.create_or_modify_enrollments_results in Hview
        as (results1 & enrs & pes & _ & Hval & _ & Happ & Hresp).
      apply validate_requests_keys in Hval. apply apply_requests_dom in Happ.
      split.
      + rewrite Happ, Hval, student_keys_nil. set_solver.
      + injection Hresp as <-. by destruct m.
    - rewrite CourseBatchProperties.course_dispatch_unfold in Hview.
      apply CourseBatchProperties.course_create_or_modify_enrollments_results in Hview
        as (results1 & enrs & pes & _ & Hval & _ & Happ & Hresp).
      apply validate_requests_keys in Hval.
      rewrite (CourseBatchProperties.apply_requests_course_operation _ _
                 program_uuid) in Happ.
      apply apply_requests_dom in Happ.
      split.
      + rewrite Happ, Hval, student_keys_nil. set_solver.
      + rewrite <- results_response_status_code. by rewrite Hresp. }
  destruct (good_count_status oks results success) as (H1 & H2 & H3).
  split; [exact H1|]. split; [exact H2|]. split; [exact H3|].
  split; [done|]. by rewrite <- Hdom, size_dom.
Qed.

End aggregate.

Lemma aggregate_status_witness :
  ({[KStr "learner-1" := PStr "enrolled"; KStr "learner-2" := PStr "invalid-status"]}
     : gmap hkey pyval)
  ≠ ∅
  ∧ dom ({[KStr "learner-1" := PStr "enrolled";
           KStr "learner-2" := PStr "invalid-status"]} : gmap hkey pyval)
    = student_keys [record "learner-1" "enrolled"; record "learner-2" "graduated"].
Proof.
  pose proof (aggregate_status program_serializer program_serializer
                course_serializer no_provider "course-1" POST
                [record "learner-1" "enrolled"; record "learner-2" "graduated"]
                "program-1" empty_store
                {| program_enrollments :=
                     [{| pe_user := None;
                         pe_external_user_key := PStr "learner-1";
                         pe_program_uuid := "program-1";
                         pe_curriculum_uuid := PNone;
                         pe_status := PStr "enrolled" |}];
                   program_course_enrollments := [] |}
                {[KStr "learner-1" := PStr "enrolled";
                  KStr "learner-2" := PStr "invalid-status"]}
                status.HTTP_207_MULTI_STATUS status.HTTP_201_CREATED
                ProgramResponseStatuses.__OK__) as H.
  destruct H as (_ & _ & _ & Hdom & _).
  - left. split; [vm_compute; reflexivity|]. split; reflexivity.
  - split; [|exact Hdom]. intros Hempty.
    apply (f_equal (λ m : gmap hkey pyval, m !! KStr "learner-1")) in Hempty.
    vm_compute in Hempty. discriminate Hempty.
Defined.

(** C2 as stated fails. A course-level POST whose only record succeeds is
    answered with 200, not with 201; and the empty batch, none of whose
    results is outside the success set, is answered with 422, not with the
    success code. *)
Lemma create_success_not_always_201 :
  (∃ s', ProgramCourseEnrollmentsView.dispatch course_serializer "course-1" POST
           (PList [record "learner-1" "active"]) "program-1" one_enrollment
         = (Ok {| data := Results {[KStr "learner-1" := PStr "active"]};
                  status_code := 200 |}, s')
         ∧ py_in (PStr "active") ProgramCourseResponseStatuses.__OK__ = true)
  ∧ ProgramEnrollmentsView.dispatch program_serializer program_serializer
      no_provider POST (PList []) "program-1" empty_store
    = (Ok {| data := Results ∅; status_code := 422 |}, empty_store).
Proof.
  split.
  - eexists. split; [vm_compute; reflexivity|reflexivity].
  - vm_compute. reflexivity.
Qed.

End AggregateProperties.

(** ** Batch enrollment: the shape of the responses *)
Module ResponseProperties.
Import ValidationProperties.

Section responses.
Context (create_serializer modify_serializer course_serializer : Serializer).
Context (get_user_by_program_id : user_lookup).
Context (course_key : string).

Abbreviation program_view :=
  (ProgramEnrollmentsView.dispatch create_serializer modify_serializer
     get_user_by_program_id).
Abbreviation course_view :=
  (ProgramCourseEnrollmentsView.dispatch course_serializer course_key).

(** The three kinds of response of the program-level view. *)
Lemma program_view_cases m request_data program_uuid s r s' :
  program_view m request_data program_uuid s = (Ok r, s') →
  (r = {| data := Message "enrollment limit 25"; status_code := 413 |}
   ∧ s' = s ∧ ∃ l, request_data = PList l ∧ 25 < length l)
  ∨ (r = {| data := Message "invalid enrollment record"; status_code := 422 |}
     ∧ s' = s
     ∧ ((∀ l, request_data ≠ PList l) ∨ ∃ l, request_data = PList l ∧ length l ≤ 25))
  ∨ (∃ l results code,
       request_data = PList l ∧ length l ≤ 25
       ∧ r = {| data := Results results; status_code := code |}
       ∧ (code = 422%Z ∨ code = 207%Z ∨ code = success_status_of m)).
Proof.
  rewrite ProgramBatchProperties.dispatch_unfold.
  unfold ProgramEnrollmentsView.create_or_modify_enrollments.
  destruct request_data as [| | | |l|];
    try (unfold ret; intros [= <- <-]; right; left;
         split; [done|]; split; [done|]; by left).
  destruct (decide (MAX_ENROLLMENT_RECORDS < length l)) as [Hlen|Hlen];
    unfold MAX_ENROLLMENT_RECORDS in Hlen.
  { unfold ret. intros [= <- <-]. left. eauto. }
  destruct (ProgramEnrollmentsView.validate_requests _ l ∅ ∅ [])
    as [ex|[results1 enrs]] eqn:Hval.
  { apply validate_requests_raises in Hval as [->|[->| ->]];
      unfold ret; intros [= <- <-]; right; left;
      (split; [done|]); (split; [done|]); right; exists l; (split; [done|lia]). }
  unfold bind at 1.
  destruct (ProgramEnrollmentsView.get_existing_program_enrollments _ _ _)
    as [[ex|pes] s1]; [done|].
  unfold bind at 1.
  destruct (ProgramEnrollmentsView.apply_requests _ _ _ _ _ _)
    as [[ex|results] s2]; [done|].
  unfold ret, ProgramEnrollmentsView._get_created_or_updated_response.
  intros [= <- <-]. right. right. eexists l, results, _.
  split; [done|]. split; [lia|]. split; [done|].
  repeat case_decide; auto.
Qed.

(** The three kinds of response of the course-level view. *)
Lemma course_view_cases m request_data program_uuid s r s' :
  course_view m request_data program_uuid s = (Ok r, s') →
  (r = {| data := Message "enrollment limit 25"; status_code := 413 |}
   ∧ s' = s ∧ ∃ l, request_data = PList l ∧ 25 < length l)
  ∨ (r = {| data := Message "invalid enrollment record"; status_code := 400 |}
     ∧ s' = s
     ∧ ((∀ l, request_data ≠ PList l) ∨ ∃ l, request_data = PList l ∧ length l ≤ 25))
  ∨ (∃ l results code,
       request_data = PList l ∧ length l ≤ 25
       ∧ r = {| data := Results results; status_code := code |}
       ∧ (code = 422%Z ∨ code = 207%Z ∨ code = 200%Z)).
Proof.
  rewrite CourseBatchProperties.course_dispatch_unfold.
  unfold ProgramCourseEnrollmentsView.create_or_modify_enrollments.
  destruct request_data as [| | | |l|];
    try (unfold ret; intros [= <- <-]; right; left;
         split; [done|]; split; [done|]; by left).
  destruct (decide (MAX_ENROLLMENT_RECORDS < length l)) as [Hlen|Hlen];
    unfold MAX_ENROLLMENT_RECORDS in Hlen.
  { unfold ret. intros [= <- <-]. left. eauto. }
  rewrite check_requests_validate_requests.
  destruct (ProgramEnrollmentsView.validate_requests _ l ∅ ∅ [])
    as [ex|[results1 enrs]] eqn:Hval.
  { apply validate_requests_raises in Hval as [->|[->| ->]];
      unfold ret; intros [= <- <-]; right; left;
      (split; [done|]); (split; [done|]); right; exists l; (split; [done|lia]). }
  unfold bind at 1.
  destruct (ProgramCourseEnrollmentsView.get_existing_program_enrollments _ _ _)
    as [[ex|pes] s1]; [done|].
  unfold bind at 1.
  destruct (ProgramCourseEnrollmentsView.apply_requests _ _ _ _ _ _)
    as [[ex|results] s2]; [done|].
  unfold ret, ProgramCourseEnrollmentsView.results_response.
  intros [= <- <-]. right. right.
  repeat case_decide; eexists l, results, _;
    (split; [done|]); (split; [lia|]); (split; [done|]); auto.
Qed.

(** X1. A batch handler of either view answers with 413 exactly when the
    body is a list of more than 25 records: a list of 25 records, and any
    body that is not a list, is never answered with 413. *)
Theorem payload_too_large_iff (m : method) (request_data : pyval)
    (program_uuid : string) (s s' : Store) (r : Response) :
  program_view m request_data program_uuid s = (Ok r, s')
  ∨ course_view m request_data program_uuid s = (Ok r, s') →
  status_code r = status.HTTP_413_REQUEST_ENTITY_TOO_LARGE
  ↔ ∃ l, request_data = PList l ∧ length l > 25.
Proof.
  intros [Hview|Hview].
  - apply program_view_cases in Hview
      as [(-> & _ & l & -> & Hl)|[(-> & _ & Hb)|(l & res & code & -> & Hl & -> & Hc)]].
    + split; [eauto|done].
    + split; [done|]. intros (l & -> & Hl).
      destruct Hb as [Hb|(l' & [= <-] & Hl')]; [by destruct (Hb l)|lia].
    + split.
      * cbn. destruct Hc as [->|[->| ->]]; try done. by destruct m.
      * intros (l' & [= <-] & Hl'). lia.
  - apply course_view_cases in Hview
      as [(-> & _ & l & -> & Hl)|[(-> & _ & Hb)|(l & res & code & -> & Hl & -> & Hc)]].
    + split; [eauto|done].
    + split; [done|]. intros (l & -> & Hl).
      destruct Hb as [Hb|(l' & [= <-] & Hl')]; [by destruct (Hb l)|lia].
    + split.
      * cbn. by destruct Hc as [->|[->| ->]].
      * intros (l' & [= <-] & Hl'). lia.
Qed.

(** X2. The program-level handlers answer with 201, 200, 207, 413 or 422
    and nothing else: 201 comes from POST only and 200 from PATCH and PUT
    only; 200, 201 and 207 always carry a result map and 413 a plain
    message, while 422 carries either. The store changes under a result
    map only. *)
Theorem program_status_codes (m : method) (request_data : pyval)
    (program_uuid : string) (s s' : Store) (r : Response) :
  program_view m request_data program_uuid s = (Ok r, s') →
  ((status_code r = 201%Z ∧ m = POST)
   ∨ (status_code r = 200%Z ∧ m ≠ POST)
   ∨ status_code r = 207%Z ∨ status_code r = 413%Z ∨ status_code r = 422%Z)
  ∧ (status_code r = 200%Z ∨ status_code r = 201%Z ∨ status_code r = 207%Z →
     ∃ results, data r = Results results)
  ∧ (status_code r = 413%Z → data r = Message "enrollment limit 25")
  ∧ ((∃ text, data r = Message text) → s' = s).
Proof.
  intros Hview. apply program_view_cases in Hview
    as [(-> & -> & _)|[(-> & -> & _)|(l & res & code & -> & Hl & -> & Hc)]]; cbn.
  - split; [auto|]. split; [intros [?|[?|?]]; done|]. done.
  - split; [auto 6|]. split; [intros [?|[?|?]]; done|]. done.
  - split.
    + destruct Hc as [->|[->| ->]]; [auto 6|auto|]. destruct m; cbn; auto.
    + split; [eauto|]. split.
      * intros ->. destruct Hc as [?|[?|Hc]]; [done..|]. by destruct m.
      * by intros [text ?].
Qed.

(** X3. The course-level handlers answer with 200, 207, 400, 413 or 422
    and nothing else, POST included: 400 and 413 always carry a plain
    message and leave the store as it was; 200, 207 and 422 always carry a
    result map. *)
Theorem course_status_codes (m : method) (request_data : pyval)
    (program_uuid : string) (s s' : Store) (r : Response) :
  course_view m request_data program_uuid s = (Ok r, s') →
  (status_code r = 200%Z ∨ status_code r = 207%Z ∨ status_code r = 400%Z
   ∨ status_code r = 413%Z ∨ status_code r = 422%Z)
  ∧ (status_code r = 400%Z ∨ status_code r = 413%Z →
     (∃ text, data r = Message text) ∧ s' = s)
  ∧ (status_code r = 200%Z ∨ status_code r = 207%Z ∨ status_code r = 422%Z →
     ∃ results, data r = Results results).
Proof.
  intros Hview. apply course_view_cases in Hview
    as [(-> & -> & _)|[(-> & -> & _)|(l & res & code & -> & Hl & -> & Hc)]]; cbn.
  - split; [auto 6|]. split; [eauto|]. intros [?|[?|?]]; done.
  - split; [auto 6|]. split; [eauto|]. intros [?|[?|?]]; done.
  - split; [destruct Hc as [->|[->| ->]]; auto 6|].
    split; [|eauto]. intros [->| ->]; destruct Hc as [?|[?|?]]; done.
Qed.

(** A record without a usable key makes the validation loop raise. *)
Lemma validate_requests_keyless ser data seen results enrs :
  (∃ e ex, e ∈ data ∧ student_key e = inl ex) →
  ∃ ex, ProgramEnrollmentsView.validate_requests ser data seen results enrs = inl ex.
Proof.
  revert seen results enrs.
  induction data as [|e0 data IH]; intros seen results enrs (e & ex & Hin & Hbad).
  { by apply not_elem_of_nil in Hin. }
  rewrite validate_requests_cons.
  apply elem_of_cons in Hin as [->|Hin]; [rewrite Hbad; eauto|].
  destruct (student_key e0) as [ex0|k]; [eauto|].
  repeat case_match; eauto.
Qed.

(** A record with a key that has not been seen and that fails validation
    for a reason other than its status makes the validation loop raise. *)
Lemma validate_requests_invalid_record ser l1 e l2 k seen results enrs :
  student_key e = Ok k → k ∉ seen → occurrences k l1 = 0 →
  is_valid ser e = false → has_invalid_status ser e = false →
  ∃ ex, ProgramEnrollmentsView.validate_requests ser (l1 ++ e :: l2) seen results enrs
        = inl ex.
Proof.
  intros Hk Hseen Hocc Hv Hs. revert seen results enrs Hseen.
  induction l1 as [|e0 l1 IH]; intros seen results enrs Hseen.
  { cbn [app]. rewrite validate_requests_cons, Hk, decide_False, Hv, Hs by done.
    eauto. }
  rewrite occurrences_cons in Hocc.
  destruct (decide (student_key e0 = Ok k)) as [|Hne]; [lia|].
  cbn [app]. rewrite validate_requests_cons.
  destruct (student_key e0) as [ex0|k0]; [eauto|].
  assert (k ∉ {[k0]} ∪ seen) by (assert (k0 ≠ k) by congruence; set_solver).
  repeat case_match; eauto; apply IH; (lia || done).
Qed.

(** What a request that the validation loop refuses is answered with. *)
Lemma refused_batch_rejected m l program_uuid s :
  length l ≤ 25 →
  ((∃ ex, ProgramEnrollmentsView.validate_requests
            (serializer_of create_serializer modify_serializer m) l ∅ ∅ []
          = inl ex) →
   program_view m (PList l) program_uuid s
   = (Ok {| data := Message "invalid enrollment record"; status_code := 422 |}, s))
  ∧ ((∃ ex, ProgramEnrollmentsView.validate_requests course_serializer l ∅ ∅ []
            = inl ex) →
     course_view m (PList l) program_uuid s
     = (Ok {| data := Message "invalid enrollment record"; status_code := 400 |}, s)).
Proof.
  intros Hlen. split; intros [ex Hex].
  - rewrite ProgramBatchProperties.dispatch_unfold.
    unfold ProgramEnrollmentsView.create_or_modify_enrollments.
    rewrite decide_False by (unfold MAX_ENROLLMENT_RECORDS; lia). rewrite Hex.
    by destruct (validate_requests_raises _ _ _ _ _ _ Hex) as [->|[->| ->]].
  - rewrite CourseBatchProperties.course_dispatch_unfold.
    unfold ProgramCourseEnrollmentsView.create_or_modify_enrollments.
    rewrite decide_False by (unfold MAX_ENROLLMENT_RECORDS; lia).
    rewrite check_requests_validate_requests, Hex.
    by destruct (validate_requests_raises _ _ _ _ _ _ Hex) as [->|[->| ->]].
Qed.

(** X4. A list of at most 25 records one of which carries a [student_key]
    that is a JSON array or object is rejected as a whole: 422 from the
    program-level handlers, 400 from the course-level handlers, a plain
    message and an unchanged store, wherever the record stands in the list
    and whatever the other records are. *)
Theorem unhashable_student_key_rejected (m : method) (l : list pyval)
    (program_uuid : string) (s : Store) (d : list (string * pyval)) (v : pyval) :
  length l ≤ 25 → PDict d ∈ l →
  dict_lookup "student_key" d = Some v → unhashable v →
  program_view m (PList l) program_uuid s
  = (Ok {| data := Message "invalid enrollment record"; status_code := 422 |}, s)
  ∧ course_view m (PList l) program_uuid s
    = (Ok {| data := Message "invalid enrollment record"; status_code := 400 |}, s).
Proof.
  intros Hlen Hin Hv Hun.
  assert (∃ e ex, e ∈ l ∧ student_key e = inl ex) as Hbad.
  { exists (PDict d), TypeError. split; [done|].
    unfold student_key. cbn. rewrite Hv. by destruct v. }
  destruct (refused_batch_rejected m l program_uuid s Hlen) as [Hp Hc].
  split; [apply Hp|apply Hc]; by apply validate_requests_keyless.
Qed.

(** X5. A list of at most 25 records is rejected as a whole, with a plain
    message and an unchanged store, when a record whose [student_key] has
    not occurred earlier in the list fails validation for a reason other
    than its status: 422 from a program-level handler whose serializer
    refuses the record, 400 from a course-level handler. *)
Theorem invalid_record_rejects_batch (m : method) (l1 l2 : list pyval) (e : pyval)
    (k : hkey) (program_uuid : string) (s : Store) :
  length (l1 ++ e :: l2) ≤ 25 → student_key e = Ok k → occurrences k l1 = 0 →
  (is_valid (serializer_of create_serializer modify_serializer m) e = false
   ∧ has_invalid_status (serializer_of create_serializer modify_serializer m) e
     = false →
   program_view m (PList (l1 ++ e :: l2)) program_uuid s
   = (Ok {| data := Message "invalid enrollment record"; status_code := 422 |}, s))
  ∧ (is_valid course_serializer e = false
     ∧ has_invalid_status course_serializer e = false →
     course_view m (PList (l1 ++ e :: l2)) program_uuid s
     = (Ok {| data := Message "invalid enrollment record"; status_code := 400 |}, s)).
Proof.
  intros Hlen Hk Hocc.
  destruct (refused_batch_rejected m (l1 ++ e :: l2) program_uuid s Hlen) as [Hp Hc].
  split; intros [Hv Hs]; [apply Hp|apply Hc];
    by apply (validate_requests_invalid_record _ l1 e l2 k).
Qed.

End responses.

Lemma payload_too_large_iff_witness :
  422%Z = status.HTTP_413_REQUEST_ENTITY_TOO_LARGE
  ↔ ∃ l, PList (replicate 25 (record "learner-1" "enrolled")) = PList l
         ∧ length l > 25.
Proof.
  apply (payload_too_large_iff program_serializer program_serializer
           course_serializer no_provider "course-1" PUT
           (PList (replicate 25 (record "learner-1" "enrolled"))) "program-1"
           empty_store empty_store
           {| data := Results {[KStr "learner-1" := PStr "duplicated"]};
              status_code := 422 |}).
  left. vm_compute. reflexivity.
Defined.

Lemma program_status_codes_witness :
  ∃ results, Results {[KStr "learner-2" := PStr "pending"]} = Results results.
Proof.
  pose proof (program_status_codes program_serializer program_serializer
                no_provider POST (PList [record "learner-2" "pending"])
                "program-1" empty_store
                {| program_enrollments :=
                     [{| pe_user := None;
                         pe_external_user_key := PStr "learner-2";
                         pe_program_uuid := "program-1";
                         pe_curriculum_uuid := PNone;
                         pe_status := PStr "pending" |}];
                   program_course_enrollments := [] |}
                {| data := Results {[KStr "learner-2" := PStr "pending"]};
                   status_code := 201 |}) as H.
  destruct H as (_ & H & _).
  - vm_compute. reflexivity.
  - apply H. right. left. reflexivity.
Defined.

Lemma course_status_codes_witness :
  (∃ text, Message "invalid enrollment record" = Message text)
  ∧ one_enrollment = one_enrollment.
Proof.
  pose proof (course_status_codes course_serializer "course-1" PATCH
                (PStr "learner-1") "program-1" one_enrollment one_enrollment
                {| data := Message "invalid enrollment record";
                   status_code := 400 |}) as H.
  destruct H as (_ & H & _).
  - vm_compute. reflexivity.
  - apply H. left. reflexivity.
Defined.

Lemma unhashable_student_key_rejected_witness :
  ProgramEnrollmentsView.dispatch program_serializer program_serializer no_provider
    POST
    (PList [record "learner-1" "enrolled";
            PDict [("student_key", PList [PStr "learner-2"]);
                   ("status", PStr "enrolled")]])
    "program-1" empty_store
  = (Ok {| data := Message "invalid enrollment record"; status_code := 422 |},
     empty_store).
Proof.
  apply (unhashable_student_key_rejected program_serializer program_serializer
           course_serializer no_provider "course-1" POST _ "program-1" empty_store
           [("student_key", PList [PStr "learner-2"]); ("status", PStr "enrolled")]
           (PList [PStr "learner-2"])).
  - simpl. lia.
  - apply elem_of_cons. right. apply elem_of_cons. by left.
  - reflexivity.
  - exact I.
Defined.

Lemma invalid_record_rejects_batch_witness :
  ProgramEnrollmentsView.dispatch program_serializer program_serializer no_provider
    POST (PList [record "learner-1" "enrolled";
                 PDict [("student_key", PStr "learner-2")]])
    "program-1" empty_store
  = (Ok {| data := Message "invalid enrollment record"; status_code := 422 |},
     empty_store).
Proof.
  apply (invalid_record_rejects_batch program_serializer program_serializer
           course_serializer no_provider "course-1" POST
           [record "learner-1" "enrolled"] []
           (PDict [("student_key", PStr "learner-2")]) (KStr "learner-2")
           "program-1" empty_store).
  - simpl. lia.
  - reflexivity.
  - reflexivity.
  - split; reflexivity.
Defined.

End ResponseProperties.

(** ** Batch program enrollment: what the handlers do to one learner *)
Module LearnerProperties.
Import ProgramEnrollmentsView ValidationProperties ApplicationProperties.
Import ExistingProperties OperationProperties ProgramBatchProperties.

Lemma occurrences_once k data e e' :
  occurrences k data = 1 → e ∈ data → e' ∈ data →
  student_key e = Ok k → student_key e' = Ok k → e = e'.
Proof.
  induction data as [|e0 data IH]; intros Hocc He He' Hk Hk'.
  { by apply not_elem_of_nil in He. }
  rewrite occurrences_cons in Hocc.
  destruct (decide (student_key e0 = Ok k)) as [Hk0|Hk0].
  - assert (∀ x, x ∈ e0 :: data → student_key x = Ok k → x = e0) as Hhead.
    { intros x Hx Hxk. apply elem_of_cons in Hx as [->|Hx]; [done|].
      assert (0 < occurrences k data) by (apply occurrences_pos; eauto). lia. }
    by rewrite (Hhead e), (Hhead e').
  - apply elem_of_cons in He as [->|He]; [congruence|].
    apply elem_of_cons in He' as [->|He']; [congruence|].
    apply IH; (lia || done).
Qed.

Section validation.
Context (ser : Serializer).

(** A record whose key is new and occurs once, and that the serializer
    refuses, gets [invalid-status] from the loop that returns. *)
Lemma validate_requests_invalid_once data seen results enrs results' enrs' e k :
  validate_requests ser data seen results enrs = Ok (results', enrs') →
  e ∈ data → student_key e = Ok k → k ∉ seen → occurrences k data = 1 →
  is_valid ser e = false →
  results' !! k = Some (PStr "invalid-status").
Proof.
  revert seen results enrs.
  induction data as [|e0 data IH]; intros seen results enrs H He Hk Hseen Hocc Hv.
  { by apply not_elem_of_nil in He. }
  rewrite occurrences_cons in Hocc.
  destruct (decide (student_key e0 = Ok k)) as [Hk0|Hk0].
  - assert (occurrences k data = 0) as Hz by lia.
    assert (e = e0) as ->.
    { apply elem_of_cons in He as [->|He]; [done|].
      assert (0 < occurrences k data) by (apply occurrences_pos; eauto). lia. }
    apply validate_requests_cons_inv in H
      as (k0 & Hk' & [[Hs H]|[(_ & Hv' & H)|(_ & _ & H)]]);
      assert (k0 = k) as -> by congruence; [done|congruence|].
    rewrite (validate_requests_frame _ _ _ _ _ _ _ _ H Hz).
    apply lookup_insert_eq.
  - apply elem_of_cons in He as [->|He]; [congruence|].
    apply validate_requests_cons_inv in H
      as (k0 & Hk' & [[Hs H]|[(_ & _ & H)|(_ & _ & H)]]);
      assert (k0 ≠ k) by congruence;
      apply (IH _ _ _ H He Hk); (set_solver || lia || done).
Qed.

(** No accepted record carries the key of a refused record that occurs
    once. *)
Lemma validate_requests_invalid_not_accepted data results' enrs' e k :
  validate_requests ser data ∅ ∅ [] = Ok (results', enrs') →
  e ∈ data → student_key e = Ok k → occurrences k data = 1 →
  is_valid ser e = false →
  occurrences k enrs' = 0.
Proof.
  intros H He Hk Hocc Hv.
  apply validate_requests_accepted in H as (new & -> & _ & Hnew).
  destruct (decide (occurrences k ([] ++ new) = 0)) as [|Hpos]; [done|].
  assert (0 < occurrences k ([] ++ new)) as Hocc' by lia.
  apply occurrences_pos in Hocc' as (e' & He' & Hk').
  destruct (Hnew e' He') as (Hin & Hvalid & _).
  rewrite (occurrences_once k data e e') in Hv by done. congruence.
Qed.

End validation.

(** The instances of the dict of existing enrollments are rows of the
    table. *)
Lemma get_existing_program_enrollments_rows program_uuid enrs s pes s1 k i :
  get_existing_program_enrollments program_uuid enrs s = (Ok pes, s1) →
  pes !! k = Some i →
  program_enrollments s !! i.1 = Some i.2.
Proof.
  unfold get_existing_program_enrollments, bind, lift, query.
  destruct (res_map (λ d, py_getitem d "student_key") enrs) as [ex|keys]; [done|].
  destruct (dict_by_external_user_key
              (fetch_program_enrollments program_uuid keys s) ∅) as [ex|pes']
    eqn:Hdict; [done|].
  intros [= -> <-] Hi.
  destruct (dict_by_external_user_key_lookup _ _ _ Hdict) as [H1 _].
  destruct (H1 k i Hi) as [[Hin _]|Hacc]; [|by rewrite lookup_empty in Hacc].
  unfold fetch_program_enrollments in Hin.
  apply list_elem_of_filter in Hin as [_ Hin]. destruct i as [j r].
  by apply elem_of_rows in Hin.
Qed.

Section learner.
Context (create_serializer modify_serializer : Serializer).
Context (get_user_by_program_id : user_lookup).

Abbreviation program_view :=
  (dispatch create_serializer modify_serializer get_user_by_program_id).

(** The one call of the operation for a record that passes validation and
    whose key occurs once, in a batch answered with a result map. *)
Lemma valid_record_processed m l program_uuid s s' results code e k :
  program_view m (PList l) program_uuid s
  = (Ok {| data := Results results; status_code := code |}, s') →
  e ∈ l → student_key e = Ok k → occurrences k l = 1 →
  is_valid (serializer_of create_serializer modify_serializer m) e = true →
  ∃ pe s1 r s2,
    operation_of get_user_by_program_id m e program_uuid pe s1 = (Ok r, s2)
    ∧ (is_Some pe ↔ enrolled_in program_uuid k s)
    ∧ (∀ i, pe = Some i →
         program_enrollments s !! i.1 = Some i.2
         ∧ py_hash (pe_external_user_key i.2) = Ok k
         ∧ pe_program_uuid i.2 = program_uuid
         ∧ i.1 < length (program_enrollments s1))
    ∧ rows_with_key k s1 = rows_with_key k s
    ∧ rows_with_key k s' = rows_with_key k s2
    ∧ results !! k = Some r.
Proof.
  rewrite dispatch_unfold. intros Hview He Hk Hocc Hvalid.
  apply create_or_modify_enrollments_results in Hview
    as (results1 & enrs & pes & _ & Hval & Hex & Happ & _).
  pose proof (get_existing_program_enrollments_rows _ _ _ _ _ k
                (default (0, {| pe_user := None; pe_external_user_key := PNone;
                                pe_program_uuid := ""; pe_curriculum_uuid := PNone;
                                pe_status := PNone |}) (pes !! k)) Hex) as Hrow.
  apply get_existing_program_enrollments_spec in Hex as (_ & Hsnap & Hpes).
  destruct (validate_requests_valid_once _ _ _ _ _ _ _ e k Hval He Hk)
    as [Hin Hnone]; [set_solver|done|done|].
  rewrite lookup_empty in Hnone.
  destruct (validate_requests_accepted _ _ _ _ _ _ _ Hval) as (new & -> & Hnd & _).
  destruct (apply_requests_processed _ _ _
              (operation_of_local get_user_by_program_id m) new results1
              s results s' e k Hsnap Hnd Hin Hk)
    as (s1 & r & s2 & Hcall & Hsnap1 & Hr1 & Hr2 & Hres); [|done|].
  { unfold marked_duplicated. by rewrite Hnone. }
  exists (pes !! k), s1, r, s2. split; [done|]. split.
  { rewrite Hpes. split; [by intros [? _]|]. intros ?. split; [done|]. eauto. }
  split; [|done]. intros i Hi. rewrite Hi in Hrow. cbn in Hrow.
  destruct (Hsnap k i Hi) as (Hh & Hp & _).
  destruct (Hsnap1 k i Hi) as (_ & _ & Hlook).
  split; [by apply Hrow|]. split; [done|]. split; [done|].
  destruct (program_enrollments s1 !! i.1) eqn:Hl; [|done].
  by eapply lookup_lt_Some.
Qed.

Lemma get_existing_program_enrollments_store program_uuid enrs s out s1 :
  get_existing_program_enrollments program_uuid enrs s = (out, s1) → s1 = s.
Proof.
  unfold get_existing_program_enrollments, bind, lift, query.
  destruct (res_map _ enrs); [by intros [= _ <-]|].
  by intros [= _ <-].
Qed.

(** A property of the store that every call of the operation of the
    handler keeps holds after the request if it held before, whatever the
    request is answered with. *)
Lemma program_view_invariant (I : Store → Prop) m request_data program_uuid
    s out s' :
  I s →
  (∀ (pes : gmap hkey (nat * ProgramEnrollment)) e k s1 r s2,
     (∀ k i, pes !! k = Some i → program_enrollments s !! i.1 = Some i.2) →
     student_key e = Ok k → I s1 →
     operation_of get_user_by_program_id m e program_uuid (pes !! k) s1 = (r, s2) →
     I s2) →
  program_view m request_data program_uuid s = (out, s') →
  I s'.
Proof.
  intros HI Hop. rewrite dispatch_unfold. unfold create_or_modify_enrollments.
  destruct request_data as [| | | |l|];
    try (unfold ret; by intros [= _ <-]).
  destruct (decide (MAX_ENROLLMENT_RECORDS < length l));
    [unfold ret; by intros [= _ <-]|].
  destruct (validate_requests _ l ∅ ∅ []) as [ex|[results1 enrs]].
  { destruct ex; unfold ret, raise; by intros [= _ <-]. }
  unfold bind at 1.
  destruct (get_existing_program_enrollments program_uuid enrs s)
    as [[ex|pes] s1] eqn:Hex;
    pose proof (get_existing_program_enrollments_store _ _ _ _ _ Hex) as ->.
  { by intros [= _ <-]. }
  unfold bind at 1.
  destruct (apply_requests _ program_uuid pes enrs results1 s)
    as [out2 s2] eqn:Happ.
  assert (I s2) as HI2.
  { eapply apply_requests_invariant; [|exact HI|exact Happ].
    intros e k s1 r s3 Hk HI1 Hcall. eapply (Hop pes); [|done..].
    intros k' i Hi. by eapply get_existing_program_enrollments_rows. }
  destruct out2; unfold ret; by intros [= _ <-].
Qed.

(** X6. In a batch that the program-level view answers with a result map,
    a record that the serializer of the handler refuses and whose
    [student_key] occurs once has the result [invalid-status], and the
    enrollments of its learner are as they were. *)
Theorem refused_status_invalid (m : method) (l : list pyval)
    (program_uuid : string) (s s' : Store) (results : gmap hkey pyval)
    (code : Z) (e : pyval) (k : hkey) :
  program_view m (PList l) program_uuid s
  = (Ok {| data := Results results; status_code := code |}, s') →
  e ∈ l → student_key e = Ok k → occurrences k l = 1 →
  is_valid (serializer_of create_serializer modify_serializer m) e = false →
  results !! k = Some (PStr "invalid-status")
  ∧ rows_with_key k s' = rows_with_key k s.
Proof.
  rewrite dispatch_unfold. intros Hview He Hk Hocc Hv.
  apply create_or_modify_enrollments_results in Hview
    as (results1 & enrs & pes & _ & Hval & Hex & Happ & _).
  apply get_existing_program_enrollments_spec in Hex as (_ & Hsnap & _).
  pose proof (validate_requests_invalid_once _ _ _ _ _ _ _ e k Hval He Hk
                ltac:(set_solver) Hocc Hv) as Hres1.
  pose proof (validate_requests_invalid_not_accepted _ _ _ _ e k Hval He Hk Hocc Hv)
    as Hnone.
  destruct (apply_requests_frame _ _ _
              (operation_of_local get_user_by_program_id m) enrs results1 s
              (Ok results) s' k Hsnap (or_introl Hnone) Happ) as [Hrows Hres].
  split; [|done]. by rewrite (Hres _ eq_refl).
Qed.

(** X7. A PATCH changes nothing but statuses, whatever it is answered with:
    the table of program enrollments keeps its rows, each with its user,
    learner, program and curriculum, and the table of course enrollments is
    as it was. *)
Theorem patch_changes_statuses_only (request_data : pyval) (program_uuid : string)
    (s s' : Store) (out : res Response) :
  program_view PATCH request_data program_uuid s = (out, s') →
  without_status <$> program_enrollments s' = without_status <$> program_enrollments s
  ∧ program_course_enrollments s' = program_course_enrollments s.
Proof.
  apply (program_view_invariant
           (λ s1, without_status <$> program_enrollments s1
                  = without_status <$> program_enrollments s
                  ∧ program_course_enrollments s1 = program_course_enrollments s));
    [done|].
  intros pes e k s1 r s2 Hrows Hk [Hws Hpce] Hcall. cbn in Hcall.
  unfold modify_program_enrollment in Hcall.
  destruct (pes !! k) as [i|] eqn:Hi; [|unfold ret in Hcall; by simplify_eq].
  apply student_key_inv in Hk as (d & v & -> & _ & _).
  unfold bind, lift, save_pe, ret in Hcall. cbn in Hcall. simplify_eq. cbn.
  split; [|done]. rewrite list_fmap_insert, Hws. apply list_insert_id.
  by rewrite list_lookup_fmap, (Hrows k i Hi).
Qed.

(** X8. In a PATCH that is answered with a result map, a record that passes
    validation, whose [student_key] occurs once and whose learner is
    enrolled in the program has the requested status as its result, and
    after the request an enrollment that the learner had in the program has
    the requested status, its other fields being as they were. *)
Theorem patch_updates_status (l : list pyval) (program_uuid : string)
    (s s' : Store) (results : gmap hkey pyval) (code : Z)
    (d : list (string * pyval)) (k : hkey) :
  program_view PATCH (PList l) program_uuid s
  = (Ok {| data := Results results; status_code := code |}, s') →
  PDict d ∈ l → student_key (PDict d) = Ok k → occurrences k l = 1 →
  is_valid modify_serializer (PDict d) = true →
  enrolled_in program_uuid k s →
  results !! k = Some (field "status" d)
  ∧ ∃ r, r ∈ program_enrollments s
         ∧ pe_program_uuid r = program_uuid
         ∧ py_hash (pe_external_user_key r) = Ok k
         ∧ with_status r (field "status" d) ∈ program_enrollments s'.
Proof.
  intros Hview He Hk Hocc Hv Henr.
  destruct (valid_record_processed PATCH _ _ _ _ _ _ _ _ Hview He Hk Hocc Hv)
    as (pe & s1 & r & s2 & Hcall & Hpe & Hrow & Hr1 & Hr2 & Hres).
  destruct (proj2 Hpe Henr) as [i Hsome]. subst pe.
  destruct (Hrow i eq_refl) as (Hi & Hh & Hp & Hlt).
  cbn in Hcall. unfold bind, lift, save_pe, ret in Hcall. cbn in Hcall.
  simplify_eq. split; [done|]. exists i.2.
  split; [by eapply list_elem_of_lookup_2|]. split; [done|]. split; [done|].
  assert (with_status i.2 (field "status" d) ∈ rows_with_key k s') as Hin.
  { rewrite Hr2. unfold rows_with_key, with_status, field.
    apply list_elem_of_filter. split; [done|]. cbn.
    eapply list_elem_of_lookup_2. by apply list_lookup_insert_eq. }
  unfold rows_with_key in Hin. by apply list_elem_of_filter in Hin as [_ ?].
Qed.

(** What [create_program_enrollment] does for a learner without
    enrollment when it returns. *)
Lemma create_program_enrollment_returns d program_uuid s1 r s2 :
  create_program_enrollment get_user_by_program_id (PDict d) program_uuid None s1
  = (Ok r, s2) →
  r = field "status" d
  ∧ s2 = set_program_enrollments
           (λ t, t ++ [{| pe_user :=
                            linked_user get_user_by_program_id
                              (field "student_key" d) program_uuid;
                          pe_external_user_key := field "student_key" d;
                          pe_program_uuid := program_uuid;
                          pe_curriculum_uuid := field "curriculum_uuid" d;
                          pe_status := field "status" d |}]) s1.
Proof.
  unfold create_program_enrollment, bind, lift, objects_create_pe, ret,
    linked_user, field. cbn.
  destruct (get_user_by_program_id (default PNone (dict_lookup "student_key" d))
              program_uuid) as [[]|u]; by intros [= <- <-].
Qed.

(** X9. In a POST that is answered with a result map, a record that passes
    validation, whose [student_key] occurs once and whose learner is not
    enrolled in the program has the requested status as its result, and the
    table holds afterwards an enrollment of the learner in the program with
    the requested curriculum and status, linked to the user the provider
    lookup returns and to no user when the lookup raises. *)
Theorem post_creates_enrollment (l : list pyval) (program_uuid : string)
    (s s' : Store) (results : gmap hkey pyval) (code : Z)
    (d : list (string * pyval)) (k : hkey) :
  program_view POST (PList l) program_uuid s
  = (Ok {| data := Results results; status_code := code |}, s') →
  PDict d ∈ l → student_key (PDict d) = Ok k → occurrences k l = 1 →
  is_valid create_serializer (PDict d) = true →
  ¬ enrolled_in program_uuid k s →
  results !! k = Some (field "status" d)
  ∧ {| pe_user := linked_user get_user_by_program_id (field "student_key" d)
                    program_uuid;
       pe_external_user_key := field "student_key" d;
       pe_program_uuid := program_uuid;
       pe_curriculum_uuid := field "curriculum_uuid" d;
       pe_status := field "status" d |} ∈ program_enrollments s'.
Proof.
  intros Hview He Hk Hocc Hv Henr.
  destruct (valid_record_processed POST _ _ _ _ _ _ _ _ Hview He Hk Hocc Hv)
    as (pe & s1 & r & s2 & Hcall & Hpe & _ & _ & Hr2 & Hres).
  destruct pe as [i|]; [destruct Henr; apply Hpe; eauto|].
  cbn in Hcall. apply create_program_enrollment_returns in Hcall as [-> ->].
  split; [done|].
  apply student_key_inv in Hk as (d' & v & [= <-] & Hv' & Hh).
  match goal with
  | |- ?row ∈ _ => assert (row ∈ rows_with_key k s') as Hin
  end.
  { rewrite Hr2. unfold rows_with_key. apply list_elem_of_filter. cbn.
    split; [unfold field; by rewrite Hv'|]. apply elem_of_app. right. by left. }
  unfold rows_with_key in Hin. by apply list_elem_of_filter in Hin as [_ ?].
Qed.

(** X10. In a PUT that is answered with a result map, a record that passes
    validation and whose [student_key] occurs once has the requested status
    as its result, never [conflict] or [not-in-program] on account of the
    table, and after the request the learner has an enrollment in the
    program with the requested status, whether or not the learner was
    enrolled before. *)
Theorem put_creates_or_updates (l : list pyval) (program_uuid : string)
    (s s' : Store) (results : gmap hkey pyval) (code : Z)
    (d : list (string * pyval)) (k : hkey) :
  program_view PUT (PList l) program_uuid s
  = (Ok {| data := Results results; status_code := code |}, s') →
  PDict d ∈ l → student_key (PDict d) = Ok k → occurrences k l = 1 →
  is_valid create_serializer (PDict d) = true →
  results !! k = Some (field "status" d)
  ∧ ∃ r, r ∈ program_enrollments s'
         ∧ pe_program_uuid r = program_uuid
         ∧ py_hash (pe_external_user_key r) = Ok k
         ∧ pe_status r = field "status" d.
Proof.
  intros Hview He Hk Hocc Hv.
  destruct (valid_record_processed PUT _ _ _ _ _ _ _ _ Hview He Hk Hocc Hv)
    as (pe & s1 & r & s2 & Hcall & _ & Hrow & _ & Hr2 & Hres).
  assert (∀ row, row ∈ rows_with_key k s2 → row ∈ program_enrollments s') as Hin.
  { intros row Hrow'. rewrite <- Hr2 in Hrow'. unfold rows_with_key in Hrow'.
    by apply list_elem_of_filter in Hrow' as [_ ?]. }
  destruct pe as [i|]; cbn in Hcall.
  - destruct (Hrow i eq_refl) as (Hi & Hh & Hp & Hlt).
    unfold bind, lift, save_pe, ret in Hcall. cbn in Hcall.
    injection Hcall as <- <-.
    split; [done|]. exists (with_status i.2 (field "status" d)).
    split; [|by cbn]. apply Hin.
    unfold rows_with_key, with_status, field. apply list_elem_of_filter.
    split; [done|]. cbn.
    eapply list_elem_of_lookup_2. by apply list_lookup_insert_eq.
  - apply create_program_enrollment_returns in Hcall as [-> ->].
    apply student_key_inv in Hk as (d' & v & [= <-] & Hv' & Hh).
    assert (py_hash (field "student_key" d) = Ok k) as Hf
      by (unfold field; by rewrite Hv').
    split; [done|]. eexists. split.
    { apply Hin. unfold rows_with_key. apply list_elem_of_filter. cbn.
      split; last first.
      - apply elem_of_app. right. left.
      - exact Hf. }
    split; [reflexivity|]. split; [exact Hf|reflexivity].
Qed.

(** X11. A POST changes no enrollment that exists, whatever it is answered
    with: the table of program enrollments after the request is the table
    before it followed by the enrollments created, and the table of course
    enrollments is as it was. *)
Theorem post_keeps_existing_rows (request_data : pyval) (program_uuid : string)
    (s s' : Store) (out : res Response) :
  program_view POST request_data program_uuid s = (out, s') →
  program_enrollments s `prefix_of` program_enrollments s'
  ∧ program_course_enrollments s' = program_course_enrollments s.
Proof.
  apply (program_view_invariant
           (λ s1, program_enrollments s `prefix_of` program_enrollments s1
                  ∧ program_course_enrollments s1 = program_course_enrollments s));
    [done|].
  intros pes e k s1 r s2 _ Hk [Hpre Hpce] Hcall. cbn in Hcall.
  unfold create_program_enrollment in Hcall.
  destruct (pes !! k) as [i|]; [unfold ret in Hcall; by simplify_eq|].
  apply student_key_inv in Hk as (d & v & -> & Hv & _).
  unfold bind, lift, objects_create_pe, ret in Hcall. cbn in Hcall.
  destruct (get_user_by_program_id (default PNone (dict_lookup "student_key" d))
              program_uuid) as [[]|u]; simplify_eq; try done.
  all: split; [|done]; cbn; etrans; [exact Hpre|]; by apply prefix_app_r.
Qed.

(** X12. A create is not repeatable. After a POST that is answered with a
    result map, the learner of every record that passed validation and whose
    [student_key] occurred once is enrolled in the program; a later POST
    for that learner in the program has the result [conflict] and leaves the
    enrollments of the learner as the first POST left them. *)
Theorem repeated_post_conflicts (l1 l2 : list pyval) (program_uuid : string)
    (s s1 s2 : Store) (results1 results2 : gmap hkey pyval) (code1 code2 : Z)
    (e1 e2 : pyval) (k : hkey) :
  program_view POST (PList l1) program_uuid s
  = (Ok {| data := Results results1; status_code := code1 |}, s1) →
  e1 ∈ l1 → student_key e1 = Ok k → occurrences k l1 = 1 →
  is_valid create_serializer e1 = true →
  program_view POST (PList l2) program_uuid s1
  = (Ok {| data := Results results2; status_code := code2 |}, s2) →
  e2 ∈ l2 → student_key e2 = Ok k → occurrences k l2 = 1 →
  is_valid create_serializer e2 = true →
  enrolled_in program_uuid k s1
  ∧ results2 !! k = Some (PStr "conflict")
  ∧ rows_with_key k s2 = rows_with_key k s1.
Proof.
  intros Hview1 He1 Hk1 Hocc1 Hv1 Hview2 He2 Hk2 Hocc2 Hv2.
  assert (enrolled_in program_uuid k s1) as Henr.
  { destruct (valid_record_processed POST _ _ _ _ _ _ _ _ Hview1 He1 Hk1 Hocc1 Hv1)
      as (pe & t1 & r & t2 & Hcall & Hpe & Hrow & Hr1 & Hr2 & _).
    assert (∀ row, row ∈ rows_with_key k t2 → pe_program_uuid row = program_uuid →
              enrolled_in program_uuid k s1) as Hin.
    { intros row Hrow' Hp. rewrite <- Hr2 in Hrow'. unfold rows_with_key in Hrow'.
      apply list_elem_of_filter in Hrow' as [? ?]. by exists row. }
    destruct pe as [i|]; cbn in Hcall.
    - unfold ret in Hcall. simplify_eq.
      destruct (Hrow i eq_refl) as (Hi & Hh & Hp & _).
      apply (Hin i.2); [|done]. rewrite Hr1. unfold rows_with_key.
      apply list_elem_of_filter. split; [done|]. by eapply list_elem_of_lookup_2.
    - apply student_key_inv in Hk1 as (d & v & -> & Hv' & Hh).
      apply create_program_enrollment_returns in Hcall as [-> ->].
      assert (py_hash (field "student_key" d) = Ok k) as Hf
        by (unfold field; by rewrite Hv').
      eapply Hin.
      + unfold rows_with_key. apply list_elem_of_filter. cbn.
        split; last first.
        * apply elem_of_app. right. left.
        * exact Hf.
      + reflexivity. }
  split; [done|].
  destruct (valid_record_processed POST _ _ _ _ _ _ _ _ Hview2 He2 Hk2 Hocc2 Hv2)
    as (pe & t1 & r & t2 & Hcall & Hpe & _ & Hr1 & Hr2 & Hres).
  destruct (proj2 Hpe Henr) as [i Hsome]. subst pe. cbn in Hcall.
  unfold ret in Hcall. simplify_eq. split; [done|]. by rewrite Hr2.
Qed.

End learner.

Lemma refused_status_invalid_witness :
  ({[KStr "learner-1" := PStr "invalid-status"]} : gmap hkey pyval)
    !! KStr "learner-1" = Some (PStr "invalid-status")
  ∧ rows_with_key (KStr "learner-1") one_enrollment
    = rows_with_key (KStr "learner-1") one_enrollment.
Proof.
  apply (refused_status_invalid program_serializer program_serializer no_provider
           PATCH [record "learner-1" "graduated"] "program-1" one_enrollment
           one_enrollment _ 422 (record "learner-1" "graduated") (KStr "learner-1")).
  - vm_compute. reflexivity.
  - by left.
  - reflexivity.
  - reflexivity.
  - reflexivity.
Defined.

Lemma patch_changes_statuses_only_witness :
  without_status
    <$> program_enrollments
          (dispatch program_serializer program_serializer no_provider PATCH
             (PList [record "learner-1" "suspended"]) "program-1" one_enrollment).2
  = without_status <$> program_enrollments one_enrollment.
Proof.
  eapply proj1.
  apply (patch_changes_statuses_only program_serializer program_serializer
           no_provider (PList [record "learner-1" "suspended"]) "program-1"
           one_enrollment _
           (Ok {| data := Results {[KStr "learner-1" := PStr "suspended"]};
                  status_code := 200 |})).
  vm_compute. reflexivity.
Defined.

Lemma patch_updates_status_witness :
  ({[KStr "learner-1" := PStr "suspended"]} : gmap hkey pyval) !! KStr "learner-1"
  = Some (PStr "suspended").
Proof.
  eapply proj1.
  apply (patch_updates_status program_serializer program_serializer no_provider
           [record "learner-1" "suspended"] "program-1" one_enrollment
           (dispatch program_serializer program_serializer no_provider PATCH
              (PList [record "learner-1" "suspended"]) "program-1" one_enrollment).2
           {[KStr "learner-1" := PStr "suspended"]} 200
           [("student_key", PStr "learner-1"); ("status", PStr "suspended")]
           (KStr "learner-1")).
  - vm_compute. reflexivity.
  - by left.
  - reflexivity.
  - reflexivity.
  - reflexivity.
  - eexists. split; [by left|]. split; reflexivity.
Defined.

Lemma post_creates_enrollment_witness :
  ({[KStr "learner-2" := PStr "pending"]} : gmap hkey pyval) !! KStr "learner-2"
  = Some (PStr "pending").
Proof.
  eapply proj1.
  apply (post_creates_enrollment program_serializer program_serializer known_user
           [record "learner-2" "pending"] "program-1" one_enrollment
           (dispatch program_serializer program_serializer known_user POST
              (PList [record "learner-2" "pending"]) "program-1" one_enrollment).2
           {[KStr "learner-2" := PStr "pending"]} 201
           [("student_key", PStr "learner-2"); ("status", PStr "pending")]
           (KStr "learner-2")).
  - vm_compute. reflexivity.
  - by left.
  - reflexivity.
  - reflexivity.
  - reflexivity.
  - intros (r & Hr & _ & Hk). apply list_elem_of_singleton in Hr as ->.
    discriminate Hk.
Defined.

Lemma put_creates_or_updates_witness :
  ({[KStr "learner-1" := PStr "canceled"; KStr "learner-2" := PStr "pending"]}
     : gmap hkey pyval) !! KStr "learner-1"
  = Some (PStr "canceled").
Proof.
  eapply proj1.
  apply (put_creates_or_updates program_serializer program_serializer no_provider
           [record "learner-1" "canceled"; record "learner-2" "pending"]
           "program-1" one_enrollment
           (dispatch program_serializer program_serializer no_provider PUT
              (PList [record "learner-1" "canceled"; record "learner-2" "pending"])
              "program-1" one_enrollment).2
           {[KStr "learner-1" := PStr "canceled"; KStr "learner-2" := PStr "pending"]}
           200
           [("student_key", PStr "learner-1"); ("status", PStr "canceled")]
           (KStr "learner-1")).
  - vm_compute. reflexivity.
  - by left.
  - reflexivity.
  - reflexivity.
  - reflexivity.
Defined.

Lemma post_keeps_existing_rows_witness :
  program_enrollments one_enrollment
  `prefix_of`
  program_enrollments
    (dispatch program_serializer program_serializer known_user POST
       (PList [record "learner-2" "pending"]) "program-1" one_enrollment).2.
Proof.
  eapply proj1.
  apply (post_keeps_existing_rows program_serializer program_serializer
           known_user (PList [record "learner-2" "pending"]) "program-1"
           one_enrollment _
           (Ok {| data := Results {[KStr "learner-2" := PStr "pending"]};
                  status_code := 201 |})).
  vm_compute. reflexivity.
Defined.

Lemma repeated_post_conflicts_witness :
  ({[KStr "learner-2" := PStr "conflict"]} : gmap hkey pyval) !! KStr "learner-2"
  = Some (PStr "conflict").
Proof.
  pose (dispatch program_serializer program_serializer known_user POST
          (PList [record "learner-2" "pending"]) "program-1" one_enrollment).2
    as s1.
  eapply (λ H, proj1 (proj2 H)).
  apply (repeated_post_conflicts program_serializer program_serializer known_user
           [record "learner-2" "pending"] [record "learner-2" "enrolled"]
           "program-1" one_enrollment s1 s1
           {[KStr "learner-2" := PStr "pending"]}
           {[KStr "learner-2" := PStr "conflict"]} 201 422
           (record "learner-2" "pending") (record "learner-2" "enrolled")
           (KStr "learner-2")).
  - vm_compute. reflexivity.
  - by left.
  - reflexivity.
  - reflexivity.
  - reflexivity.
  - vm_compute. reflexivity.
  - by left.
  - reflexivity.
  - reflexivity.
  - reflexivity.
Defined.

End LearnerProperties.

(** ** Grade listing: the status read backwards, and across pages *)
Module GradeStatusProperties.
Import ProgramCourseGradesView GradesProperties.

Lemma calc_response_code_cons r rs :
  _calc_response_code (r :: rs)
  = if forallb is_error (r :: rs) then status.HTTP_422_UNPROCESSABLE_ENTITY
    else if existsb is_error (r :: rs) then status.HTTP_207_MULTI_STATUS
    else status.HTTP_200_OK.
Proof. reflexivity. Qed.

Lemma forallb_is_error_false (l : list BaseProgramCourseGrade) :
  forallb is_error l = false ↔ ∃ r, r ∈ l ∧ is_error r = false.
Proof.
  induction l as [|x l IH]; cbn.
  - split; [done|]. intros (r & Hr & _). by apply not_elem_of_nil in Hr.
  - destruct (is_error x) eqn:Hx; cbn.
    + rewrite IH. split.
      * intros (r & Hr & He). exists r. split; [by right|done].
      * intros (r & Hr & He). apply elem_of_cons in Hr as [->|Hr]; [congruence|].
        eauto.
    + split; [|done]. intros _. exists x. split; [by left|done].
Qed.

Lemma existsb_is_error_false (l : list BaseProgramCourseGrade) :
  existsb is_error l = false ↔ ∀ r, r ∈ l → is_error r = false.
Proof.
  induction l as [|x l IH]; cbn.
  - split; [|done]. intros _ r Hr. by apply not_elem_of_nil in Hr.
  - destruct (is_error x) eqn:Hx; cbn.
    + split; [done|]. intros H. rewrite (H x) in Hx; [done|by left].
    + rewrite IH. split.
      * intros H r Hr. apply elem_of_cons in Hr as [->|Hr]; [done|by apply H].
      * intros H r Hr. apply H. by right.
Qed.

Lemma calc_response_code_bool (l : list BaseProgramCourseGrade) :
  (_calc_response_code l = 204%Z ↔ l = [])
  ∧ (_calc_response_code l = 422%Z ↔ l ≠ [] ∧ forallb is_error l = true)
  ∧ (_calc_response_code l = 200%Z ↔ l ≠ [] ∧ existsb is_error l = false)
  ∧ (_calc_response_code l = 207%Z
     ↔ existsb is_error l = true ∧ forallb is_error l = false).
Proof.
  destruct l as [|r0 rs].
  { cbn. split; [done|]. split; [split; [done|by intros [? _]]|].
    split; [split; [done|by intros [? _]]|]. split; [done|by intros [? _]]. }
  assert (forallb is_error (r0 :: rs) = true → existsb is_error (r0 :: rs) = true)
    as Hfe.
  { cbn. by destruct (is_error r0). }
  rewrite calc_response_code_cons.
  destruct (forallb is_error (r0 :: rs)) eqn:Hall;
    [rewrite (Hfe eq_refl)|destruct (existsb is_error (r0 :: rs)) eqn:Hex].
  all: split; [done|].
  all: split; [(split; [done|by intros [_ ?]]) || (split; [done|done])|].
  all: split; [(split; [done|by intros [_ ?]]) || (split; [done|done])|].
  all: (split; [done|by intros [? ?]]) || (split; [done|done]).
Qed.

Lemma calc_response_code_shape (grade_results : list BaseProgramCourseGrade) :
  (_calc_response_code grade_results = 204%Z ↔ grade_results = [])
  ∧ (_calc_response_code grade_results = 422%Z
     ↔ grade_results ≠ [] ∧ ∀ r, r ∈ grade_results → is_error r = true)
  ∧ (_calc_response_code grade_results = 200%Z
     ↔ grade_results ≠ [] ∧ ∀ r, r ∈ grade_results → is_error r = false)
  ∧ (_calc_response_code grade_results = 207%Z
     ↔ (∃ r, r ∈ grade_results ∧ is_error r = true)
       ∧ (∃ r, r ∈ grade_results ∧ is_error r = false)).
Proof.
  destruct (calc_response_code_bool grade_results) as (H204 & H422 & H200 & H207).
  split; [done|].
  split; [by rewrite H422, forallb_is_error|].
  split; [by rewrite H200, existsb_is_error_false|].
  by rewrite H207, existsb_is_error, forallb_is_error_false.
Qed.

(** X13. The status of a grade listing tells the shape of the results: it
    is 204 only for the empty list, 422 only when there are results and all
    are errors, 200 only when there are results and none is an error, 207
    only when an error and a success are both present; and it is never any
    other code. *)
Theorem calc_response_code_inverts (grade_results : list BaseProgramCourseGrade) :
  (_calc_response_code grade_results = 204%Z ↔ grade_results = [])
  ∧ (_calc_response_code grade_results = 422%Z
     ↔ grade_results ≠ [] ∧ ∀ r, r ∈ grade_results → is_error r = true)
  ∧ (_calc_response_code grade_results = 200%Z
     ↔ grade_results ≠ [] ∧ ∀ r, r ∈ grade_results → is_error r = false)
  ∧ (_calc_response_code grade_results = 207%Z
     ↔ (∃ r, r ∈ grade_results ∧ is_error r = true)
       ∧ (∃ r, r ∈ grade_results ∧ is_error r = false))
  ∧ (_calc_response_code grade_results = 200%Z
     ∨ _calc_response_code grade_results = 204%Z
     ∨ _calc_response_code grade_results = 207%Z
     ∨ _calc_response_code grade_results = 422%Z).
Proof.
  destruct (calc_response_code_shape grade_results) as (H204 & H422 & H200 & H207).
  do 4 (split; [done|]).
  unfold _calc_response_code. destruct grade_results; [auto|].
  repeat case_match; auto.
Qed.

(** X14. The status of two lists of grade results taken together is
    determined by the status of each: 204 is neutral, equal statuses are
    kept, and two different statuses other than 204 give 207. *)
Theorem calc_response_code_app (l1 l2 : list BaseProgramCourseGrade) :
  _calc_response_code (l1 ++ l2)
  = join_codes (_calc_response_code l1) (_calc_response_code l2).
Proof.
  destruct l1 as [|a l1]; [reflexivity|].
  destruct l2 as [|b l2].
  { rewrite app_nil_r. unfold join_codes.
    rewrite calc_response_code_cons. cbn [_calc_response_code].
    by repeat case_match. }
  change ((a :: l1) ++ b :: l2) with (a :: (l1 ++ b :: l2)).
  rewrite !calc_response_code_cons.
  change (a :: (l1 ++ b :: l2)) with ((a :: l1) ++ (b :: l2)).
  rewrite forallb_app, existsb_app. unfold join_codes.
  assert (∀ l, forallb is_error l = true → l ≠ [] → existsb is_error l = true)
    as Hfe.
  { intros [|x l] H Hne; [done|]. cbn in *. by destruct (is_error x). }
  destruct (forallb is_error (a :: l1)) eqn:Ha1;
    destruct (forallb is_error (b :: l2)) eqn:Hb1;
    destruct (existsb is_error (a :: l1)) eqn:Ha2;
    destruct (existsb is_error (b :: l2)) eqn:Hb2; try reflexivity.
  all: try (rewrite (Hfe _ Ha1) in Ha2 by done; done).
  all: try (rewrite (Hfe _ Hb1) in Hb2 by done; done).
Qed.

(** X15. The status of the grade listing of a page, from the grade
    computations: 204 exactly for the empty page; 200 exactly when the page
    has learners and the computation returns for each; 422 exactly when the
    page has learners and the computation raises for each; 207 exactly when
    it returns for one learner and raises for another. *)
Theorem get_status_from_grades (read : nat → string → string + CourseGrade)
    (course_key : string) (page : list enrolled) :
  ((get read course_key page).2 = 204%Z ↔ page = [])
  ∧ ((get read course_key page).2 = 200%Z
     ↔ page ≠ [] ∧ ∀ e, e ∈ page → ∃ grade, read (user e) course_key = inr grade)
  ∧ ((get read course_key page).2 = 422%Z
     ↔ page ≠ []
       ∧ ∀ e, e ∈ page → ∃ exception, read (user e) course_key = inl exception)
  ∧ ((get read course_key page).2 = 207%Z
     ↔ (∃ e grade, e ∈ page ∧ read (user e) course_key = inr grade)
       ∧ (∃ e exception, e ∈ page ∧ read (user e) course_key = inl exception)).
Proof.
  unfold get. cbn [snd]. rewrite load_grade_results_fmap.
  destruct (calc_response_code_shape (grade_result read course_key <$> page))
    as (H204 & H422 & H200 & H207).
  assert (∀ e, is_error (grade_result read course_key e) = true
               ↔ ∃ exception, read (user e) course_key = inl exception) as Herr.
  { intros e. unfold grade_result. destruct (read (user e) course_key); cbn.
    - split; eauto.
    - split; [done|]. by intros [? ?]. }
  assert (∀ e, is_error (grade_result read course_key e) = false
               ↔ ∃ grade, read (user e) course_key = inr grade) as Hok.
  { intros e. unfold grade_result. destruct (read (user e) course_key); cbn.
    - split; [done|]. by intros [? ?].
    - split; eauto. }
  assert (grade_result read course_key <$> page = [] ↔ page = []) as Hnil.
  { split; [apply fmap_nil_inv|by intros ->]. }
  assert ((∀ r, r ∈ grade_result read course_key <$> page → is_error r = false)
          ↔ ∀ e, e ∈ page → ∃ grade, read (user e) course_key = inr grade) as HB.
  { split.
    - intros H e He. apply Hok, H. by apply list_elem_of_fmap_2.
    - intros H r Hr. apply list_elem_of_fmap in Hr as (e & -> & He).
      apply Hok. by apply H. }
  assert ((∀ r, r ∈ grade_result read course_key <$> page → is_error r = true)
          ↔ ∀ e, e ∈ page → ∃ exception, read (user e) course_key = inl exception)
    as HC.
  { split.
    - intros H e He. apply Herr, H. by apply list_elem_of_fmap_2.
    - intros H r Hr. apply list_elem_of_fmap in Hr as (e & -> & He).
      apply Herr. by apply H. }
  assert ((∃ r, r ∈ grade_result read course_key <$> page ∧ is_error r = true)
          ↔ ∃ e exception, e ∈ page ∧ read (user e) course_key = inl exception)
    as HD.
  { split.
    - intros (r & Hr & He). apply list_elem_of_fmap in Hr as (e & -> & Hin).
      apply Herr in He as [x Hx]. eauto.
    - intros (e & x & Hin & Hx). exists (grade_result read course_key e).
      split; [by apply list_elem_of_fmap_2|]. apply Herr. eauto. }
  assert ((∃ r, r ∈ grade_result read course_key <$> page ∧ is_error r = false)
          ↔ ∃ e grade, e ∈ page ∧ read (user e) course_key = inr grade) as HE.
  { split.
    - intros (r & Hr & He). apply list_elem_of_fmap in Hr as (e & -> & Hin).
      apply Hok in He as [g Hg]. eauto.
    - intros (e & g & Hin & Hg). exists (grade_result read course_key e).
      split; [by apply list_elem_of_fmap_2|]. apply Hok. eauto. }
  rewrite H204, H200, H422, H207, Hnil, HB, HC, HD, HE. tauto.
Qed.

End GradeStatusProperties.

(** ** Reset of the enrollment data of an organization *)
Module ResetProperties.
Import EnrollmentDataResetView.

Section reset.
Context (organizations : pyval → option Organization).
Context (get_provider_slug : Organization → res string).
Context (get_programs_for_organization : string → list string).
Context (run : command → res unit).
Context (format : pyval → string).

Abbreviation post_with reset_enabled :=
  (post reset_enabled organizations get_provider_slug
     get_programs_for_organization run format).

(** X16. The reset answers with 200, 400, 404 or 501 only, always with a
    plain message, and a command stands only under the answer 200
    [success]: under any other answer, and when an exception comes out, the
    commands run are those that had been run before the request. *)
Theorem reset_commands_only_on_success (reset_enabled : bool)
    (request_data : pyval) (log log' : list command) (out : res Response) :
  post_with reset_enabled request_data log = (out, log') →
  (log' = log
   ∨ out = Ok {| data := Message "success"; status_code := 200 |})
  ∧ (∀ r, out = Ok r →
       (∃ text, data r = Message text)
       ∧ (status_code r = 200%Z ∨ status_code r = 400%Z
          ∨ status_code r = 404%Z ∨ status_code r = 501%Z)).
Proof.
  unfold post, post_body.
  destruct reset_enabled; cbn [negb];
    [|unfold ret; intros [= <- <-]; split; [by left|];
      intros r [= <-]; cbn; eauto 10].
  destruct (py_getitem request_data "organization") as [ex|org_key].
  { destruct ex; unfold ret, raise; intros [= <- <-]; (split; [by left|]);
      intros r [= <-]; cbn; eauto 10. }
  destruct (organizations org_key) as [organization|];
    [|unfold ret; intros [= <- <-]; split; [by left|];
      intros r [= <-]; cbn; eauto 10].
  unfold bind at 1.
  destruct (remove_users get_provider_slug run organization log) as [[ex|[]] log1].
  { intros [= <- <-]. split; [by left|]. by intros r. }
  destruct (get_programs_for_organization (short_name organization)) as [|p ps].
  { unfold ret. intros [= <- <-]. split; [by right|].
    intros r [= <-]. cbn. eauto 10. }
  unfold bind, call_command, ret.
  destruct (run _) as [ex|[]]; intros [= <- <-].
  - split; [by left|]. by intros r.
  - split; [by right|]. intros r [= <-]. cbn. eauto 10.
Qed.

(** X17. With the flag on, for an organization that exists and commands
    that return, the reset answers 200 [success] after running, in this
    order, the removal of the users of the provider of the organization,
    which is left out when the organization has no provider, and the reset
    of the enrollments of the programs of the organization, joined by
    commas, which is left out when it has no program. *)
Theorem reset_success (request_data org_key : pyval) (organization : Organization)
    (log : list command) :
  py_getitem request_data "organization" = Ok org_key →
  organizations org_key = Some organization →
  (∀ ex, get_provider_slug organization = Raise ex →
         ex = ProviderDoesNotExistException) →
  (∀ c, run c = Ok tt) →
  post_with true request_data log
  = (Ok {| data := Message "success"; status_code := 200 |},
     log ++ reset_commands (get_provider_slug organization)
              (get_programs_for_organization (short_name organization))).
Proof.
  intros Hkey Horg Hslug Hrun.
  unfold post, post_body, reset_commands. cbn [negb]. rewrite Hkey, Horg.
  unfold bind at 1, remove_users, bind, lift, call_command.
  destruct (get_provider_slug organization) as [ex|idp_slug] eqn:Hp.
  - rewrite (Hslug ex eq_refl). cbn [app].
    destruct (get_programs_for_organization (short_name organization)) as [|p ps].
    + unfold ret. by rewrite app_nil_r.
    + rewrite Hrun. reflexivity.
  - rewrite Hrun.
    destruct (get_programs_for_organization (short_name organization)) as [|p ps].
    + unfold ret. by rewrite app_nil_r.
    + rewrite Hrun. unfold ret. by rewrite <- app_assoc.
Qed.

(** X18. The refusals of the reset, none of which runs a command. With
    the flag off every request is answered with 501, whatever the body is.
    With the flag on, a request is answered with 400 when the body is a
    dict without [organization], ends in an uncaught [TypeError] when the
    body is not a dict, and is answered with 404 and a message that names
    the organization when no organization has the requested short name. *)
Theorem reset_refusals (log : list command) :
  (∀ request_data,
        post_with false request_data log
        = (Ok {| data := Message "reset not enabled on this environment";
                 status_code := 501 |}, log))
  ∧ (∀ d, dict_lookup "organization" d = None →
        post_with true (PDict d) log
        = (Ok {| data := Message "missing required body content 'organization'";
                 status_code := 400 |}, log))
  ∧ (∀ request_data, (∀ d, request_data ≠ PDict d) →
        post_with true request_data log = (Raise TypeError, log))
  ∧ (∀ request_data org_key,
        py_getitem request_data "organization" = Ok org_key →
        organizations org_key = None →
        post_with true request_data log
        = (Ok {| data := Message ("organization " +:+ format org_key
                                  +:+ " not found");
                 status_code := 404 |}, log)).
Proof.
  split; [reflexivity|]. split; [|split].
  - intros d Hd. unfold post, post_body. cbn. by rewrite Hd.
  - intros request_data Hnd. unfold post, post_body.
    destruct request_data; try reflexivity. by destruct (Hnd d).
  - intros request_data org_key Hkey Horg. unfold post, post_body. cbn [negb].
    by rewrite Hkey, Horg.
Qed.

End reset.

Lemma reset_commands_only_on_success_witness :
  ([] : list command) = []
  ∨ Ok {| data := Message "organization edX not found"; status_code := 404 |}
    = (Ok {| data := Message "success"; status_code := 200 |} : res Response).
Proof.
  eapply proj1.
  apply (reset_commands_only_on_success known_organization provider_of
           programs_of command_returns text_of true
           (PDict [("organization", PStr "edX")]) [] []
           (Ok {| data := Message "organization edX not found";
                  status_code := 404 |})).
  vm_compute. reflexivity.
Defined.

Lemma reset_success_witness :
  post true known_organization provider_of programs_of command_returns text_of
    (PDict [("organization", PStr "MITx")]) []
  = (Ok {| data := Message "success"; status_code := 200 |},
     [{| name := "remove_social_auth_users"; argument := "mitx-saml";
         force := true |};
      {| name := "reset_enrollment_data"; argument := "uuid-1,uuid-2";
         force := true |}]).
Proof.
  apply (reset_success known_organization provider_of programs_of command_returns
           text_of (PDict [("organization", PStr "MITx")]) (PStr "MITx")
           {| short_name := "MITx" |} []).
  - reflexivity.
  - reflexivity.
  - intros ex Hex. vm_compute in Hex. discriminate Hex.
  - reflexivity.
Defined.

End ResetProperties.

(** ** The cache of learning contexts *)
Module ManagerProperties.
Import learning_context_manager.

Section manager.
Context {LearningContext plugin params : Type}.
Context (get_plugin : string → res plugin).
Context (instantiate : plugin → params → res LearningContext).
Context (get_learning_context_params : params).

Abbreviation load := (load_context get_plugin instantiate get_learning_context_params).
Abbreviation get_impl :=
  (get_learning_context_impl get_plugin instantiate get_learning_context_params).
Abbreviation calls_of :=
  (calls get_plugin instantiate get_learning_context_params).

(** What one call does, by the namespace of the key. *)
Lemma get_impl_cases key (cache : gmap string LearningContext) out cache' :
  get_impl key cache = (out, cache') →
  (context_type_of key = None ∧ out = Raise TypeError ∧ cache' = cache)
  ∨ (∃ ns impl, context_type_of key = Some ns
       ∧ cache !! ns = Some impl ∧ out = Ok impl ∧ cache' = cache)
  ∨ (∃ ns ex, context_type_of key = Some ns
       ∧ cache !! ns = None
       ∧ load ns = Raise ex ∧ out = Raise ex ∧ cache' = cache)
  ∨ (∃ ns impl, context_type_of key = Some ns
       ∧ cache !! ns = None
       ∧ load ns = Ok impl
       ∧ out = Ok impl
       ∧ cache' = <[ns := impl]> cache).
Proof.
  unfold get_learning_context_impl.
  destruct key as [ns|ns|]; cbn [context_type_of];
    [| |intros [= <- <-]; by left].
  all: destruct (cache !! ns) as [impl|] eqn:Hc;
    [intros [= <- <-]; right; left; eauto 10|].
  all: assert (match get_plugin ns with
               | inl e => inl e
               | inr cls => instantiate cls get_learning_context_params
               end = load ns) as Hload by done.
  all: destruct (get_plugin ns) as [ex|cls];
    [|destruct (instantiate cls get_learning_context_params) as [ex|impl]].
  all: intros [= <- <-]; right; right.
  all: try (left; exists ns, ex; by repeat split).
  all: right; exists ns, impl; by repeat split.
Qed.

(** X19. Once a call has returned a learning context for a key, every call
    for a key of the same namespace, context key or usage key, returns that
    learning context and leaves the cache as it is: the plugin is not
    loaded again. *)
Theorem cached_impl_reused (key key' : opaque_key)
    (cache cache1 : gmap string LearningContext) (impl : LearningContext) :
  get_learning_context_impl get_plugin instantiate get_learning_context_params key cache
  = (Ok impl, cache1) →
  context_type_of key' = context_type_of key →
  get_learning_context_impl get_plugin instantiate get_learning_context_params key' cache1
  = (Ok impl, cache1).
Proof.
  intros Hcall Hns.
  assert (∃ ns, context_type_of key = Some ns ∧ cache1 !! ns = Some impl)
    as (ns & Hkey & Hc).
  { apply get_impl_cases in Hcall
      as [(_ & ? & _)|[(ns & i & ? & ? & ? & ->)
         |[(ns & ex & _ & _ & _ & ? & _)|(ns & i & ? & _ & _ & ? & ->)]]];
      try done; simplify_eq; exists ns; (split; [done|]); [done|].
    apply lookup_insert_eq. }
  rewrite Hkey in Hns. unfold get_learning_context_impl.
  destruct key' as [ns'|ns'|]; cbn in Hns; simplify_eq; by rewrite Hc.
Qed.

(** X20. A call that raises leaves the cache as it was: a key that is
    neither a learning context key nor a usage key raises [TypeError]
    without a look at the cache, and a namespace whose plugin cannot be
    loaded raises the exception of the plugin manager or of the plugin
    class and is not cached, so the next call for it loads it again. *)
Theorem failed_call_leaves_cache (key : opaque_key)
    (cache cache' : gmap string LearningContext) (ex : exn) :
  get_learning_context_impl get_plugin instantiate get_learning_context_params key cache
  = (Raise ex, cache') →
  cache' = cache
  ∧ ((context_type_of key = None ∧ ex = TypeError)
     ∨ ∃ ns, context_type_of key = Some ns
             ∧ cache !! ns = None
             ∧ (get_plugin ns = Raise ex
                ∨ ∃ cls, get_plugin ns = Ok cls
                         ∧ instantiate cls get_learning_context_params = Raise ex))
  ∧ get_learning_context_impl get_plugin instantiate get_learning_context_params key cache'
    = (Raise ex, cache').
Proof.
  intros Hcall. pose proof Hcall as Hcases. apply get_impl_cases in Hcases
    as [(? & ? & ->)|[(ns & i & ? & ? & ? & ->)
       |[(ns & e & ? & ? & ? & ? & ->)|(ns & i & ? & _ & _ & ? & ->)]]];
    try done; simplify_eq.
  - split; [done|]. split; [by left|done].
  - split; [done|]. split; [|done]. right. exists ns. do 2 (split; [done|]).
    unfold load_context in *. destruct (get_plugin ns) as [e'|cls]; [left; congruence|eauto].
Qed.

Lemma get_impl_cache_grows key (cache : gmap string LearningContext) ns impl :
  cache !! ns = Some impl → (get_impl key cache).2 !! ns = Some impl.
Proof.
  intros Hc. destruct (get_impl key cache) as [out cache'] eqn:Hcall.
  apply get_impl_cases in Hcall
    as [(_ & _ & ->)|[(? & ? & _ & _ & _ & ->)
       |[(? & ? & _ & _ & _ & _ & ->)|(ns' & impl' & _ & Hnone & _ & _ & ->)]]];
    try done.
  cbn. rewrite lookup_insert_ne; [done|]. intros ->. congruence.
Qed.

(** X21. A cached learning context is never replaced: once a namespace is
    in the cache, it is there with the same learning context after any
    sequence of calls, whatever the keys are and whether the calls return
    or raise. *)
Theorem cache_entries_stable (keys : list opaque_key)
    (cache : gmap string LearningContext) (ns : string) (impl : LearningContext) :
  cache !! ns = Some impl →
  calls get_plugin instantiate get_learning_context_params keys cache !! ns = Some impl.
Proof.
  revert cache. induction keys as [|key keys IH]; intros cache Hc; [done|].
  cbn [calls]. apply IH. by apply get_impl_cache_grows.
Qed.

Lemma calls_invariant (keys : list opaque_key) (cache : gmap string LearningContext)
    (ns : string) (impl : LearningContext) :
  calls_of keys cache !! ns = Some impl →
  cache !! ns = Some impl
  ∨ (load ns = Ok impl ∧ ∃ key, key ∈ keys ∧ context_type_of key = Some ns).
Proof.
  revert cache. induction keys as [|key keys IH]; intros cache; [by left|].
  cbn [calls]. intros [Hin|(Hload & key' & Hkey' & Hns)]%IH.
  - destruct (get_impl key cache) as [out cache'] eqn:Hcall. cbn [snd] in Hin.
    apply get_impl_cases in Hcall
      as [(_ & _ & ->)|[(? & ? & _ & _ & _ & ->)
         |[(? & ? & _ & _ & _ & _ & ->)|(ns' & impl' & Hkey & _ & Hload & _ & ->)]]];
      try by left.
    destruct (decide (ns' = ns)) as [->|Hne].
    + rewrite lookup_insert_eq in Hin. simplify_eq. right. split; [done|].
      exists key. split; [by left|done].
    + rewrite lookup_insert_ne in Hin by done. by left.
  - right. split; [done|]. exists key'. split; [by right|done].
Qed.

(** X22. From the empty cache of a freshly loaded module, whatever the
    sequence of calls, the cache holds under a namespace only the learning
    context that the plugin of that namespace gives, and only for a
    namespace that one of the keys asked for. *)
Theorem cache_holds_loaded_contexts (keys : list opaque_key) (ns : string)
    (impl : LearningContext) :
  calls get_plugin instantiate get_learning_context_params keys ∅ !! ns = Some impl →
  load_context get_plugin instantiate get_learning_context_params ns = Ok impl
  ∧ ∃ key, key ∈ keys ∧ context_type_of key = Some ns.
Proof.
  intros [Hin|?]%calls_invariant; [|done]. by rewrite lookup_empty in Hin.
Qed.

End manager.

Lemma cached_impl_reused_witness :
  get_learning_context_impl lib_plugin (λ (_ : unit) (n : nat), Ok n) 7
    (BlockUsageKeyV2 "lib") {["lib" := 7]}
  = (Ok 7, {["lib" := 7]}).
Proof.
  apply (cached_impl_reused lib_plugin (λ (_ : unit) (n : nat), Ok n) 7
           (LearningContextKey "lib") (BlockUsageKeyV2 "lib") ∅).
  - vm_compute. reflexivity.
  - reflexivity.
Defined.

Lemma failed_call_leaves_cache_witness :
  (∅ : gmap string nat) = ∅
  ∧ ((context_type_of (LearningContextKey "course-v1") = None ∧ ServerError = TypeError)
     ∨ ∃ ns, context_type_of (LearningContextKey "course-v1") = Some ns
             ∧ (∅ : gmap string nat) !! ns = None
             ∧ (lib_plugin ns = Raise ServerError
                ∨ ∃ cls, lib_plugin ns = Ok cls
                         ∧ (λ (_ : unit) (n : nat), Ok n) cls 7 = Raise ServerError))
  ∧ get_learning_context_impl lib_plugin (λ (_ : unit) (n : nat), Ok n) 7
      (LearningContextKey "course-v1") ∅
    = (Raise ServerError, ∅).
Proof.
  apply (failed_call_leaves_cache lib_plugin (λ (_ : unit) (n : nat), Ok n) 7
           (LearningContextKey "course-v1") ∅ ∅ ServerError).
  vm_compute. reflexivity.
Defined.

Lemma cache_entries_stable_witness :
  calls lib_plugin (λ (_ : unit) (n : nat), Ok n) 8
    [OtherKey; LearningContextKey "lib"; BlockUsageKeyV2 "lib"] {["lib" := 7]}
    !! "lib" = Some 7.
Proof.
  apply (cache_entries_stable lib_plugin (λ (_ : unit) (n : nat), Ok n) 8).
  vm_compute. reflexivity.
Defined.

Lemma cache_holds_loaded_contexts_witness :
  load_context lib_plugin (λ (_ : unit) (n : nat), Ok n) 8 "lib" = Ok 8
  ∧ ∃ key, key ∈ [OtherKey; LearningContextKey "course-v1"; BlockUsageKeyV2 "lib"]
           ∧ context_type_of key = Some "lib".
Proof.
  apply (cache_holds_loaded_contexts lib_plugin (λ (_ : unit) (n : nat), Ok n) 8).
  vm_compute. reflexivity.
Defined.

End ManagerProperties.

(** ** The programs a user may read *)
Module AccessProperties.
Import UserProgramReadOnlyAccessView.

Lemma dict_setitem_keys {K V : Type} `{EqDecision K} (k : K) (v : V) (d : list (K * V)) :
  (dict_setitem k v d).*1 = if decide (k ∈ d.*1) then d.*1 else d.*1 ++ [k].
Proof.
  induction d as [|[k' v'] d IH]; [done|]. cbn [dict_setitem].
  destruct (decide (k' = k)) as [->|Hne]; cbn.
  - rewrite decide_True; [done|by left].
  - rewrite IH. destruct (decide (k ∈ d.*1)) as [Hin|Hnin].
    + rewrite decide_True; [done|by right].
    + rewrite decide_False; [done|]. rewrite elem_of_cons. naive_solver.
Qed.

Lemma dict_setitem_diagonal {K : Type} `{EqDecision K} (k : K) (d : list (K * K)) :
  d.*2 = d.*1 → (dict_setitem k k d).*2 = (dict_setitem k k d).*1.
Proof.
  induction d as [|[k' v'] d IH]; [done|]. cbn [dict_setitem]. intros [= -> Hd].
  destruct (decide (k' = k)) as [->|Hne]; cbn; f_equal; [done|]. by apply IH.
Qed.

(** The dict built by the loop of [get_course_keys_user_is_staff_for]. *)
Lemma course_keys_loop (all_courses : list CourseAccessRole)
    (course_keys : list (course_key * course_key)) :
  let course_keys' :=
    foldl (λ course_keys course_access,
             match course_id course_access with
             | Some k => dict_setitem k k course_keys
             | None => course_keys
             end) course_keys all_courses in
  course_keys.*2 = course_keys.*1 → NoDup course_keys.*1 →
  course_keys'.*2 = course_keys'.*1 ∧ NoDup course_keys'.*1
  ∧ ∀ k, k ∈ course_keys'.*1
         ↔ k ∈ course_keys.*1 ∨ ∃ a, a ∈ all_courses ∧ course_id a = Some k.
Proof.
  revert course_keys. induction all_courses as [|a l IH]; intros d; cbn zeta.
  - intros Hd Hnd. cbn. split; [done|]. split; [done|]. intros k.
    split; [by left|]. intros [?|(a & []%not_elem_of_nil & _)]; done.
  - intros Hd Hnd. cbn [foldl]. destruct (course_id a) as [k0|] eqn:Hid.
    + destruct (IH (dict_setitem k0 k0 d)) as (Hd' & Hnd' & Hin').
      { by apply dict_setitem_diagonal. }
      { rewrite dict_setitem_keys. case_decide; [done|].
        apply NoDup_app. split; [done|]. split; [|apply NoDup_singleton].
        intros x Hx ->%list_elem_of_singleton. done. }
      split; [done|]. split; [done|]. intros k. rewrite Hin', dict_setitem_keys.
      split.
      * intros [Hk|(a' & Ha' & Hid')]; [|right; exists a'; split; [by right|done]].
        case_decide; [by left|]. apply elem_of_app in Hk as [?|Hk]; [by left|].
        apply list_elem_of_singleton in Hk as ->. right. exists a. split; [by left|done].
      * intros [Hk|(a' & [->|Ha']%elem_of_cons & Hid')].
        -- left. case_decide; [done|]. apply elem_of_app. by left.
        -- left. simplify_eq. case_decide; [done|]. apply elem_of_app. right.
           by apply list_elem_of_singleton.
        -- right. by exists a'.
    + destruct (IH d Hd Hnd) as (Hd' & Hnd' & Hin'). split; [done|]. split; [done|].
      intros k. rewrite Hin'. split.
      * intros [?|(a' & ? & ?)]; [by left|]. right. exists a'. split; [by right|done].
      * intros [?|(a' & [->|?]%elem_of_cons & ?)]; [by left|congruence|].
        right. by exists a'.
Qed.

Section view.
Context {User Site : Type}.
Context (is_staff : User → bool).
Context (courses_with_role : User → role → list CourseAccessRole).
Context (lower : string → string).
Context (normalize_program_type : string → string).
Context (get_programs_by_type : Site → string → list pyval).
Context (get_programs_of_course : course_key → list pyval).
Context (get_programs_of_uuids : list string → option (list pyval)).
Context (fetch_program_enrollments_by_student : User → list ProgramEnrollment).

Abbreviation course_keys_of := (get_course_keys_user_is_staff_for courses_with_role).
Abbreviation matches := (program_matches lower).
Abbreviation staff_programs :=
  (get_programs_user_is_course_staff_for courses_with_role lower get_programs_of_course).

Lemma course_keys_spec (user : User) :
  NoDup (course_keys_of user)
  ∧ ∀ k, k ∈ course_keys_of user
         ↔ (∃ course, k = CourseLocator course)
           ∧ ∃ a, (a ∈ courses_with_role user CourseInstructorRole
                   ∨ a ∈ courses_with_role user CourseStaffRole)
                  ∧ course_id a = Some k.
Proof.
  unfold get_course_keys_user_is_staff_for. cbn zeta.
  match goal with |- context [foldl ?f [] ?l] =>
    destruct (course_keys_loop l []) as (Hd & Hnd & Hin); [done|constructor|] end.
  rewrite Hd. split; [done|]. intros k. rewrite Hin. split.
  - intros [[]%not_elem_of_nil|(a & Ha & Hid)].
    apply list_elem_of_filter in Ha as [Hccx Ha]. apply list_elem_of_union in Ha.
    split; [|by exists a]. unfold filter_ccx in Hccx. rewrite Hid in Hccx.
    destruct k; [eauto|done].
  - intros [[course ->] (a & Ha & Hid)]. right. exists a. split; [|done].
    apply list_elem_of_filter. split; [|by apply list_elem_of_union].
    unfold filter_ccx. by rewrite Hid.
Qed.

(** X23. The course keys a user is staff for are pairwise distinct, none is
    a CCX key, and they are the keys of the rows in which the user has the
    instructor role or the staff role: a course in which the user has both
    roles, or a role twice, is listed once, and a row without a course is
    left out. *)
Theorem course_keys_user_is_staff_for (user : User) :
  NoDup (get_course_keys_user_is_staff_for courses_with_role user)
  ∧ ∀ k, k ∈ get_course_keys_user_is_staff_for courses_with_role user
         ↔ (∃ course, k = CourseLocator course)
           ∧ ∃ a, (a ∈ courses_with_role user CourseInstructorRole
                   ∨ a ∈ courses_with_role user CourseStaffRole)
                  ∧ course_id a = Some k.
Proof. exact (course_keys_spec user). Qed.

Lemma matches_cases f p :
  (py_bool p = false ∧ matches f p = Ok false)
  ∨ (py_bool p = true ∧ (∀ s, py_get p "type" ≠ Ok (PStr s))
     ∧ matches f p = Raise AttributeError)
  ∨ (py_bool p = true ∧ ∃ s, py_get p "type" = Ok (PStr s)
     ∧ matches f p = Ok (bool_decide (lower s = f))).
Proof.
  unfold program_matches. destruct (py_bool p); [right|by left].
  destruct p as [| | | | |d]; try (left; by repeat split).
  cbn [py_get]. destruct (default PNone (dict_lookup "type" d)) as [| | |s| |] eqn:Ht;
    try (left; by repeat split).
  right. split; [done|]. exists s. split; reflexivity.
Qed.

Lemma append_matching_ok f ps acc out :
  append_matching lower f ps acc = Ok out →
  out = acc ++ filter (λ p, matches f p = Ok true) ps.
Proof.
  revert acc. induction ps as [|p ps IH]; intros acc; cbn [append_matching].
  - intros [= <-]. by rewrite filter_nil, app_nil_r.
  - destruct (matches f p) as [e|[]] eqn:Hm; cbn [res_bind]; [done| |]; intros ->%IH.
    + rewrite filter_cons_True by done. by rewrite <- app_assoc.
    + rewrite filter_cons_False; [done|]. intros ?. congruence.
Qed.

Lemma append_programs_ok f ks acc out :
  append_programs lower get_programs_of_course f ks acc = Ok out →
  out = acc ++ (ks ≫= λ k, filter (λ p, matches f p = Ok true) (get_programs_of_course k)).
Proof.
  revert acc. induction ks as [|k ks IH]; intros acc; cbn [append_programs].
  - intros [= <-]. by rewrite app_nil_r.
  - destruct (append_matching lower f (get_programs_of_course k) acc) as [e|acc'] eqn:Hk;
      cbn [res_bind]; [done|]. intros ->%IH. apply append_matching_ok in Hk as ->.
    cbn [mbind list_bind]. by rewrite <- app_assoc.
Qed.

(** X24. When the listing of the programs of a course-staff user returns,
    it holds the programs of the courses the user is staff for that are not
    empty and whose type, lower-cased, is the type asked for, and no other
    program. *)
Theorem course_staff_programs (user : User) (program_type_filter : string)
    (programs : list pyval) :
  get_programs_user_is_course_staff_for courses_with_role lower get_programs_of_course
    user program_type_filter = Ok programs →
  ∀ p, p ∈ programs
       ↔ ∃ k, k ∈ get_course_keys_user_is_staff_for courses_with_role user
              ∧ p ∈ get_programs_of_course k
              ∧ py_bool p = true
              ∧ ∃ s, py_get p "type" = Ok (PStr s) ∧ lower s = program_type_filter.
Proof.
  unfold get_programs_user_is_course_staff_for. intros ->%append_programs_ok p.
  rewrite app_nil_l, list_elem_of_bind.
  assert (matches program_type_filter p = Ok true
          ↔ py_bool p = true
            ∧ ∃ s, py_get p "type" = Ok (PStr s) ∧ lower s = program_type_filter)
    as Hm.
  { destruct (matches_cases program_type_filter p)
      as [[Hb ->]|[(Hb & Hno & ->)|(Hb & s & Hs & ->)]].
    - split; [done|]. intros [? _]. congruence.
    - split; [done|]. intros (_ & s & ? & _). by destruct (Hno s).
    - split.
      + intros [= ?%bool_decide_eq_true]. eauto.
      + intros (_ & s' & Hs' & <-). rewrite Hs in Hs'. simplify_eq.
        by rewrite bool_decide_eq_true_2. }
  split.
  - intros (k & [Hp ?]%list_elem_of_filter & Hk). apply Hm in Hp as [? ?].
    exists k. done.
  - intros (k & Hk & Hin & Hp). exists k. split; [|done].
    apply list_elem_of_filter. split; [|done]. apply Hm. done.
Qed.

Lemma append_matching_raises f ps acc e :
  append_matching lower f ps acc = Raise e → e = AttributeError.
Proof.
  revert acc. induction ps as [|p ps IH]; intros acc; cbn [append_matching]; [done|].
  destruct (matches_cases f p) as [[_ ->]|[(_ & _ & ->)|(_ & s & _ & ->)]]; cbn.
  - apply IH.
  - congruence.
  - apply IH.
Qed.

Lemma append_matching_bad f ps acc p :
  p ∈ ps → py_bool p = true → (∀ s, py_get p "type" ≠ Ok (PStr s)) →
  append_matching lower f ps acc = Raise AttributeError.
Proof.
  intros Hin Hb Hno. revert acc. induction ps as [|p' ps IH]; intros acc.
  { by apply not_elem_of_nil in Hin. }
  cbn [append_matching].
  destruct (matches_cases f p') as [[Hb' ->]|[(_ & _ & ->)|(_ & s & Hs & ->)]];
    cbn; [|done|].
  all: apply elem_of_cons in Hin as [->|Hin]; [|by apply IH].
  - congruence.
  - by destruct (Hno s).
Qed.

(** X25. One program without a type breaks the listing: if a course the
    user is staff for has a program that is not empty and whose [type] is
    missing, [None] or not a string, the listing raises [AttributeError],
    whatever type is asked for and whatever the other programs are. *)
Theorem course_staff_programs_without_type (user : User) (program_type_filter : string)
    (k : course_key) (p : pyval) :
  k ∈ get_course_keys_user_is_staff_for courses_with_role user →
  p ∈ get_programs_of_course k →
  py_bool p = true → (∀ s, py_get p "type" ≠ Ok (PStr s)) →
  get_programs_user_is_course_staff_for courses_with_role lower get_programs_of_course
    user program_type_filter = Raise AttributeError.
Proof.
  unfold get_programs_user_is_course_staff_for. intros Hk Hp Hb Hno.
  generalize (@nil pyval) as acc.
  induction (course_keys_of user) as [|k' ks IH]; intros acc.
  { by apply not_elem_of_nil in Hk. }
  cbn [append_programs].
  destruct (append_matching lower program_type_filter (get_programs_of_course k') acc)
    as [e|acc'] eqn:Hk'; cbn.
  { by apply append_matching_raises in Hk' as ->. }
  apply elem_of_cons in Hk as [->|Hk]; [|by apply IH].
  by rewrite (append_matching_bad _ _ _ p) in Hk'.
Qed.

Lemma res_list_map_ok {A B : Type} (f : A → res B) (l : list A) (out : list B) :
  res_list_map f l = Ok out → Forall2 (λ x y, f x = Ok y) l out.
Proof.
  revert out. induction l as [|x l IH]; intros out; cbn [res_list_map].
  - intros [= <-]. constructor.
  - destruct (f x) as [e|y] eqn:Hx; cbn; [done|].
    destruct (res_list_map f l) as [e|ys]; cbn; [done|]. intros [= <-].
    constructor; [done|by apply IH].
Qed.

(** X26. Roles on CCX courses count for nothing: a user whose instructor
    and staff roles are all on CCX courses, or on no course, gets the
    response the user would get without any role. *)
Theorem ccx_roles_count_for_nothing (user : User) (site : Site) (type : option string) :
  (∀ a, a ∈ courses_with_role user CourseInstructorRole
        ∨ a ∈ courses_with_role user CourseStaffRole →
        ∀ k, course_id a = Some k → ∃ course ccx, k = CCXLocator course ccx) →
  get is_staff courses_with_role lower normalize_program_type get_programs_by_type
    get_programs_of_course get_programs_of_uuids fetch_program_enrollments_by_student
    user site type
  = get is_staff (λ _ _, []) lower normalize_program_type get_programs_by_type
    get_programs_of_course get_programs_of_uuids fetch_program_enrollments_by_student
      user site type.
Proof.
  intros Hccx.
  assert (course_keys_of user = []) as Hnone.
  { destruct (course_keys_of user) as [|k ks] eqn:Hks; [done|].
    assert (k ∈ course_keys_of user) as Hk by (rewrite Hks; by left).
    apply course_keys_spec in Hk as [[course ->] (a & Ha & Hid)].
    by destruct (Hccx a Ha _ Hid) as (? & ? & ?). }
  unfold get, is_course_staff, get_programs_user_is_course_staff_for.
  rewrite Hnone. reflexivity.
Qed.

(** X27. Whenever the view returns, the status is 200 and the body is a
    list of objects that have the keys [uuid] and [slug] and no other. *)
Theorem response_of_uuid_and_slug (user : User) (site : Site) (type : option string)
    (response : Response) :
  get is_staff courses_with_role lower normalize_program_type get_programs_by_type
    get_programs_of_course get_programs_of_uuids fetch_program_enrollments_by_student
    user site type = Ok response →
  status_code response = 200%Z
  ∧ ∃ items, data response = PList items
             ∧ Forall (λ item, ∃ uuid slug,
                         item = PDict [("uuid", uuid); ("slug", slug)]) items.
Proof.
  unfold get.
  match goal with |- (res_bind ?m _) = _ → _ => destruct m as [e|programs] end;
    cbn [res_bind]; [done|].
  destruct (res_list_map uuid_and_slug programs) as [e|items] eqn:Hitems;
    cbn [res_bind]; [done|].
  intros [= <-]. split; [done|]. exists items. split; [done|].
  apply res_list_map_ok in Hitems. clear -Hitems.
  induction Hitems as [|p item ps items Hp _ IH]; constructor; [|done].
  unfold uuid_and_slug in Hp.
  destruct (py_getitem p "uuid") as [e|uuid]; cbn [res_bind] in Hp; [done|].
  destruct (py_getitem p "marketing_slug") as [e|slug]; cbn [res_bind] in Hp; [done|].
  simplify_eq. eauto.
Qed.

End view.

Abbreviation example_get :=
  (get (λ _ : nat, false) roles_of str_lower str_lower catalog_of_type
     catalog_of_course catalog_of_uuids enrollments_of).

Lemma course_staff_programs_witness :
  masters_program ∈ [masters_program]
  ↔ ∃ k, k ∈ get_course_keys_user_is_staff_for roles_of 1
         ∧ masters_program ∈ catalog_of_course k
         ∧ py_bool masters_program = true
         ∧ ∃ s, py_get masters_program "type" = Ok (PStr s)
                ∧ str_lower s = "masters".
Proof.
  apply (course_staff_programs roles_of str_lower catalog_of_course 1 "masters"
           [masters_program]).
  vm_compute. reflexivity.
Defined.

Lemma course_staff_programs_without_type_witness :
  get_programs_user_is_course_staff_for roles_of str_lower catalog_of_course 3 "masters"
  = Raise AttributeError.
Proof.
  apply (course_staff_programs_without_type roles_of str_lower catalog_of_course
           3 "masters" (CourseLocator "c2") untyped_program).
  - apply (bool_decide_unpack _). vm_compute. exact I.
  - simpl. left.
  - vm_compute. reflexivity.
  - intros s. vm_compute. discriminate.
Defined.

Lemma ccx_roles_count_for_nothing_witness :
  example_get 2 tt None
  = get (λ _ : nat, false) (λ _ _, []) str_lower str_lower catalog_of_type
      catalog_of_course catalog_of_uuids enrollments_of 2 tt None.
Proof.
  apply (ccx_roles_count_for_nothing (λ _ : nat, false) roles_of str_lower str_lower
           catalog_of_type catalog_of_course catalog_of_uuids enrollments_of 2 tt None).
  intros a [Ha|Ha] k Hk; vm_compute in Ha.
  - by apply not_elem_of_nil in Ha.
  - apply list_elem_of_singleton in Ha as ->. vm_compute in Hk. simplify_eq. eauto.
Defined.

Lemma response_of_uuid_and_slug_witness :
  status_code {| data := PList [PDict [("uuid", PStr "u1"); ("slug", PStr "s1")]];
                 status_code := 200 |} = 200%Z
  ∧ ∃ items,
      data {| data := PList [PDict [("uuid", PStr "u1"); ("slug", PStr "s1")]];
              status_code := 200 |} = PList items
      ∧ Forall (λ item, ∃ uuid slug,
                  item = PDict [("uuid", uuid); ("slug", slug)]) items.
Proof.
  apply (response_of_uuid_and_slug (λ _ : nat, false) roles_of str_lower str_lower
           catalog_of_type catalog_of_course catalog_of_uuids enrollments_of
           1 tt (Some "Masters")).
  vm_compute. reflexivity.
Defined.

End AccessProperties.

(** ** The course enrollments of one learner in a course-level batch *)
Module CourseLearnerProperties.
Import ProgramCourseEnrollmentsView ProgramCourseResponseStatuses.
Import ValidationProperties ApplicationProperties ExistingProperties.
Import OperationProperties CourseBatchProperties.

Lemma rows_app {A} (t : list A) (x : A) : rows (t ++ [x]) = rows t ++ [(length t, x)].
Proof. unfold rows. rewrite imap_app. cbn. by rewrite Nat.add_0_r. Qed.

Lemma rows_insert {A} (t : list A) (j : nat) (x : A) :
  rows (<[j := x]> t) = <[j := (j, x)]> (rows t).
Proof.
  apply list_eq. intros n. unfold rows. rewrite list_lookup_imap.
  destruct (decide (n = j)) as [->|Hne].
  - destruct (decide (j < length t)) as [Hlt|Hge].
    + rewrite !list_lookup_insert_eq by (by rewrite ?length_imap). done.
    + rewrite !list_insert_ge by (rewrite ?length_imap; lia).
      by rewrite list_lookup_imap.
  - rewrite !list_lookup_insert_ne by done. by rewrite list_lookup_imap.
Qed.

Lemma create_program_course_enrollment_table i course_key st s r s' :
  create_program_course_enrollment i course_key st s = (r, s') →
  r = Ok st
  ∧ program_enrollments s' = program_enrollments s
  ∧ ∃ c, program_course_enrollments s' = program_course_enrollments s ++ [c]
         ∧ pce_program_enrollment c = i.1
         ∧ pce_course_key c = course_key ∧ pce_status c = st.
Proof.
  unfold create_program_course_enrollment, bind, objects_create_pce, save_pce, ret.
  cbn. destruct (pe_user i.2) as [user|]; intros [= <- <-];
    (split; [done|]); (split; [done|]); cbn.
  - exists {| pce_program_enrollment := i.1; pce_course_key := course_key;
              pce_status := st; pce_course_enrollment := Some user |}.
    split; [|done]. by rewrite insert_app_r_alt, Nat.sub_diag by done.
  - by eexists.
Qed.

Lemma change_status_table (c : instance ProgramCourseEnrollment) st s r s' :
  change_status c st s = (r, s') →
  r = Ok st
  ∧ program_enrollments s' = program_enrollments s
  ∧ ∃ c', program_course_enrollments s' = <[c.1 := c']> (program_course_enrollments s)
          ∧ pce_program_enrollment c' = pce_program_enrollment c.2
          ∧ pce_course_key c' = pce_course_key c.2 ∧ pce_status c' = st.
Proof.
  unfold change_status, bind, save_pce, ret. cbn. intros [= <- <-].
  split; [done|]. split; [done|]. eexists. split; [done|]. done.
Qed.

Lemma rows_lookup {A} (t : list A) (j : nat) (x : A) :
  t !! j = Some x → rows t !! j = Some (j, x).
Proof. intros Hj. unfold rows. by rewrite list_lookup_imap, Hj. Qed.

(** A call for the program enrollment [p] leaves alone the course
    enrollments that a predicate false under [p] selects. *)
Lemma course_effect_filter (P : instance ProgramCourseEnrollment → Prop)
    `{!∀ c, Decision (P c)} p s s' :
  (∀ c, pce_program_enrollment c.2 = p → ¬ P c) →
  course_effect p s s' →
  filter P (rows (program_course_enrollments s'))
  = filter P (rows (program_course_enrollments s)).
Proof.
  intros HP [_ [->|[(c & -> & Hc)|(j & c0 & c & Hj & -> & Hc0 & Hc & _)]]]; [done| |].
  - rewrite rows_app, filter_app, filter_cons_False, filter_nil, app_nil_r; [done|].
    by apply HP.
  - rewrite rows_insert. apply (filter_insert_neither P _ j (j, c) (j, c0)).
    + by apply rows_lookup.
    + by apply HP.
    + by apply HP.
Qed.

Lemma of_learner_store program_uuid k s s' c :
  program_enrollments s' = program_enrollments s →
  of_learner program_uuid k s' c = of_learner program_uuid k s c.
Proof. unfold of_learner. by intros ->. Qed.

Lemma of_learner_true program_uuid k s c :
  of_learner program_uuid k s c = true
  ↔ ∃ row, program_enrollments s !! pce_program_enrollment c = Some row
           ∧ py_hash (pe_external_user_key row) = Ok k
           ∧ pe_program_uuid row = program_uuid.
Proof.
  unfold of_learner. destruct (program_enrollments s !! pce_program_enrollment c) as [row|].
  - rewrite bool_decide_eq_true. split; [intros [? ?]; eauto|].
    by intros (? & [= <-] & ? & ?).
  - split; [done|]. by intros (? & ? & _).
Qed.

(** A call for a program enrollment of another learner leaves the course
    enrollments of the learner [k] as they are. *)
Lemma course_effect_other program_uuid k p s s' :
  (∀ row, program_enrollments s !! p = Some row →
          py_hash (pe_external_user_key row) ≠ Ok k) →
  course_effect p s s' →
  course_enrollments_of program_uuid k s' = course_enrollments_of program_uuid k s.
Proof.
  intros Hp Heff. unfold course_enrollments_of.
  rewrite (list_filter_iff _ (λ c, of_learner program_uuid k s c.2 = true)).
  2:{ intros c. rewrite (of_learner_store _ _ s s'); [done|]. apply Heff. }
  apply (course_effect_filter _ p); [|done].
  intros c Hc. rewrite of_learner_true, Hc. intros (row & Hrow & Hk & _).
  by apply (Hp row).
Qed.

Section processed.
Context (op : ProgramEnrollmentsView.operation) (program_uuid : string).
Context (pes : gmap hkey (instance ProgramEnrollment)).
Hypothesis Hlocal : op_local op.

(** A property that the calls for the other learners keep holds after a
    loop that has no record of the learner [k]. *)
Lemma apply_requests_others (I : Store → Prop) k enrs results s out s' :
  (∀ e0 k0 s1 r s2, k0 ≠ k → student_key e0 = Ok k0 →
     snapshot_of program_uuid pes s1 → I s1 →
     op e0 program_uuid (pes !! k0) s1 = (r, s2) → I s2) →
  snapshot_of program_uuid pes s → I s → occurrences k enrs = 0 →
  ProgramEnrollmentsView.apply_requests op program_uuid pes enrs results s = (out, s') →
  I s'.
Proof.
  intros Hstep. revert results s.
  induction enrs as [|e0 enrs IH]; intros results s Hsnap HI Hocc H.
  { cbn in H. unfold ret in H. by simplify_eq. }
  rewrite apply_requests_cons in H. rewrite occurrences_cons in Hocc.
  destruct (student_key e0) as [ex|k0] eqn:Hk0; [by simplify_eq|].
  assert (k0 ≠ k) as Hne.
  { intros ->. rewrite decide_True in Hocc by done. lia. }
  assert (occurrences k enrs = 0) as Hocc' by lia.
  destruct (marked_duplicated results k0); [by eapply IH|].
  destruct (op e0 program_uuid (pes !! k0) s) as [[ex|r] s1] eqn:Hcall.
  - simplify_eq. exact (Hstep e0 k0 s (Raise ex) s' Hne Hk0 Hsnap HI Hcall).
  - eapply (IH _ s1); [| |done|done].
    + by destruct (op_local_step op program_uuid pes Hlocal _ _ _ _ _ Hk0 Hsnap Hcall).
    + exact (Hstep e0 k0 s (Ok r) s1 Hne Hk0 Hsnap HI Hcall).
Qed.

(** The call for a record that is not skipped, among records with distinct
    keys, with what the calls for the other learners keep before it and
    after it. *)
Lemma apply_requests_processed_inv (I : Store → Prop) k enrs results s results' s' e :
  (∀ e0 k0 s1 r s2, k0 ≠ k → student_key e0 = Ok k0 →
     snapshot_of program_uuid pes s1 → I s1 →
     op e0 program_uuid (pes !! k0) s1 = (r, s2) → I s2) →
  snapshot_of program_uuid pes s → I s →
  NoDup (student_key <$> enrs) →
  e ∈ enrs → student_key e = Ok k → marked_duplicated results k = false →
  ProgramEnrollmentsView.apply_requests op program_uuid pes enrs results s
  = (Ok results', s') →
  ∃ s1 r s2, op e program_uuid (pes !! k) s1 = (Ok r, s2)
             ∧ snapshot_of program_uuid pes s1 ∧ I s1
             ∧ results' !! k = Some r
             ∧ ∀ J : Store → Prop,
                 (∀ e0 k0 s3 r0 s4, k0 ≠ k → student_key e0 = Ok k0 →
                    snapshot_of program_uuid pes s3 → J s3 →
                    op e0 program_uuid (pes !! k0) s3 = (r0, s4) → J s4) →
                 J s2 → J s'.
Proof.
  intros Hstep. revert results s.
  induction enrs as [|e0 enrs IH]; intros results s Hsnap HI Hnd He Hk Hdup H.
  { by apply not_elem_of_nil in He. }
  rewrite apply_requests_cons in H.
  rewrite fmap_cons in Hnd. apply NoDup_cons in Hnd as [Hhead Hnd].
  destruct (student_key e0) as [ex|k0] eqn:Hk0; [done|].
  destruct (decide (k0 = k)) as [->|Hne].
  - assert (e = e0) as ->.
    { apply elem_of_cons in He as [->|He]; [done|]. destruct Hhead.
      rewrite <- Hk. by apply list_elem_of_fmap_2. }
    rewrite Hdup in H.
    destruct (op e0 program_uuid (pes !! k) s) as [[ex|r] s1] eqn:Hcall; [done|].
    destruct (op_local_step op program_uuid pes Hlocal _ _ _ _ _ Hk0 Hsnap Hcall)
      as [Hsnap1 _].
    assert (occurrences k enrs = 0) as Hocc.
    { destruct (decide (occurrences k enrs = 0)) as [|Hpos]; [done|].
      assert (0 < occurrences k enrs) as Hocc by lia.
      apply occurrences_pos in Hocc as (e' & He' & Hk').
      destruct Hhead. rewrite <- Hk'. by apply list_elem_of_fmap_2. }
    destruct (apply_requests_frame op program_uuid pes Hlocal enrs
                (<[k := r]> results) s1 (Ok results') s' k Hsnap1) as [_ Hres];
      [by left|done|].
    exists s, r, s1. split; [done|]. split; [done|]. split; [done|]. split.
    + rewrite (Hres _ eq_refl). apply lookup_insert_eq.
    + intros J HJ HJ1. by eapply (apply_requests_others J k enrs).
  - apply elem_of_cons in He as [->|He]; [congruence|].
    destruct (marked_duplicated results k0) eqn:Hdup0; [by eapply IH|].
    destruct (op e0 program_uuid (pes !! k0) s) as [[ex|r] s1] eqn:Hcall; [done|].
    destruct (op_local_step op program_uuid pes Hlocal _ _ _ _ _ Hk0 Hsnap Hcall)
      as [Hsnap1 _].
    eapply (IH _ s1); [done| |done|done|done| |done].
    + exact (Hstep e0 k0 s (Ok r) s1 Hne Hk0 Hsnap HI Hcall).
    + by rewrite marked_duplicated_insert_ne.
Qed.

End processed.

Section batch.
Context (course_serializer : Serializer) (course_key : string).

Abbreviation course_view := (dispatch course_serializer course_key).
Abbreviation operation_for m :=
  (course_operation course_key (course_operation_of course_key m)).

(** What the call for a program enrollment does to the tables, and what it
    returns, by the course enrollment it finds. *)
Lemma course_operation_cases m e program_uuid (i : instance ProgramEnrollment) s r s' :
  operation_for m e program_uuid (Some i) s = (r, s') →
  let found :=
    head (filter (λ c, pce_program_enrollment c.2 = i.1
                       ∧ pce_course_key c.2 = course_key)
            (rows (program_course_enrollments s))) in
  course_effect i.1 s s'
  ∧ (m = POST → is_Some found → r = Ok (PStr "conflict") ∧ s' = s)
  ∧ (m = PATCH → found = None → r = Ok (PStr "not-found") ∧ s' = s)
  ∧ (m ≠ PATCH → found = None → ∀ st, py_getitem e "status" = Ok st →
       r = Ok st
       ∧ ∃ c, program_course_enrollments s' = program_course_enrollments s ++ [c]
              ∧ pce_program_enrollment c = i.1
              ∧ pce_course_key c = course_key ∧ pce_status c = st).
Proof.
  unfold course_operation, bind, get_program_course_enrollment, query. cbn zeta.
  set (found := head _).
  assert (∀ c, found = Some c →
            program_course_enrollments s !! c.1 = Some c.2
            ∧ pce_program_enrollment c.2 = i.1) as Hfound.
  { intros [j c] Hc. apply head_Some_elem_of, list_elem_of_filter in Hc as [[Hp _] Hc].
    apply elem_of_rows in Hc. done. }
  assert (course_effect i.1 s s) as Hrefl by (split; [done|by left]).
  assert (∀ st, create_program_course_enrollment i course_key st s = (r, s') →
            course_effect i.1 s s'
            ∧ r = Ok st
            ∧ ∃ c, program_course_enrollments s' = program_course_enrollments s ++ [c]
                   ∧ pce_program_enrollment c = i.1
                   ∧ pce_course_key c = course_key ∧ pce_status c = st) as Hcreate.
  { intros st (-> & Hpe & c & Ht & Hp & Hc & Hst)%create_program_course_enrollment_table.
    split; [|eauto 10]. split; [done|]. right. left. eauto. }
  assert (∀ c st, found = Some c → change_status c st s = (r, s') →
            course_effect i.1 s s') as Hchange.
  { intros c st Hc (_ & Hpe & c' & Ht & Hp & Hkey & _)%change_status_table.
    destruct (Hfound c Hc) as [Hrow Hparent].
    split; [done|]. right. right. exists c.1, c.2, c'.
    rewrite Hp, Hparent. done. }
  destruct m; cbn [course_operation_of];
    unfold enroll_learner_in_course, modify_learner_enrollment_status,
      create_or_update_learner_enrollment;
    destruct found as [c|] eqn:Hf; unfold bind, lift, ret;
    try (destruct (py_getitem e "status") as [ex|st0] eqn:Hst).
  all: intros Hcall.
  all: try (apply Hcreate in Hcall as (Heff & -> & Hnew)).
  all: try (apply (Hchange c st0 eq_refl) in Hcall as Heff).
  all: try (injection Hcall as <- <-).
  all: split; [done|].
  all: split; [try done; intros _ _; done|].
  all: split; [try done; intros _ _; done|].
  all: try done.
  all: try (intros _ _ st [= <-]; eauto).
  all: try (intros _ ?; done).
Qed.

(** A call for another learner keeps the program enrollments and the
    course enrollments of the learner [k]. *)
Lemma course_step_other m program_uuid (pes : gmap hkey (instance ProgramEnrollment))
    k (s : Store) (X : list (instance ProgramCourseEnrollment)) e0 k0 s1 r s2 :
  k0 ≠ k → snapshot_of program_uuid pes s1 →
  program_enrollments s1 = program_enrollments s
  ∧ course_enrollments_of program_uuid k s1 = X →
  operation_for m e0 program_uuid (pes !! k0) s1 = (r, s2) →
  program_enrollments s2 = program_enrollments s
  ∧ course_enrollments_of program_uuid k s2 = X.
Proof.
  intros Hne Hsnap [Hpe HX] Hcall. destruct (pes !! k0) as [i0|] eqn:Hi0.
  - apply course_operation_cases in Hcall as [Heff _].
    split; [by rewrite (proj1 Heff)|].
    rewrite <- HX. apply (course_effect_other _ _ i0.1); [|done].
    intros row Hrow Hk. destruct (Hsnap k0 i0 Hi0) as (Hh & _ & Hid).
    rewrite Hrow in Hid. cbn in Hid. injection Hid as Hkey _.
    rewrite Hkey in Hk. congruence.
  - unfold course_operation, ret in Hcall. by simplify_eq.
Qed.

(** The one call of the operation for a record that passes validation,
    whose key occurs once and whose learner is enrolled in the program, in
    a batch answered with a result map. *)
Lemma course_valid_record_processed m l program_uuid s s' results code e k :
  course_view m (PList l) program_uuid s
  = (Ok {| data := Results results; status_code := code |}, s') →
  e ∈ l → student_key e = Ok k → occurrences k l = 1 →
  is_valid course_serializer e = true →
  enrolled_in program_uuid k s →
  ∃ (i : instance ProgramEnrollment) s1 r s2,
    program_enrollments s !! i.1 = Some i.2
    ∧ py_hash (pe_external_user_key i.2) = Ok k
    ∧ pe_program_uuid i.2 = program_uuid
    ∧ operation_for m e program_uuid (Some i) s1 = (Ok r, s2)
    ∧ program_enrollments s1 = program_enrollments s
    ∧ course_enrollments_of program_uuid k s1 = course_enrollments_of program_uuid k s
    ∧ course_enrollments_of program_uuid k s' = course_enrollments_of program_uuid k s2
    ∧ results !! k = Some r.
Proof.
  rewrite (course_dispatch_unfold course_serializer course_key).
  intros Hview He Hk Hocc Hvalid Henr.
  apply course_create_or_modify_enrollments_results in Hview
    as (results1 & enrs & pes & _ & Hval & Hex & Happ & _).
  pose proof (λ i, LearnerProperties.get_existing_program_enrollments_rows
                     _ _ _ _ _ k i Hex) as Hrows.
  apply get_existing_program_enrollments_spec in Hex as (_ & Hsnap & Hpes).
  destruct (validate_requests_valid_once _ _ _ _ _ _ _ e k Hval He Hk)
    as [Hin Hres1]; [set_solver|done|done|].
  rewrite lookup_empty in Hres1.
  destruct (validate_requests_accepted _ _ _ _ _ _ _ Hval) as (new & -> & Hnd & _).
  assert (is_Some (pes !! k)) as [i Hi].
  { apply Hpes. split; [done|]. by exists e. }
  rewrite (apply_requests_course_operation _ _ program_uuid) in Happ.
  destruct (apply_requests_processed_inv (operation_for m) program_uuid pes
              (course_operation_local course_key _ (course_operation_of_local course_key m))
              (λ st, program_enrollments st = program_enrollments s
                     ∧ course_enrollments_of program_uuid k st
                       = course_enrollments_of program_uuid k s)
              k new results1 s results s' e)
    as (s1 & r & s2 & Hcall & Hsnap1 & [Hpe1 Hce1] & Hres & Htail);
    [|done|done|done|done|done| |done|].
  { intros e0 k0 s3 r0 s4 Hne _ Hsnap3 HI3 Hcall3.
    by eapply (course_step_other m program_uuid pes k s). }
  { unfold marked_duplicated. by rewrite Hres1. }
  rewrite Hi in Hcall.
  destruct (Hsnap k i Hi) as (Hh & Hp & _).
  exists i, s1, r, s2. do 3 (split; [by auto|]). split; [done|].
  do 2 (split; [done|]). split; [|done].
  pose proof (course_operation_cases _ _ _ _ _ _ _ Hcall) as [[Hpe2 _] _].
  apply (Htail (λ st, program_enrollments st = program_enrollments s
                      ∧ course_enrollments_of program_uuid k st
                        = course_enrollments_of program_uuid k s2)).
  - intros e0 k0 s3 r0 s4 Hne _ Hsnap3 HI3 Hcall3.
    by eapply (course_step_other m program_uuid pes k s).
  - split; [congruence|done].
Qed.

(** The course enrollment that the loop finds under the program
    enrollment [i] of the learner [k], from the course enrollments of the
    learner. *)
Lemma found_of_learner program_uuid k (i : instance ProgramEnrollment) s s1 :
  program_enrollments s !! i.1 = Some i.2 →
  py_hash (pe_external_user_key i.2) = Ok k →
  pe_program_uuid i.2 = program_uuid →
  program_enrollments s1 = program_enrollments s →
  course_enrollments_of program_uuid k s1 = course_enrollments_of program_uuid k s →
  ∀ c, pce_program_enrollment c.2 = i.1 →
       c ∈ rows (program_course_enrollments s1)
       ↔ c ∈ rows (program_course_enrollments s).
Proof.
  intros Hrow Hh Hp Hpe1 Hce1 c Hc.
  assert (∀ st, program_enrollments st = program_enrollments s →
            (c ∈ course_enrollments_of program_uuid k st
             ↔ c ∈ rows (program_course_enrollments st))) as Hin.
  { intros st Hst. unfold course_enrollments_of. rewrite list_elem_of_filter.
    split; [by intros [_ ?]|]. intros ?. split; [|done].
    apply of_learner_true. exists i.2. by rewrite Hst, Hc. }
  by rewrite <- (Hin s1), <- (Hin s), Hce1.
Qed.

(** X28. In a course-level batch answered with a result map, take a record
    that passes validation, whose [student_key] occurs once and whose
    learner is enrolled in the program. Under POST, if every program
    enrollment of the learner in the program has a course enrollment in the
    course, the result is [conflict]; under PATCH, if the learner has no
    course enrollment in the course, the result is [not-found]. In both
    cases the course enrollments of the learner are as they were. *)
Theorem course_conflict_and_not_found (m : method) (l : list pyval)
    (program_uuid : string) (s s' : Store) (results : gmap hkey pyval)
    (code : Z) (e : pyval) (k : hkey) :
  dispatch course_serializer course_key m (PList l) program_uuid s
  = (Ok {| data := Results results; status_code := code |}, s') →
  e ∈ l → student_key e = Ok k → occurrences k l = 1 →
  is_valid course_serializer e = true →
  enrolled_in program_uuid k s →
  (m = POST →
   (∀ p row, program_enrollments s !! p = Some row →
             py_hash (pe_external_user_key row) = Ok k →
             pe_program_uuid row = program_uuid →
             ∃ c, c ∈ course_enrollments_of program_uuid k s
                  ∧ pce_program_enrollment c.2 = p
                  ∧ pce_course_key c.2 = course_key) →
   results !! k = Some (PStr "conflict")
   ∧ course_enrollments_of program_uuid k s' = course_enrollments_of program_uuid k s)
  ∧ (m = PATCH →
     (∀ c, c ∈ course_enrollments_of program_uuid k s →
           pce_course_key c.2 ≠ course_key) →
     results !! k = Some (PStr "not-found")
     ∧ course_enrollments_of program_uuid k s' = course_enrollments_of program_uuid k s).
Proof.
  intros Hview He Hk Hocc Hvalid Henr.
  destruct (course_valid_record_processed _ _ _ _ _ _ _ _ _ Hview He Hk Hocc Hvalid Henr)
    as (i & s1 & r & s2 & Hrow & Hh & Hp & Hcall & Hpe1 & Hce1 & Hce2 & Hres).
  pose proof (found_of_learner _ _ _ _ _ Hrow Hh Hp Hpe1 Hce1) as Hfound.
  destruct (course_operation_cases _ _ _ _ _ _ _ Hcall) as (_ & Hpost & Hpatch & _).
  cbn zeta in Hpost, Hpatch. split.
  - intros -> Hall. destruct (Hall _ _ Hrow Hh Hp) as (c & Hc & Hparent & Hkey).
    destruct Hpost as [Hr ->]; [done| |].
    { apply list_elem_of_filter in Hc as [_ Hc]. apply (Hfound c Hparent) in Hc.
      match goal with |- is_Some (head ?f) =>
        destruct f as [|c0 ?] eqn:Hf; [|by eexists] end.
      assert (c ∈ @nil (instance ProgramCourseEnrollment)) as Hnil.
      { rewrite <- Hf. apply list_elem_of_filter. done. }
      by apply not_elem_of_nil in Hnil. }
    split; [congruence|]. by rewrite Hce2.
  - intros -> Hnone. destruct Hpatch as [Hr ->]; [done| |].
    { apply eq_None_not_Some. intros [c Hc].
      apply head_Some_elem_of, list_elem_of_filter in Hc as [[Hparent Hkey] Hc].
      apply (Hfound c Hparent) in Hc. apply (Hnone c); [|done].
      unfold course_enrollments_of. apply list_elem_of_filter. split; [|done].
      apply of_learner_true. exists i.2. by rewrite Hparent. }
    split; [congruence|]. by rewrite Hce2.
Qed.

(** X29. In a course-level POST answered with a result map, take a record
    with a [status] that passes validation, whose [student_key] occurs once
    and whose learner is enrolled in the program and has no course
    enrollment in the course. Its result is the requested status, and the
    course enrollments of the learner afterwards are those from before
    followed by one new course enrollment in the course with the requested
    status. *)
Theorem course_post_creates_enrollment (l : list pyval) (program_uuid : string)
    (s s' : Store) (results : gmap hkey pyval) (code : Z) (e : pyval) (k : hkey)
    (st : pyval) :
  dispatch course_serializer course_key POST (PList l) program_uuid s
  = (Ok {| data := Results results; status_code := code |}, s') →
  e ∈ l → student_key e = Ok k → occurrences k l = 1 →
  is_valid course_serializer e = true →
  py_getitem e "status" = Ok st →
  enrolled_in program_uuid k s →
  (∀ c, c ∈ course_enrollments_of program_uuid k s → pce_course_key c.2 ≠ course_key) →
  results !! k = Some st
  ∧ ∃ c, course_enrollments_of program_uuid k s'
         = course_enrollments_of program_uuid k s ++ [c]
         ∧ pce_course_key c.2 = course_key ∧ pce_status c.2 = st.
Proof.
  intros Hview He Hk Hocc Hvalid Hst Henr Hnone.
  destruct (course_valid_record_processed _ _ _ _ _ _ _ _ _ Hview He Hk Hocc Hvalid Henr)
    as (i & s1 & r & s2 & Hrow & Hh & Hp & Hcall & Hpe1 & Hce1 & Hce2 & Hres).
  pose proof (found_of_learner _ _ _ _ _ Hrow Hh Hp Hpe1 Hce1) as Hfound.
  destruct (course_operation_cases _ _ _ _ _ _ _ Hcall) as ([Hpe2 _] & _ & _ & Hcreate).
  cbn zeta in Hcreate.
  destruct (Hcreate ltac:(done)) with (st := st)
    as (Hr & c & Ht & Hparent & Hkey & Hstatus); [|done|].
  { apply eq_None_not_Some. intros [c Hc].
    apply head_Some_elem_of, list_elem_of_filter in Hc as [[Hparent Hkey] Hc].
    apply (Hfound c Hparent) in Hc. apply (Hnone c); [|done].
    unfold course_enrollments_of. apply list_elem_of_filter. split; [|done].
    apply of_learner_true. exists i.2. by rewrite Hparent. }
  split; [congruence|].
  exists (length (program_course_enrollments s1), c).
  split; [|done].
  rewrite Hce2, <- Hce1. unfold course_enrollments_of.
  rewrite (list_filter_iff _ (λ c, of_learner program_uuid k s1 c.2 = true)).
  2:{ intros c0. by rewrite (of_learner_store _ _ s1 s2). }
  rewrite Ht, rows_app, filter_app, filter_cons_True, filter_nil; [done|].
  cbn. apply of_learner_true. exists i.2. by rewrite Hparent, Hpe1.
Qed.

(** A property of the store that every call of the operation of the
    handler keeps holds after the request if it held before, whatever the
    request is answered with. *)
Lemma course_view_invariant (I : Store → Prop) m request_data program_uuid s out s' :
  I s →
  (∀ p s1 s2, I s1 → course_effect p s1 s2 → I s2) →
  course_view m request_data program_uuid s = (out, s') →
  I s'.
Proof.
  intros HI Hop. rewrite (course_dispatch_unfold course_serializer course_key).
  unfold create_or_modify_enrollments.
  destruct request_data as [| | | |l|];
    try (unfold ret; by intros [= _ <-]).
  destruct (decide (MAX_ENROLLMENT_RECORDS < length l));
    [unfold ret; by intros [= _ <-]|].
  rewrite check_requests_validate_requests.
  destruct (ProgramEnrollmentsView.validate_requests _ l ∅ ∅ []) as [ex|[results1 enrs]].
  { destruct ex; unfold ret, raise; by intros [= _ <-]. }
  unfold bind at 1.
  change (get_existing_program_enrollments program_uuid enrs s)
    with (ProgramEnrollmentsView.get_existing_program_enrollments
            program_uuid enrs s).
  destruct (ProgramEnrollmentsView.get_existing_program_enrollments program_uuid enrs s)
    as [[ex|pes] s1] eqn:Hex;
    pose proof (LearnerProperties.get_existing_program_enrollments_store
                  _ _ _ _ _ Hex) as ->.
  { by intros [= _ <-]. }
  unfold bind at 1.
  destruct (apply_requests course_key _ pes enrs results1 s) as [out2 s2] eqn:Happ.
  assert (I s2) as HI2.
  { rewrite (apply_requests_course_operation _ _ program_uuid) in Happ.
    eapply apply_requests_invariant; [|exact HI|exact Happ].
    intros e k s1 r s3 _ HI1 Hcall. destruct (pes !! k) as [i|].
    - apply course_operation_cases in Hcall as [Heff _]. by eapply Hop.
    - unfold course_operation, ret in Hcall. by simplify_eq. }
  destruct out2; unfold ret; by intros [= _ <-].
Qed.

(** X30. Whatever a course-level batch handler is given and whatever it
    answers with, an exception included, it leaves the program enrollments
    as they were, and every course enrollment keeps its primary key, its
    program enrollment and its course: course enrollments are only added,
    or written back under the same parent and course. *)
Theorem course_batch_keeps_rows (m : method) (request_data : pyval)
    (program_uuid : string) (s s' : Store) (out : res Response) :
  dispatch course_serializer course_key m request_data program_uuid s = (out, s') →
  program_enrollments s' = program_enrollments s
  ∧ ∀ j c, program_course_enrollments s !! j = Some c →
           ∃ c', program_course_enrollments s' !! j = Some c'
                 ∧ pce_program_enrollment c' = pce_program_enrollment c
                 ∧ pce_course_key c' = pce_course_key c.
Proof.
  apply (course_view_invariant
           (λ st, program_enrollments st = program_enrollments s
                  ∧ ∀ j c, program_course_enrollments s !! j = Some c →
                           ∃ c', program_course_enrollments st !! j = Some c'
                                 ∧ pce_program_enrollment c' = pce_program_enrollment c
                                 ∧ pce_course_key c' = pce_course_key c)).
  { split; [done|]. eauto. }
  intros p s1 s2 [Hpe Hrows]
    [Hpe2 [Ht|[(c1 & Ht & _)|(j0 & c0 & c1 & Hj0 & Ht & Hp0 & Hp1 & Hkey)]]];
    (split; [congruence|]); intros j c Hj; destruct (Hrows j c Hj) as (c' & Hc' & Hp & Hk);
    rewrite Ht.
  - eauto.
  - exists c'. split; [|done]. by apply lookup_app_l_Some.
  - destruct (decide (j = j0)) as [->|Hne].
    + exists c1. rewrite list_lookup_insert_eq by (by eapply lookup_lt_Some).
      split; [done|]. rewrite Hj0 in Hc'. simplify_eq. split; congruence.
    + exists c'. by rewrite list_lookup_insert_ne.
Qed.

End batch.

Lemma course_conflict_and_not_found_witness :
  ({[KStr "learner-1" := PStr "conflict"]} : gmap hkey pyval) !! KStr "learner-1"
  = Some (PStr "conflict")
  ∧ course_enrollments_of "program-1" (KStr "learner-1") one_course_enrollment
    = course_enrollments_of "program-1" (KStr "learner-1") one_course_enrollment.
Proof.
  pose proof (course_conflict_and_not_found course_serializer "course-1" POST
                [record "learner-1" "active"] "program-1" one_course_enrollment
                one_course_enrollment {[KStr "learner-1" := PStr "conflict"]}
                status.HTTP_422_UNPROCESSABLE_ENTITY
                (record "learner-1" "active") (KStr "learner-1")) as H.
  destruct H as [H _].
  - vm_compute. reflexivity.
  - by left.
  - reflexivity.
  - reflexivity.
  - reflexivity.
  - eexists. split; [by left|]. split; reflexivity.
  - apply H; [reflexivity|]. intros p row Hrow _ _. destruct p as [|p]; [|done].
    eexists. split; [by left|]. split; reflexivity.
Defined.

Lemma course_post_creates_enrollment_witness :
  ({[KStr "learner-1" := PStr "active"]} : gmap hkey pyval) !! KStr "learner-1"
  = Some (PStr "active")
  ∧ ∃ c, course_enrollments_of "program-1" (KStr "learner-1") one_course_enrollment
         = course_enrollments_of "program-1" (KStr "learner-1") one_enrollment ++ [c]
         ∧ pce_course_key c.2 = "course-1" ∧ pce_status c.2 = PStr "active".
Proof.
  apply (course_post_creates_enrollment course_serializer "course-1"
           [record "learner-1" "active"] "program-1" one_enrollment
           one_course_enrollment {[KStr "learner-1" := PStr "active"]}
           status.HTTP_200_OK (record "learner-1" "active") (KStr "learner-1")).
  - vm_compute. reflexivity.
  - by left.
  - reflexivity.
  - reflexivity.
  - reflexivity.
  - reflexivity.
  - eexists. split; [by left|]. split; reflexivity.
  - intros c Hc. by apply not_elem_of_nil in Hc.
Defined.

Lemma course_batch_keeps_rows_witness :
  program_enrollments one_course_enrollment = program_enrollments one_course_enrollment
  ∧ ∀ j c, program_course_enrollments one_course_enrollment !! j = Some c →
           ∃ c', program_course_enrollments one_course_enrollment !! j = Some c'
                 ∧ pce_program_enrollment c' = pce_program_enrollment c
                 ∧ pce_course_key c' = pce_course_key c.
Proof.
  apply (course_batch_keeps_rows course_serializer "course-1" PATCH
           (PList [record "learner-1" "active"]) "program-1" one_course_enrollment
           one_course_enrollment
           (Ok {| data := Results {[KStr "learner-1" := PStr "active"]};
                  status_code := status.HTTP_200_OK |})).
  vm_compute. reflexivity.
Defined.

End CourseLearnerProperties.
